(** * Zaber linear stage controller: a model of [zaber_stage.py]

    The development embeds class [ZaberStage] of [zaber_stage.py] as
    functions over an explicit machine state.  The vendor SDK
    ([zaber_motion]), the file system, the clock and the thread library are
    external: every call into them is recorded in a trace and answered by
    an oracle, so that "what was sent to the controller" is a statement
    about the trace.

    Conventions of the model.
    - A number is a rational ([Q]) or one of the two infinities ([num]).
      Every Python [int] and every finite [float] is a rational and Python
      compares them exactly, so [min], [max], [<], [<=] are modelled without
      loss.  The one arithmetic operation of the module, [1.0 / x], is the
      division of binary64: an [int] operand is converted to the nearest
      double first ([OverflowError] when there is none), the quotient is
      rounded to the nearest double, ties to even, and overflows to an
      infinity.  An [int] and the [float] of the same value are the same
      number here, as are [0.0] and [-0.0]; NaN cannot arise from the other
      numbers and is not modelled.  The arguments of the methods and the
      positions the device reports are finite.
    - Attributes that the source assigns from parsed JSON without any type
      test ([port], [min_pos], [max_pos], [max_velocity], the fields of
      [DeviceInfo]) hold dynamically typed values ([pyval]).
    - An exception is the absence of a result; the machine state reached
      before the raise is kept, as in Python.
    - Logging has no effect on control flow or on the state and is left
      out.
    - A method call and a cycle of the polling thread are interleaved as
      whole steps. *)

From Stdlib Require Import QArith ZArith String List Bool Lia Lqa.
From Stdlib Require Import Qabs Qround Qpower DecimalString.
Import ListNotations.

Set Warnings "-register-all".

Local Open Scope string_scope.
Local Open Scope Q_scope.

(** ** Python values *)

(** A number: an [int] or a finite [float], or [float('inf')] ([Inf false])
    or [float('-inf')] ([Inf true]). *)
Inductive num : Type :=
| Fin (q : Q)
| Inf (negative : bool).

Coercion Fin : Q >-> num.

(** The values [json.load] produces, which are also the values [json.dump]
    accepts.  A [PyDict] lists its items in insertion order.  [PyNum] is a
    finite number; [PyInf] is an infinity, which [json.dump] writes as
    [Infinity] or [-Infinity] and [json.load] reads back. *)
Inductive pyval : Type :=
| PyNone
| PyBool (b : bool)
| PyNum (q : Q)
| PyInf (negative : bool)
| PyStr (s : string)
| PyList (l : list pyval)
| PyDict (d : list (string * pyval)).

(** Truth value of an object, as tested by [if x], [not x], [x or y]. *)
Definition truthy (v : pyval) : bool :=
  match v with
  | PyNone => false
  | PyBool b => b
  | PyNum q => negb (Qeq_bool q 0)
  | PyInf _ => true
  | PyStr s => negb (String.eqb s "")
  | PyList l => match l with [] => false | _ => true end
  | PyDict d => match d with [] => false | _ => true end
  end.

(** [x == "auto"] for a string literal: only a [str] equals a [str]. *)
Definition eq_str (v : pyval) (s : string) : bool :=
  match v with
  | PyStr t => String.eqb t s
  | _ => false
  end.

(** The number an operand of arithmetic or of an ordering comparison with a
    [float] stands for; [bool] is a subtype of [int].  [None] is Python's
    [TypeError]. *)
Definition number (v : pyval) : option num :=
  match v with
  | PyNum q => Some (Fin q)
  | PyInf b => Some (Inf b)
  | PyBool true => Some (Fin 1)
  | PyBool false => Some (Fin 0)
  | _ => None
  end.

(** The value [json.dump] is given for a number. *)
Definition py_of_num (x : num) : pyval :=
  match x with
  | Fin q => PyNum q
  | Inf b => PyInf b
  end.

Fixpoint dict_find (k : string) (d : list (string * pyval)) : option pyval :=
  match d with
  | [] => None
  | (k', v) :: d' => if String.eqb k k' then Some v else dict_find k d'
  end.

(** [d.get(k, default)]; [None] is the [AttributeError] of a value that is
    not a [dict]. *)
Definition py_get (v : pyval) (k : string) (default : pyval) : option pyval :=
  match v with
  | PyDict d => Some (match dict_find k d with Some x => x | None => default end)
  | _ => None
  end.

(** [d[k]] for a string key; [None] is [KeyError], or the [TypeError] of
    indexing something else with a string. *)
Definition py_getitem (v : pyval) (k : string) : option pyval :=
  match v with
  | PyDict d => dict_find k d
  | _ => None
  end.

(** [x[i]] for an integer literal [i]: an element of a list, a one-character
    string of a string; [None] is [IndexError], [KeyError] (the keys of a
    parsed JSON object are strings) or [TypeError]. *)
Definition py_index (v : pyval) (i : nat) : option pyval :=
  match v with
  | PyList l => nth_error l i
  | PyStr s => match String.get i s with
               | Some c => Some (PyStr (String c EmptyString))
               | None => None
               end
  | _ => None
  end.

(** ** Numbers *)

Definition Qlt_bool (x y : Q) : bool := negb (Qle_bool y x).

(** [min(a, b)] returns [b] when [b < a], else [a]; [max(a, b)] returns [b]
    when [b > a], else [a]. *)
Definition py_min (a b : Q) : Q := if Qlt_bool b a then b else a.
Definition py_max (a b : Q) : Q := if Qlt_bool a b then b else a.

(** The order of the numbers, the infinities included. *)
Definition num_lt (a b : num) : bool :=
  match a, b with
  | Fin x, Fin y => Qlt_bool x y
  | Fin _, Inf negative => negb negative
  | Inf negative, Fin _ => negative
  | Inf n1, Inf n2 => n1 && negb n2
  end.

Definition num_le (a b : num) : bool :=
  match a, b with
  | Fin x, Fin y => Qle_bool x y
  | Fin _, Inf negative => negb negative
  | Inf negative, Fin _ => negative
  | Inf n1, Inf n2 => n1 || negb n2
  end.

(** [-a], [min(a, b)] and [max(a, b)] where an operand may come from a
    setting. *)
Definition num_opp (a : num) : num :=
  match a with
  | Fin q => Fin (- q)
  | Inf negative => Inf (negb negative)
  end.

Definition num_min (a b : num) : num := if num_lt b a then b else a.
Definition num_max (a b : num) : num := if num_lt a b then b else a.

(** *** The division of binary64

    A double is zero or [n * 2 ^ u] for an integer [n] of at most 53 bits
    and an exponent [u] from [-1074] to [971]. *)

Definition two (k : Z) : Q := 2 ^ k.

(** The least magnitude that rounds to an infinity: half an ulp above the
    largest double. *)
Definition huge : Q := two 1024 - two 970.

(** The [k] with [2 ^ k <= |x| < 2 ^ (k + 1)], for [x] other than 0. *)
Definition ilog2 (x : Q) : Z :=
  let k := (Z.log2 (Z.abs (Qnum x)) - Z.log2 (Zpos (Qden x)))%Z in
  if Qle_bool (two k) (Qabs x) then k else (k - 1)%Z.

(** The nearest integer, the even one of two that are equally near. *)
Definition rne (m : Q) : Z :=
  let f := Qfloor m in
  match Qcompare (m - inject_Z f) (1 # 2) with
  | Lt => f
  | Gt => (f + 1)%Z
  | Eq => if Z.even f then f else (f + 1)%Z
  end.

(** The exponent of the unit in the last place of the doubles next to [x]:
    53 bits in the binade of [x], and never below [2 ^ -1074]. *)
Definition ulp (x : Q) : Z := Z.max (ilog2 x - 52) (-1074).

(** The double nearest to [x], ties to even, for [|x| < huge]. *)
Definition round64 (x : Q) : Q :=
  if Qeq_bool x 0 then 0
  else Qred (inject_Z (rne (x / two (ulp x))) * two (ulp x)).

(** The operand of a [float] operation as a double: a [float] is one
    already, an [int] is converted; [None] is the [OverflowError] of an
    [int] too large for a double. *)
Definition to_double (x : num) : option num :=
  match x with
  | Inf negative => Some (Inf negative)
  | Fin q => if Qle_bool huge (Qabs q) then None
             else Some (Fin (round64 (Qred q)))
  end.

(** The quotient [1.0 / d] of binary64 for a finite double [d] other than
    0. *)
Definition recip (d : Q) : num :=
  let y := 1 / d in
  if Qle_bool huge (Qabs y) then Inf (Qlt_bool y 0) else Fin (round64 y).

(** [1.0 / x]; [None] is [OverflowError] (the conversion of [x]) or
    [ZeroDivisionError]. *)
Definition py_inv (x : num) : option num :=
  match to_double x with
  | None => None
  | Some (Inf _) => Some (Fin 0)
  | Some (Fin d) => if Qeq_bool d 0 then None else Some (recip d)
  end.

Arguments round64 : simpl never.
Arguments to_double : simpl never.
Arguments recip : simpl never.
Arguments py_inv : simpl never.
Arguments num_min : simpl never.
Arguments num_max : simpl never.

(** ** Data classes *)

Record DeviceInfo : Type := mkDeviceInfo {
  di_port : pyval;
  di_device_id : pyval;
  di_serial_number : pyval;
  di_name : pyval;
  di_firmware_version : pyval;
  di_device_type : pyval;
  di_axis_count : pyval
}.

(** [DeviceInfo.to_dict], that is [dataclasses.asdict]. *)
Definition to_dict (d : DeviceInfo) : pyval :=
  PyDict [ ("port", di_port d);
           ("device_id", di_device_id d);
           ("serial_number", di_serial_number d);
           ("name", di_name d);
           ("firmware_version", di_firmware_version d);
           ("device_type", di_device_type d);
           ("axis_count", di_axis_count d) ].

Record StageStatus : Type := mkStageStatus {
  position_mm : Q;
  velocity_mm_s : num;
  is_moving_ : bool;
  is_homed_ : bool;
  timestamp : Q
}.

(** ** The vendor SDK and the other external services *)

(** Objects of the SDK are handles; a [Device] carries the attributes the
    module reads from it.  [dev_identity = None] means that reading
    [device.identity] (or one of its attributes) raises; the strings of an
    identity are the results of [str(...)] where the source applies it. *)
Definition Connection := nat.
Definition Axis := nat.
Definition Thread := nat.

Record Identity : Type := mkIdentity {
  serial_number : string;
  name : string;
  firmware_version : string;
  device_type : string
}.

Record Device : Type := mkDevice {
  dev_handle : nat;
  device_id : Z;
  dev_identity : option Identity;
  axis_count : Z
}.

(** A call into an external service, indexed by the type of its result.
    Lengths are in [Units.LENGTH_MILLIMETRES] and velocities in
    [Units.VELOCITY_MILLIMETRES_PER_SECOND] throughout the source;
    [AxisMoveAbsolute] is always issued with [wait_until_idle=False]. *)
Inductive call : Type -> Type :=
| EnableDeviceDbStore : call unit
| OpenSerialPort (port : pyval) : call Connection
| DetectDevices (c : Connection) : call (list Device)
| ConnectionClose (c : Connection) : call unit
| GetAxis (d : Device) (n : Z) : call Axis
| AxisIsHomed (a : Axis) : call bool
| AxisGetPosition (a : Axis) : call Q
| AxisIsBusy (a : Axis) : call bool
| AxisHome (a : Axis) : call unit
| AxisMoveVelocity (a : Axis) (v : num) : call unit
| AxisMoveAbsolute (a : Axis) (p : num) : call unit
| AxisStop (a : Axis) : call unit
| PlatformSystem : call string
| OpenForWriting (filename : string) : call unit
| ClockTime : call Q
| ClockStrftime : call string
| ThreadCreate : call Thread
| ThreadStart (t : Thread) : call unit
| ThreadIsAlive (t : Thread) : call bool
| ThreadJoin (t : Thread) (timeout : Q) : call unit
| Sleep (seconds : num) : call unit.

Inductive event : Type :=
| Ev {T : Type} (c : call T).

(** The behaviour of the external services: the answer to a call given the
    calls made before it; [None] means that the call raises. *)
Definition Oracle : Type := forall T : Type, list event -> call T -> option T.

(** The content of a file: a JSON document, or bytes [json.load] rejects. *)
Inductive file : Type :=
| FileJson (v : pyval)
| FileCorrupt.

Fixpoint file_find (k : string) (fs : list (string * file)) : option file :=
  match fs with
  | [] => None
  | (k', v) :: fs' => if String.eqb k k' then Some v else file_find k fs'
  end.

Record World : Type := mkWorld {
  trace : list event;
  files : list (string * file)
}.

(** ** The controller object

    The attributes of a [ZaberStage] instance, under the names of the
    source.  [_lock] guards the cached status and has no content of its own;
    [_stop_reading] is the flag of the [threading.Event]. *)
Record ZaberStage : Type := mkZaberStage {
  port : pyval;
  min_pos : pyval;
  max_pos : pyval;
  max_velocity : pyval;
  reading_interval : num;
  config_file : string;
  connection : option Connection;
  device : option Device;
  axis : option Axis;
  device_info : option DeviceInfo;
  _connected : bool;
  _current_position : Q;
  _current_velocity : num;
  _is_moving : bool;
  _is_homed : bool;
  _reading_thread : option Thread;
  _stop_reading : bool
}.

(** Attribute assignment [self.f = v], one function per assigned attribute. *)
Definition set_port (v : pyval) (self : ZaberStage) : ZaberStage :=
  {| port := v; min_pos := min_pos self; max_pos := max_pos self;
     max_velocity := max_velocity self; reading_interval := reading_interval
     self; config_file := config_file self; connection := connection self;
     device := device self; axis := axis self; device_info := device_info
     self; _connected := _connected self; _current_position :=
     _current_position self; _current_velocity := _current_velocity self;
     _is_moving := _is_moving self; _is_homed := _is_homed self;
     _reading_thread := _reading_thread self; _stop_reading := _stop_reading
     self |}.
Definition set_min_pos (v : pyval) (self : ZaberStage) : ZaberStage :=
  {| port := port self; min_pos := v; max_pos := max_pos self; max_velocity
     := max_velocity self; reading_interval := reading_interval self;
     config_file := config_file self; connection := connection self; device
     := device self; axis := axis self; device_info := device_info self;
     _connected := _connected self; _current_position := _current_position
     self; _current_velocity := _current_velocity self; _is_moving :=
     _is_moving self; _is_homed := _is_homed self; _reading_thread :=
     _reading_thread self; _stop_reading := _stop_reading self |}.
Definition set_max_pos (v : pyval) (self : ZaberStage) : ZaberStage :=
  {| port := port self; min_pos := min_pos self; max_pos := v; max_velocity
     := max_velocity self; reading_interval := reading_interval self;
     config_file := config_file self; connection := connection self; device
     := device self; axis := axis self; device_info := device_info self;
     _connected := _connected self; _current_position := _current_position
     self; _current_velocity := _current_velocity self; _is_moving :=
     _is_moving self; _is_homed := _is_homed self; _reading_thread :=
     _reading_thread self; _stop_reading := _stop_reading self |}.
Definition set_max_velocity (v : pyval) (self : ZaberStage) : ZaberStage :=
  {| port := port self; min_pos := min_pos self; max_pos := max_pos self;
     max_velocity := v; reading_interval := reading_interval self;
     config_file := config_file self; connection := connection self; device
     := device self; axis := axis self; device_info := device_info self;
     _connected := _connected self; _current_position := _current_position
     self; _current_velocity := _current_velocity self; _is_moving :=
     _is_moving self; _is_homed := _is_homed self; _reading_thread :=
     _reading_thread self; _stop_reading := _stop_reading self |}.
Definition set_reading_interval (v : num) (self : ZaberStage) : ZaberStage :=
  {| port := port self; min_pos := min_pos self; max_pos := max_pos self;
     max_velocity := max_velocity self; reading_interval := v; config_file :=
     config_file self; connection := connection self; device := device self;
     axis := axis self; device_info := device_info self; _connected :=
     _connected self; _current_position := _current_position self;
     _current_velocity := _current_velocity self; _is_moving := _is_moving
     self; _is_homed := _is_homed self; _reading_thread := _reading_thread
     self; _stop_reading := _stop_reading self |}.
Definition set_connection (v : option Connection) (self : ZaberStage) : ZaberStage :=
  {| port := port self; min_pos := min_pos self; max_pos := max_pos self;
     max_velocity := max_velocity self; reading_interval := reading_interval
     self; config_file := config_file self; connection := v; device := device
     self; axis := axis self; device_info := device_info self; _connected :=
     _connected self; _current_position := _current_position self;
     _current_velocity := _current_velocity self; _is_moving := _is_moving
     self; _is_homed := _is_homed self; _reading_thread := _reading_thread
     self; _stop_reading := _stop_reading self |}.
Definition set_device (v : option Device) (self : ZaberStage) : ZaberStage :=
  {| port := port self; min_pos := min_pos self; max_pos := max_pos self;
     max_velocity := max_velocity self; reading_interval := reading_interval
     self; config_file := config_file self; connection := connection self;
     device := v; axis := axis self; device_info := device_info self;
     _connected := _connected self; _current_position := _current_position
     self; _current_velocity := _current_velocity self; _is_moving :=
     _is_moving self; _is_homed := _is_homed self; _reading_thread :=
     _reading_thread self; _stop_reading := _stop_reading self |}.
Definition set_axis (v : option Axis) (self : ZaberStage) : ZaberStage :=
  {| port := port self; min_pos := min_pos self; max_pos := max_pos self;
     max_velocity := max_velocity self; reading_interval := reading_interval
     self; config_file := config_file self; connection := connection self;
     device := device self; axis := v; device_info := device_info self;
     _connected := _connected self; _current_position := _current_position
     self; _current_velocity := _current_velocity self; _is_moving :=
     _is_moving self; _is_homed := _is_homed self; _reading_thread :=
     _reading_thread self; _stop_reading := _stop_reading self |}.
Definition set_device_info (v : option DeviceInfo) (self : ZaberStage) : ZaberStage :=
  {| port := port self; min_pos := min_pos self; max_pos := max_pos self;
     max_velocity := max_velocity self; reading_interval := reading_interval
     self; config_file := config_file self; connection := connection self;
     device := device self; axis := axis self; device_info := v; _connected
     := _connected self; _current_position := _current_position self;
     _current_velocity := _current_velocity self; _is_moving := _is_moving
     self; _is_homed := _is_homed self; _reading_thread := _reading_thread
     self; _stop_reading := _stop_reading self |}.
Definition set__connected (v : bool) (self : ZaberStage) : ZaberStage :=
  {| port := port self; min_pos := min_pos self; max_pos := max_pos self;
     max_velocity := max_velocity self; reading_interval := reading_interval
     self; config_file := config_file self; connection := connection self;
     device := device self; axis := axis self; device_info := device_info
     self; _connected := v; _current_position := _current_position self;
     _current_velocity := _current_velocity self; _is_moving := _is_moving
     self; _is_homed := _is_homed self; _reading_thread := _reading_thread
     self; _stop_reading := _stop_reading self |}.
Definition set__current_position (v : Q) (self : ZaberStage) : ZaberStage :=
  {| port := port self; min_pos := min_pos self; max_pos := max_pos self;
     max_velocity := max_velocity self; reading_interval := reading_interval
     self; config_file := config_file self; connection := connection self;
     device := device self; axis := axis self; device_info := device_info
     self; _connected := _connected self; _current_position := v;
     _current_velocity := _current_velocity self; _is_moving := _is_moving
     self; _is_homed := _is_homed self; _reading_thread := _reading_thread
     self; _stop_reading := _stop_reading self |}.
Definition set__current_velocity (v : num) (self : ZaberStage) : ZaberStage :=
  {| port := port self; min_pos := min_pos self; max_pos := max_pos self;
     max_velocity := max_velocity self; reading_interval := reading_interval
     self; config_file := config_file self; connection := connection self;
     device := device self; axis := axis self; device_info := device_info
     self; _connected := _connected self; _current_position :=
     _current_position self; _current_velocity := v; _is_moving := _is_moving
     self; _is_homed := _is_homed self; _reading_thread := _reading_thread
     self; _stop_reading := _stop_reading self |}.
Definition set__is_moving (v : bool) (self : ZaberStage) : ZaberStage :=
  {| port := port self; min_pos := min_pos self; max_pos := max_pos self;
     max_velocity := max_velocity self; reading_interval := reading_interval
     self; config_file := config_file self; connection := connection self;
     device := device self; axis := axis self; device_info := device_info
     self; _connected := _connected self; _current_position :=
     _current_position self; _current_velocity := _current_velocity self;
     _is_moving := v; _is_homed := _is_homed self; _reading_thread :=
     _reading_thread self; _stop_reading := _stop_reading self |}.
Definition set__is_homed (v : bool) (self : ZaberStage) : ZaberStage :=
  {| port := port self; min_pos := min_pos self; max_pos := max_pos self;
     max_velocity := max_velocity self; reading_interval := reading_interval
     self; config_file := config_file self; connection := connection self;
     device := device self; axis := axis self; device_info := device_info
     self; _connected := _connected self; _current_position :=
     _current_position self; _current_velocity := _current_velocity self;
     _is_moving := _is_moving self; _is_homed := v; _reading_thread :=
     _reading_thread self; _stop_reading := _stop_reading self |}.
Definition set__reading_thread (v : option Thread) (self : ZaberStage) : ZaberStage :=
  {| port := port self; min_pos := min_pos self; max_pos := max_pos self;
     max_velocity := max_velocity self; reading_interval := reading_interval
     self; config_file := config_file self; connection := connection self;
     device := device self; axis := axis self; device_info := device_info
     self; _connected := _connected self; _current_position :=
     _current_position self; _current_velocity := _current_velocity self;
     _is_moving := _is_moving self; _is_homed := _is_homed self;
     _reading_thread := v; _stop_reading := _stop_reading self |}.
Definition set__stop_reading (v : bool) (self : ZaberStage) : ZaberStage :=
  {| port := port self; min_pos := min_pos self; max_pos := max_pos self;
     max_velocity := max_velocity self; reading_interval := reading_interval
     self; config_file := config_file self; connection := connection self;
     device := device self; axis := axis self; device_info := device_info
     self; _connected := _connected self; _current_position :=
     _current_position self; _current_velocity := _current_velocity self;
     _is_moving := _is_moving self; _is_homed := _is_homed self;
     _reading_thread := _reading_thread self; _stop_reading := v |}.

(** ** The machine and its monad *)

(** The controller object together with the world it acts on.  The object
    is shared by the caller's thread and the polling thread: both act on
    the [stage] of the same machine. *)
Record Machine : Type := mkMachine {
  stage : ZaberStage;
  world : World
}.

(** A computation returns a value or raises ([None]); in both cases it
    leaves a machine behind. *)
Definition M (A : Type) : Type := Machine -> option A * Machine.

Definition ret {A : Type} (a : A) : M A := fun m => (Some a, m).

Definition raise {A : Type} : M A := fun m => (None, m).

Definition bind {A B : Type} (c : M A) (k : A -> M B) : M B :=
  fun m => match c m with
           | (Some a, m') => k a m'
           | (None, m') => (None, m')
           end.

(** [try: c  except: h] *)
Definition try_except {A : Type} (c : M A) (h : M A) : M A :=
  fun m => match c m with
           | (Some a, m') => (Some a, m')
           | (None, m') => h m'
           end.

(** The value of a partial primitive, raising where it has none. *)
Definition lift {A : Type} (o : option A) : M A :=
  match o with
  | Some a => ret a
  | None => raise
  end.

(** [self.f] *)
Definition attr {A : Type} (f : ZaberStage -> A) : M A :=
  fun m => (Some (f (stage m)), m).

(** [self.f = v], through the setter of [f]. *)
Definition assign (upd : ZaberStage -> ZaberStage) : M unit :=
  fun m => (Some tt, {| stage := upd (stage m); world := world m |}).

Declare Scope stage_scope.
Delimit Scope stage_scope with stage.
Notation "x <- c ;; k" := (bind c (fun x => k))
  (at level 61, c at next level, right associativity) : stage_scope.
Notation "c ;; k" := (bind c (fun _ => k))
  (at level 61, right associativity) : stage_scope.
Local Open Scope stage_scope.

Definition log_event (e : event) (w : World) : World :=
  {| trace := trace w ++ [e]; files := files w |}.

Definition write_file (filename : string) (content : file) (w : World) : World :=
  {| trace := trace w; files := (filename, content) :: files w |}.

Section Controller.

(** The external services the controller runs against. *)
Variable oracle : Oracle.

(** A call into an external service: it is appended to the trace and the
    oracle answers it from the calls made before. *)
Definition invoke {T : Type} (c : call T) : M T :=
  fun m => (oracle T (trace (world m)) c,
            {| stage := stage m; world := log_event (Ev c) (world m) |}).

(** [with open(filename, 'w') as f: json.dump(config, f, indent=2)].  The
    file holds the value itself: [json.load] returns what [json.dump] was
    given, as it does for the values of [pyval]. *)
Definition dump_json (filename : string) (config : pyval) : M unit :=
  invoke (OpenForWriting filename) ;;
  (fun m => (Some tt, {| stage := stage m;
                         world := write_file filename (FileJson config) (world m) |})).

(** [with open(filename, 'r') as f: config = json.load(f)]; a missing file
    ([FileNotFoundError]) and an unparsable one both raise. *)
Definition load_json (filename : string) : M pyval :=
  fun m => match file_find filename (files (world m)) with
           | Some (FileJson v) => (Some v, m)
           | Some FileCorrupt => (None, m)
           | None => (None, m)
           end.

(** [os.path.exists(filename)] *)
Definition path_exists (filename : string) : M bool :=
  fun m => (Some (match file_find filename (files (world m)) with
                  | Some _ => true
                  | None => false
                  end), m).

(** *** Read access *)

(** [get_position]: the cached position, read under the lock. *)
Definition get_position : M Q := attr _current_position.

Definition get_distance_from_home : M Q :=
  p <- get_position ;; ret (Qabs p).

Definition get_status : M StageStatus :=
  self <- attr (fun self => self) ;;
  now <- invoke ClockTime ;;
  ret {| position_mm := _current_position self;
         velocity_mm_s := _current_velocity self;
         is_moving_ := _is_moving self;
         is_homed_ := _is_homed self;
         timestamp := now |}.

Definition is_connected : M bool := attr _connected.
Definition is_homed : M bool := attr _is_homed.
Definition is_moving : M bool := attr _is_moving.
Definition get_device_info : M (option DeviceInfo) := attr device_info.

(** *** Device discovery *)

Definition DEFAULT_CONFIG_FILE : string := "zaber_config.json".

(** [x or y] for an optional string [x]: [None] and the empty string are
    false. *)
Definition or_else {A : Type} (x : option string) (inj : string -> A) (y : A) : A :=
  match x with
  | Some s => if String.eqb s "" then y else inj s
  | None => y
  end.

(** [_get_device_info(device, port)]: the identity of a device, or the
    fallback record when reading it raises. *)
Definition _get_device_info (self : ZaberStage) (d : Device) (port_arg : option string)
  : DeviceInfo :=
  match dev_identity d with
  | Some identity =>
      {| di_port := or_else port_arg PyStr (port self);
         di_device_id := PyNum (inject_Z (device_id d));
         di_serial_number := PyStr (serial_number identity);
         di_name := PyStr (name identity);
         di_firmware_version := PyStr (firmware_version identity);
         di_device_type := PyStr (device_type identity);
         di_axis_count := PyNum (inject_Z (axis_count d)) |}
  | None =>
      {| di_port := or_else port_arg PyStr (port self);
         di_device_id := PyNum 0;
         di_serial_number := PyStr "MOCK";
         di_name := PyStr "Mock Device";
         di_firmware_version := PyStr "1.0";
         di_device_type := PyStr "Mock";
         di_axis_count := PyNum 1 |}
  end.

Definition decimal (n : nat) : string := NilEmpty.string_of_uint (Nat.to_uint n).

(** The ports [scan_devices] and [_find_zaber_port] try, by platform. *)
Definition candidate_ports (system : string) : list string :=
  if String.eqb system "Windows"
  then map (fun i => "COM" ++ decimal i) (seq 1 19)
  else map (fun i => "/dev/ttyUSB" ++ decimal i) (seq 0 10)
       ++ map (fun i => "/dev/ttyACM" ++ decimal i) (seq 0 10).

(** The loop of [scan_devices].  The devices of a port are appended before
    the port is closed, so they stay in the list when closing raises. *)
Fixpoint scan_ports (ports : list string) (discovered : list DeviceInfo)
  : M (list DeviceInfo) :=
  match ports with
  | [] => ret discovered
  | p :: rest =>
      opened <- try_except
                  (conn <- invoke (OpenSerialPort (PyStr p)) ;;
                   devices <- invoke (DetectDevices conn) ;;
                   ret (Some (conn, devices)))
                  (ret None) ;;
      match opened with
      | None => scan_ports rest discovered
      | Some (conn, devices) =>
          self <- attr (fun self => self) ;;
          let found := map (fun d => _get_device_info self d (Some p)) devices in
          try_except (invoke (ConnectionClose conn)) (ret tt) ;;
          scan_ports rest (discovered ++ found)
      end
  end.

Definition scan_devices : M (list DeviceInfo) :=
  system <- invoke PlatformSystem ;;
  scan_ports (candidate_ports system) [].

(** The loop of [_find_zaber_port]: the first port that opens, answers
    detection with a device and closes; [PyNone] when there is none. *)
Fixpoint find_port (ports : list string) : M pyval :=
  match ports with
  | [] => ret PyNone
  | p :: rest =>
      hit <- try_except
               (conn <- invoke (OpenSerialPort (PyStr p)) ;;
                devices <- invoke (DetectDevices conn) ;;
                invoke (ConnectionClose conn) ;;
                ret (match devices with [] => false | _ => true end))
               (ret false) ;;
      if hit then ret (PyStr p) else find_port rest
  end.

Definition _find_zaber_port : M pyval :=
  system <- invoke PlatformSystem ;;
  find_port (candidate_ports system).

(** *** Configuration persistence *)

(** [save_config(filename)] *)
Definition save_config (filename : option string) : M bool :=
  cf <- attr config_file ;;
  let filename := or_else filename (fun s => s) cf in
  try_except
    (self <- attr (fun self => self) ;;
     rate <- lift (py_inv (reading_interval self)) ;;
     let info := match device_info self with
                 | Some d => to_dict d
                 | None => PyNone
                 end in
     now <- invoke ClockTime ;;
     readable <- invoke ClockStrftime ;;
     let config :=
       PyDict [ ("port", port self);
                ("position_limits_mm", PyList [min_pos self; max_pos self]);
                ("max_velocity_mm_s", max_velocity self);
                ("reading_rate_hz", py_of_num rate);
                ("device_info", info);
                ("timestamp", PyNum now);
                ("timestamp_readable", PyStr readable) ] in
     dump_json filename config ;;
     ret true)
    (ret false).

(** [DeviceInfo(port=info["port"], ...)]: every field is looked up before
    the object exists. *)
Definition parse_device_info (info : pyval) : option DeviceInfo :=
  match py_getitem info "port", py_getitem info "device_id",
        py_getitem info "serial_number", py_getitem info "name",
        py_getitem info "firmware_version", py_getitem info "device_type",
        py_getitem info "axis_count" with
  | Some p, Some i, Some sn, Some n, Some fw, Some dt, Some ac =>
      Some (mkDeviceInfo p i sn n fw dt ac)
  | _, _, _, _, _, _, _ => None
  end.

(** [load_config(filename)].  Both [except] clauses return [False]. *)
Definition load_config (filename : option string) : M bool :=
  cf <- attr config_file ;;
  let filename := or_else filename (fun s => s) cf in
  try_except
    (config <- load_json filename ;;
     p <- lift (py_get config "port" (PyStr "auto")) ;;
     assign (set_port p) ;;
     limits <- lift (py_get config "position_limits_mm" (PyList [PyNum 0; PyNum 100])) ;;
     lo <- lift (py_index limits 0) ;;
     hi <- lift (py_index limits 1) ;;
     assign (set_min_pos lo) ;;
     assign (set_max_pos hi) ;;
     mv <- lift (py_get config "max_velocity_mm_s" (PyNum 10)) ;;
     assign (set_max_velocity mv) ;;
     reading_rate <- lift (py_get config "reading_rate_hz" (PyNum 100)) ;;
     rate <- lift (number reading_rate) ;;
     interval <- lift (py_inv rate) ;;
     assign (set_reading_interval interval) ;;
     present <- lift (py_get config "device_info" PyNone) ;;
     (if truthy present
      then info <- lift (py_getitem config "device_info") ;;
           d <- lift (parse_device_info info) ;;
           assign (set_device_info (Some d))
      else ret tt) ;;
     ret true)
    (ret false).

(** *** Construction *)

(** [ZaberStage(port, position_limit_mm, max_velocity_mm_s, reading_rate_hz,
    config_file)].  There is no object, and no machine, when the division
    raises. *)
Definition __init__ (port_arg : string) (position_limit_mm : Q * Q)
    (max_velocity_mm_s reading_rate_hz : Q) (config_file_arg : option string)
    (w : World) : option Machine :=
  match py_inv (py_min reading_rate_hz 100) with
  | None => None
  | Some interval =>
      let self :=
        {| port := PyStr port_arg;
           min_pos := PyNum (fst position_limit_mm);
           max_pos := PyNum (snd position_limit_mm);
           max_velocity := PyNum max_velocity_mm_s;
           reading_interval := interval;
           config_file := or_else config_file_arg (fun s => s) DEFAULT_CONFIG_FILE;
           connection := None;
           device := None;
           axis := None;
           device_info := None;
           _connected := false;
           _current_position := 0;
           _current_velocity := 0;
           _is_moving := false;
           _is_homed := false;
           _reading_thread := None;
           _stop_reading := false |} in
      let body : M unit :=
        try_except (invoke EnableDeviceDbStore) (ret tt) ;;
        cf <- attr config_file ;;
        found <- path_exists cf ;;
        if String.eqb port_arg "auto" && found
        then load_config None ;; ret tt
        else ret tt in
      Some (snd (body {| stage := self; world := w |}))
  end.

(** *** The polling thread *)

(** [_start_position_reading] *)
Definition _start_position_reading : M unit :=
  t <- attr _reading_thread ;;
  alive <- match t with
           | Some th => invoke (ThreadIsAlive th)
           | None => ret false
           end ;;
  if alive then ret tt
  else assign (set__stop_reading false) ;;
       th <- invoke ThreadCreate ;;
       assign (set__reading_thread (Some th)) ;;
       invoke (ThreadStart th).

(** [_stop_position_reading] *)
Definition _stop_position_reading : M unit :=
  assign (set__stop_reading true) ;;
  t <- attr _reading_thread ;;
  match t with
  | Some th => invoke (ThreadJoin th 1)
  | None => ret tt
  end.

(** The [try] statement in the body of [_read_position_loop]: one read of
    the controller and, when both reads succeed, the update of the cache
    under the lock. *)
Definition read_position_once : M unit :=
  try_except
    (ax <- attr axis ;;
     match ax with
     | Some a =>
         position <- invoke (AxisGetPosition a) ;;
         is_moving <- invoke (AxisIsBusy a) ;;
         assign (set__current_position position) ;;
         assign (set__is_moving is_moving) ;;
         if negb is_moving then assign (set__current_velocity 0) else ret tt
     | None => ret tt
     end)
    (ret tt).

(** [_read_position_loop], for at most [fuel] iterations: the loop ends when
    the stop flag is set, and otherwise never by itself. *)
Fixpoint _read_position_loop (fuel : nat) : M unit :=
  match fuel with
  | O => ret tt
  | S fuel' =>
      stop_set <- attr _stop_reading ;;
      if stop_set then ret tt
      else read_position_once ;;
           interval <- attr reading_interval ;;
           invoke (Sleep interval) ;;
           _read_position_loop fuel'
  end.

(** *** Connection *)

(** [connect()] *)
Definition connect : M bool :=
  try_except
    (p <- attr port ;;
     resolved <-
       (if eq_str p "auto"
        then saved_devices <- scan_devices ;;
             match saved_devices with
             | first :: _ =>
                 assign (set_port (di_port first)) ;;
                 assign (set_device_info (Some first)) ;;
                 ret true
             | [] =>
                 found <- _find_zaber_port ;;
                 assign (set_port found) ;;
                 ret (truthy found)
             end
        else ret true) ;;
     if negb resolved then ret false
     else
       p <- attr port ;;
       conn <- invoke (OpenSerialPort p) ;;
       assign (set_connection (Some conn)) ;;
       devices <- invoke (DetectDevices conn) ;;
       match devices with
       | [] => ret false
       | d :: _ =>
           assign (set_device (Some d)) ;;
           a <- invoke (GetAxis d 1) ;;
           assign (set_axis (Some a)) ;;
           known <- attr device_info ;;
           match known with
           | Some _ => ret tt
           | None =>
               self <- attr (fun self => self) ;;
               assign (set_device_info (Some (_get_device_info self d None))) ;;
               save_config None ;;
               ret tt
           end ;;
           homed <- invoke (AxisIsHomed a) ;;
           assign (set__is_homed homed) ;;
           try_except
             (position <- invoke (AxisGetPosition a) ;;
              assign (set__current_position position))
             (assign (set__current_position 0)) ;;
           assign (set__connected true) ;;
           _start_position_reading ;;
           ret true
       end)
    (ret false).

(** [disconnect()] *)
Definition disconnect : M unit :=
  _stop_position_reading ;;
  ax <- attr axis ;;
  match ax with
  | Some a => try_except (invoke (AxisStop a)) (ret tt)
  | None => ret tt
  end ;;
  c <- attr connection ;;
  match c with
  | Some conn => try_except (invoke (ConnectionClose conn)) (ret tt)
  | None => ret tt
  end ;;
  assign (set__connected false).

(** *** Motion commands *)

(** [self.axis] where the source calls a method on it: an [AttributeError]
    on [None]. *)
Definition the_axis : M Axis :=
  ax <- attr axis ;; lift ax.

Definition present {A : Type} (o : option A) : bool :=
  match o with Some _ => true | None => false end.

(** [home()] *)
Definition home : M bool :=
  self <- attr (fun self => self) ;;
  if negb (_connected self) || negb (present (axis self)) then ret false
  else
    try_except
      (a <- the_axis ;;
       invoke (AxisHome a) ;;
       assign (set__is_homed true) ;;
       ret true)
      (ret false).

(** [set_velocity(velocity_mm_s)] *)
Definition set_velocity (velocity_mm_s : Q) : M bool :=
  self <- attr (fun self => self) ;;
  if negb (_connected self) || negb (present (axis self)) || negb (_is_homed self)
  then ret false
  else
    try_except
      (vmax <- lift (number (max_velocity self)) ;;
       let velocity := num_max (num_opp vmax) (num_min velocity_mm_s vmax) in
       current_pos <- get_position ;;
       lo <- lift (number (min_pos self)) ;;
       velocity <-
         (if num_le current_pos lo && num_lt velocity 0
          then ret (Fin 0)
          else hi <- lift (number (max_pos self)) ;;
               if num_le hi current_pos && num_lt 0 velocity
               then ret (Fin 0)
               else ret velocity) ;;
       a <- the_axis ;;
       invoke (AxisMoveVelocity a velocity) ;;
       assign (set__current_velocity velocity) ;;
       ret true)
      (ret false).

(** [stop()] *)
Definition stop : M bool :=
  self <- attr (fun self => self) ;;
  if negb (_connected self) || negb (present (axis self)) then ret false
  else
    try_except
      (a <- the_axis ;;
       invoke (AxisStop a) ;;
       assign (set__current_velocity 0) ;;
       ret true)
      (ret false).

(** [move_to(position_mm)] *)
Definition move_to (position_mm : Q) : M bool :=
  self <- attr (fun self => self) ;;
  if negb (_connected self) || negb (present (axis self)) || negb (_is_homed self)
  then ret false
  else
    try_except
      (hi <- lift (number (max_pos self)) ;;
       lo <- lift (number (min_pos self)) ;;
       let position := num_max lo (num_min position_mm hi) in
       a <- the_axis ;;
       invoke (AxisMoveAbsolute a position) ;;
       ret true)
      (ret false).

End Controller.

(** ** Further functions of the module *)

Section Convenience.

Variable oracle : Oracle.

(** [save_discovered_devices(devices, filename)] *)
Definition save_discovered_devices (devices : list DeviceInfo) (filename : string)
  : M bool :=
  try_except
    (now <- invoke oracle ClockTime ;;
     readable <- invoke oracle ClockStrftime ;;
     let data :=
       PyDict [ ("discovered_devices", PyList (map to_dict devices));
                ("scan_timestamp", PyNum now);
                ("scan_timestamp_readable", PyStr readable);
                ("device_count", PyNum (inject_Z (Z.of_nat (length devices)))) ] in
     dump_json oracle filename data ;;
     ret true)
    (ret false).

(** [create_stage(port, position_limits, max_velocity, reading_rate)]: the
    connected controller, or [None]; the outer [None] is the exception of
    the constructor. *)
Definition create_stage (port_arg : string) (position_limits : Q * Q)
    (max_velocity_arg reading_rate_arg : Q) (w : World)
  : option (option ZaberStage * World) :=
  match __init__ oracle port_arg position_limits max_velocity_arg reading_rate_arg
          None w with
  | None => None
  | Some m =>
      match connect oracle m with
      | (Some true, m') => Some (Some (stage m'), world m')
      | (_, m') => Some (None, world m')
      end
  end.

(** [discover_all_devices()]: the devices found, or an exception, and the
    world left behind. *)
Definition discover_all_devices (w : World) : option (list DeviceInfo) * World :=
  match __init__ oracle "auto" (0, 100) 10 100 None w with
  | None => (None, w)
  | Some m =>
      let (r, m') :=
        (devices <- scan_devices oracle ;;
         match devices with
         | [] => ret tt
         | _ :: _ =>
             save_discovered_devices devices "discovered_devices.json" ;; ret tt
         end ;;
         ret devices) m in
      (r, world m')
  end.

(** [load_stage_from_config(config_file)] *)
Definition load_stage_from_config (config_file_arg : string) (w : World)
  : option (option ZaberStage * World) :=
  match __init__ oracle "auto" (0, 100) 10 100 (Some config_file_arg) w with
  | None => None
  | Some m =>
      match load_config None m with
      | (Some true, m1) =>
          match connect oracle m1 with
          | (Some true, m2) => Some (Some (stage m2), world m2)
          | (_, m2) => Some (None, world m2)
          end
      | (_, m1) => Some (None, world m1)
      end
  end.

End Convenience.

(** ** Runs of the controller *)

(** The public methods, and the polling thread running for a number of
    iterations. *)
Inductive method : Type :=
| Connect
| Disconnect
| Home
| SetVelocity (velocity_mm_s : Q)
| Stop
| MoveTo (position_mm : Q)
| ScanDevices
| SaveConfig (filename : option string)
| LoadConfig (filename : option string)
| Poll (iterations : nat).

(** The machine a method leaves behind, whether it returns or raises. *)
Definition perform (oracle : Oracle) (op : method) (m : Machine) : Machine :=
  match op with
  | Connect => snd (connect oracle m)
  | Disconnect => snd (disconnect oracle m)
  | Home => snd (home oracle m)
  | SetVelocity v => snd (set_velocity oracle v m)
  | Stop => snd (stop oracle m)
  | MoveTo t => snd (move_to oracle t m)
  | ScanDevices => snd (scan_devices oracle m)
  | SaveConfig f => snd (save_config oracle f m)
  | LoadConfig f => snd (load_config f m)
  | Poll n => snd (_read_position_loop oracle n m)
  end.

(** The machines a program can bring about: it constructs the object in
    some world and then calls methods on it, while the polling thread runs
    in between. *)
Inductive reachable (oracle : Oracle) : Machine -> Prop :=
| reach_init : forall port_arg limits max_velocity_mm_s reading_rate_hz cf w m,
    __init__ oracle port_arg limits max_velocity_mm_s reading_rate_hz cf w = Some m ->
    reachable oracle m
| reach_step : forall op m,
    reachable oracle m ->
    reachable oracle (perform oracle op m).

(** ** Specification vocabulary *)

(** [clamp v lo hi]: the point of the interval from [lo] to [hi] nearest to
    [v]. *)
Definition clamp (v lo hi : Q) : Q :=
  if Qlt_bool v lo then lo else if Qlt_bool hi v then hi else v.

(** The cached status fields of the controller. *)
Definition cache (self : ZaberStage) : Q * num * bool * bool :=
  (_current_position self, _current_velocity self, _is_moving self, _is_homed self).


(** Whether the external service raises on the call of an event made after
    the trace [tr]. *)
Definition raises (oracle : Oracle) (tr : list event) (e : event) : bool :=
  match e with
  | @Ev T c => match oracle T tr c with Some _ => false | None => true end
  end.

(** A method run from [m] to [m'] issued one external call, and that call
    was rejected. *)
Definition rejected (oracle : Oracle) (m m' : Machine) : Prop :=
  exists e, trace (world m') = (trace (world m) ++ [e])%list
            /\ raises oracle (trace (world m)) e = true.

(** The reading rate a polling period stands for, [1.0 / reading_interval],
    as [save_config] computes it. *)
Definition reading_rate (self : ZaberStage) : option num :=
  py_inv (reading_interval self).

(** The relative error of one rounding of binary64, [2 ^ -53], and the
    factors two roundings leave between [1.0 / x] and the exact
    quotient. *)
Definition eps : Q := 1 # 9007199254740992.
Definition c1 : Q := (1 - eps) / (1 + eps).
Definition c2 : Q := (1 + eps) / (1 - eps).

(** The required fields of a persisted device identity. *)
Definition identity_fields : list string :=
  ["port"; "device_id"; "serial_number"; "name"; "firmware_version";
   "device_type"; "axis_count"].

(** ** Reasoning about computations *)

(** [c] leaves the component [f] of the controller object as it was,
    whether it returns or raises. *)
Definition keeps {A B : Type} (f : ZaberStage -> B) (c : M A) : Prop :=
  forall m, f (stage (snd (c m))) = f (stage m).

(** From an object satisfying [P], [c] leads to an object satisfying [Q],
    whether it returns or raises. *)
Definition hoare {A : Type} (P : ZaberStage -> Prop) (c : M A)
    (Q : ZaberStage -> Prop) : Prop :=
  forall m, P (stage m) -> Q (stage (snd (c m))).

(** A controller marked connected holds an axis. *)
Definition linked (self : ZaberStage) : Prop :=
  _connected self = true -> present (axis self) = true.

Definition link (self : ZaberStage) : bool * option Axis :=
  (_connected self, axis self).

(** ** A simulated stage

    A test double of the external services, used to run the model on
    concrete inputs: one device on port COM3 that reports the position
    [position], is homed once a homing command was accepted, and accepts
    motion commands when [accepting] is set.  With [exclusive] set the port
    cannot be opened a second time while it is open. *)

Definition sim_device : Device :=
  {| dev_handle := 1;
     device_id := 1;
     dev_identity := Some {| serial_number := "52714";
                             name := "X-LSM100A";
                             firmware_version := "7.28";
                             device_type := "Linear" |};
     axis_count := 1 |}.

Definition is_open (e : event) : bool :=
  match e with
  | @Ev _ (OpenSerialPort _) => true
  | _ => false
  end.

Definition is_home (e : event) : bool :=
  match e with
  | @Ev _ (AxisHome _) => true
  | _ => false
  end.

Definition sim (position : Q) (accepting exclusive : bool) : Oracle :=
  fun T tr c =>
    match c in call T return option T with
    | EnableDeviceDbStore => Some tt
    | OpenSerialPort p =>
        if eq_str p "COM3" && negb (exclusive && existsb is_open tr)
        then Some 1%nat else None
    | DetectDevices _ => Some [sim_device]
    | ConnectionClose _ => Some tt
    | GetAxis _ _ => Some 1%nat
    | AxisIsHomed _ => Some (existsb is_home tr)
    | AxisGetPosition _ => Some position
    | AxisIsBusy _ => Some false
    | AxisHome _ => if accepting then Some tt else None
    | AxisMoveVelocity _ _ => if accepting then Some tt else None
    | AxisMoveAbsolute _ _ => if accepting then Some tt else None
    | AxisStop _ => if accepting then Some tt else None
    | PlatformSystem => Some "Linux"
    | OpenForWriting _ => Some tt
    | ClockTime => Some 1762000000
    | ClockStrftime => Some "2025-11-01 12:26:40"
    | ThreadCreate => Some 1%nat
    | ThreadStart _ => Some tt
    | ThreadIsAlive _ => Some true
    | ThreadJoin _ _ => Some tt
    | Sleep _ => Some tt
    end.

Definition empty_world : World := {| trace := []; files := [] |}.

(** The machine [ZaberStage("COM3", (0, 100), 10, 100)] leaves in an empty
    world. *)
Definition fresh_machine : Machine :=
  {| stage :=
       {| port := PyStr "COM3";
          min_pos := PyNum 0;
          max_pos := PyNum 100;
          max_velocity := PyNum 10;
          reading_interval := recip 100;
          config_file := "zaber_config.json";
          connection := None;
          device := None;
          axis := None;
          device_info := None;
          _connected := false;
          _current_position := 0;
          _current_velocity := 0;
          _is_moving := false;
          _is_homed := false;
          _reading_thread := None;
          _stop_reading := false |};
     world := {| trace := [Ev EnableDeviceDbStore]; files := [] |} |}.

(** A sequence of method calls. *)
Definition run (oracle : Oracle) (ops : list method) (m : Machine) : Machine :=
  fold_left (fun m op => perform oracle op m) ops m.

(** A stage at [position], connected and homed. *)
Definition ready (position : Q) : Machine :=
  run (sim position true false) [Connect; Home] fresh_machine.

(** A stage connected but not homed. *)
Definition unhomed : Machine :=
  run (sim 50 true false) [Connect] fresh_machine.

(** A connected stage whose controller rejects motion commands. *)
Definition refusing : Machine :=
  run (sim 50 false false) [Connect] fresh_machine.

(** A connected stage whose port cannot be opened twice. *)
Definition busy : Machine :=
  run (sim 50 true true) [Connect] fresh_machine.

(** The float [1e-320], a rate whose period overflows. *)
Definition slow_rate : Q := round64 (1 # 10 ^ 320).

(** A persisted record asking for 200 Hz. *)
Definition fast_record : pyval :=
  PyDict [ ("port", PyStr "auto");
           ("position_limits_mm", PyList [PyNum 0; PyNum 100]);
           ("max_velocity_mm_s", PyNum 10);
           ("reading_rate_hz", PyNum 200);
           ("device_info", PyNone) ].

Definition fast_world : World :=
  {| trace := []; files := [("zaber_config.json", FileJson fast_record)] |}.

(** A persisted record whose device identity lacks [axis_count]. *)
Definition partial_identity : list (string * pyval) :=
  [ ("port", PyStr "COM7");
    ("device_id", PyNum 1);
    ("serial_number", PyStr "52714");
    ("name", PyStr "X-LSM100A");
    ("firmware_version", PyStr "7.28");
    ("device_type", PyStr "Linear") ].

Definition partial_items : list (string * pyval) :=
  [ ("port", PyStr "COM7");
    ("position_limits_mm", PyList [PyNum 5; PyNum 80]);
    ("max_velocity_mm_s", PyNum 4);
    ("reading_rate_hz", PyNum 50);
    ("device_info", PyDict partial_identity) ].

Definition partial_record : pyval := PyDict partial_items.

Definition partial_machine : Machine :=
  {| stage := stage fresh_machine;
     world := {| trace := [];
                 files := [("zaber_config.json", FileJson partial_record)] |} |}.

(** [ZaberStage("COM9", (5, 50), 2, 20, "stage.json")], placed in the world
    [w]. *)
Definition other_machine (w : World) : Machine :=
  {| stage :=
       {| port := PyStr "COM9";
          min_pos := PyNum 5;
          max_pos := PyNum 50;
          max_velocity := PyNum 2;
          reading_interval := recip 20;
          config_file := "stage.json";
          connection := None;
          device := None;
          axis := None;
          device_info := None;
          _connected := false;
          _current_position := 0;
          _current_velocity := 0;
          _is_moving := false;
          _is_homed := false;
          _reading_thread := None;
          _stop_reading := false |};
     world := w |}.

(** The motion commands among the methods. *)
Definition command (oracle : Oracle) (op : method) : option (M bool) :=
  match op with
  | Home => Some (home oracle)
  | SetVelocity v => Some (set_velocity oracle v)
  | Stop => Some (stop oracle)
  | MoveTo t => Some (move_to oracle t)
  | _ => None
  end.

(** [c] only adds calls to the trace. *)
Definition appends {A : Type} (c : M A) : Prop :=
  forall m, exists rest, trace (world (snd (c m))) = (trace (world m) ++ rest)%list.

(** The machine after the call [c] was made. *)
Definition logged {T : Type} (c : call T) (m : Machine) : Machine :=
  {| stage := stage m; world := log_event (Ev c) (world m) |}.

(** The value of key [k] in the items [d] of a record, [default] when the
    key is missing. *)
Definition setting (d : list (string * pyval)) (k : string) (default : pyval)
  : pyval :=
  match dict_find k d with Some x => x | None => default end.

(** ** Vocabulary of the further properties *)

(** The configured settings of the controller. *)
Definition settings (self : ZaberStage) : pyval * pyval * pyval * num * string :=
  (min_pos self, max_pos self, max_velocity self, reading_interval self,
   config_file self).

(** The handles of the controller. *)
Definition handles (self : ZaberStage)
  : option Connection * option Device * option Axis :=
  (connection self, device self, axis self).

Definition is_load (op : method) : bool :=
  match op with LoadConfig _ => true | _ => false end.

Definition writes_homed (op : method) : bool :=
  match op with Connect | Home => true | _ => false end.


(** The port of a discovered device is one of [ports]. *)
Definition on_port (ports : list string) (d : DeviceInfo) : Prop :=
  exists p, In p ports /\ di_port d = PyStr p.

(** A service that cannot open any of the candidate ports. *)
Definition no_port_opens (oracle : Oracle) (system : string) : Prop :=
  forall tr p, In p (candidate_ports system) ->
    oracle Connection tr (OpenSerialPort (PyStr p)) = None.


(** The file name a call of [save_config] or [load_config] uses:
    [filename or self.config_file]. *)
Definition effective (filename : option string) (self : ZaberStage) : string :=
  or_else filename (fun s => s) (config_file self).

Definition is_object (v : pyval) : bool :=
  match v with PyDict _ => true | _ => false end.

(** From an object satisfying [P], a run of [c] that returns [True] leads to
    an object satisfying [G]. *)
Definition wins (P : ZaberStage -> Prop) (c : M bool) (G : ZaberStage -> Prop)
  : Prop :=
  forall m, P (stage m) -> fst (c m) = Some true -> G (stage (snd (c m))).

Definition grip (self : ZaberStage)
  : bool * option Connection * option Device * option Axis * option DeviceInfo :=
  (_connected self, connection self, device self, axis self, device_info self).

(** The controller is marked connected and holds a connection, a device,
    an axis and an identity. *)
Definition established (self : ZaberStage) : Prop :=
  _connected self = true
  /\ present (connection self) = true
  /\ present (device self) = true
  /\ present (axis self) = true
  /\ present (device_info self) = true.

Definition has_conn (s : ZaberStage) : Prop := present (connection s) = true.
Definition has_dev (s : ZaberStage) : Prop :=
  has_conn s /\ present (device s) = true.
Definition has_axis (s : ZaberStage) : Prop :=
  has_dev s /\ present (axis s) = true.
Definition has_info (s : ZaberStage) : Prop :=
  has_axis s /\ present (device_info s) = true.

(** One attempt to open each of [ports], in order. *)
Definition attempts (ports : list string) : list event :=
  map (fun p => Ev (OpenSerialPort (PyStr p))) ports.

(** The machine after the calls [evs] were made. *)
Definition extend (evs : list event) (m : Machine) : Machine :=
  {| stage := stage m;
     world := {| trace := trace (world m) ++ evs; files := files (world m) |} |}.

(** [c] leaves the file system as it was. *)
Definition spares {A : Type} (c : M A) : Prop :=
  forall m, files (world (snd (c m))) = files (world m).

(** A bus on which the port opens but no device answers. *)
Definition silent_bus : Oracle :=
  fun T tr c =>
    match c in call T return option T with
    | DetectDevices _ => Some []
    | c' => sim 0 true false _ tr c'
    end.

(** The fresh controller, asked to find its port itself. *)
Definition auto_machine : Machine :=
  {| stage := set_port (PyStr "auto") (stage fresh_machine);
     world := world fresh_machine |}.

(** The items of [fast_record]. *)
Definition fast_items : list (string * pyval) :=
  [ ("port", PyStr "auto");
    ("position_limits_mm", PyList [PyNum 0; PyNum 100]);
    ("max_velocity_mm_s", PyNum 10);
    ("reading_rate_hz", PyNum 200);
    ("device_info", PyNone) ].

(** The fresh controller next to a configuration file holding [items]. *)
Definition stored (items : list (string * pyval)) : Machine :=
  {| stage := stage fresh_machine;
     world := {| trace := [];
                 files := [("zaber_config.json", FileJson (PyDict items))] |} |}.

(** * Properties *)

(** ** Frame rules *)

Section Keeps.

Context {B : Type} (f : ZaberStage -> B).

Lemma keeps_ret {A : Type} (a : A) : keeps f (ret a).
Proof. intros m. reflexivity. Qed.

Lemma keeps_raise {A : Type} : keeps f (@raise A).
Proof. intros m. reflexivity. Qed.

Lemma keeps_lift {A : Type} (o : option A) : keeps f (lift o).
Proof. destruct o; intros m; reflexivity. Qed.

Lemma keeps_attr {A : Type} (g : ZaberStage -> A) : keeps f (attr g).
Proof. intros m. reflexivity. Qed.

Lemma keeps_invoke (oracle : Oracle) {T : Type} (c : call T) :
  keeps f (invoke oracle c).
Proof. intros m. reflexivity. Qed.

Lemma keeps_bind {A C : Type} (c : M A) (k : A -> M C) :
  keeps f c -> (forall a, keeps f (k a)) -> keeps f (bind c k).
Proof.
  intros Hc Hk m. unfold bind. specialize (Hc m).
  destruct (c m) as [[a|] m']; simpl in *.
  - rewrite Hk. exact Hc.
  - exact Hc.
Qed.

Lemma keeps_try_except {A : Type} (c h : M A) :
  keeps f c -> keeps f h -> keeps f (try_except c h).
Proof.
  intros Hc Hh m. unfold try_except. specialize (Hc m).
  destruct (c m) as [[a|] m']; simpl in *.
  - exact Hc.
  - rewrite Hh. exact Hc.
Qed.

Lemma keeps_assign (upd : ZaberStage -> ZaberStage) :
  (forall s, f (upd s) = f s) -> keeps f (assign upd).
Proof. intros H m. simpl. apply H. Qed.

Lemma keeps_load_json (filename : string) : keeps f (load_json filename).
Proof.
  intros m. unfold load_json.
  destruct (file_find _ _) as [[v|]|]; reflexivity.
Qed.

Lemma keeps_path_exists (filename : string) : keeps f (path_exists filename).
Proof. intros m. reflexivity. Qed.

End Keeps.

(** One rule per shape of computation; an assignment is discharged by
    evaluating the setter. *)
Ltac keeps_step :=
  match goal with
  | |- keeps _ (bind _ _) => apply keeps_bind; [ | intros ? ]
  | |- keeps _ (try_except _ _) => apply keeps_try_except
  | |- keeps _ (ret _) => apply keeps_ret
  | |- keeps _ raise => apply keeps_raise
  | |- keeps _ (lift _) => apply keeps_lift
  | |- keeps _ (attr _) => apply keeps_attr
  | |- keeps _ (invoke _ _) => apply keeps_invoke
  | |- keeps _ (load_json _) => apply keeps_load_json
  | |- keeps _ (path_exists _) => apply keeps_path_exists
  | |- keeps _ (assign _) => apply keeps_assign; intros ?; reflexivity
  | |- keeps _ (match ?x with _ => _ end) => destruct x
  | |- keeps _ (let _ := _ in _) => cbv zeta
  end.

Ltac keeps_auto := repeat keeps_step.

Section Frame.

Variable oracle : Oracle.

Context {B : Type} (f : ZaberStage -> B).

Lemma keeps_dump_json (filename : string) (config : pyval) :
  keeps f (dump_json oracle filename config).
Proof. unfold dump_json. keeps_auto. intros m. reflexivity. Qed.

Lemma keeps_scan_ports (ports : list string) :
  forall discovered, keeps f (scan_ports oracle ports discovered).
Proof.
  induction ports as [|p rest IH]; intros discovered; simpl.
  - keeps_auto.
  - keeps_auto; apply IH.
Qed.

Lemma keeps_find_port (ports : list string) : keeps f (find_port oracle ports).
Proof.
  induction ports as [|p rest IH]; simpl.
  - keeps_auto.
  - keeps_auto. apply IH.
Qed.

Lemma keeps_scan_devices : keeps f (scan_devices oracle).
Proof. unfold scan_devices. keeps_auto. apply keeps_scan_ports. Qed.

Lemma keeps_find_zaber_port : keeps f (_find_zaber_port oracle).
Proof. unfold _find_zaber_port. keeps_auto. apply keeps_find_port. Qed.

Lemma keeps_save_config (filename : option string) :
  keeps f (save_config oracle filename).
Proof. unfold save_config. keeps_auto. apply keeps_dump_json. Qed.

Lemma keeps_start_position_reading :
  (forall v s, f (set__stop_reading v s) = f s) ->
  (forall v s, f (set__reading_thread v s) = f s) ->
  keeps f (_start_position_reading oracle).
Proof.
  intros H1 H2. unfold _start_position_reading.
  repeat (keeps_step || (apply keeps_assign; intros; (apply H1 || apply H2))).
Qed.

End Frame.

(** ** Assertions on the controller object *)

Lemma hoare_keeps {A B : Type} (f : ZaberStage -> B) (c : M A)
    (I : ZaberStage -> Prop) :
  (forall s s', f s' = f s -> I s -> I s') -> keeps f c -> hoare I c I.
Proof. intros Hf Hc m Hm. eapply Hf; [apply Hc | exact Hm]. Qed.

Lemma hoare_bind {A C : Type} (P R Q : ZaberStage -> Prop) (c : M A)
    (k : A -> M C) :
  hoare P c R -> (forall s, R s -> Q s) -> (forall a, hoare R (k a) Q) ->
  hoare P (bind c k) Q.
Proof.
  intros Hc HRQ Hk m Hm. unfold bind. specialize (Hc m Hm).
  destruct (c m) as [[a|] m']; simpl in *.
  - apply Hk. exact Hc.
  - apply HRQ. exact Hc.
Qed.

Lemma hoare_try_except {A : Type} (P R Q : ZaberStage -> Prop) (c h : M A) :
  hoare P c R -> (forall s, R s -> Q s) -> hoare R h Q ->
  hoare P (try_except c h) Q.
Proof.
  intros Hc HRQ Hh m Hm. unfold try_except. specialize (Hc m Hm).
  destruct (c m) as [[a|] m']; simpl in *.
  - apply HRQ. exact Hc.
  - apply Hh. exact Hc.
Qed.

Lemma hoare_assign (P Q : ZaberStage -> Prop) (upd : ZaberStage -> ZaberStage) :
  (forall s, P s -> Q (upd s)) -> hoare P (assign upd) Q.
Proof. intros H m Hm. simpl. apply H. exact Hm. Qed.

Lemma hoare_weaken {A : Type} (P Q Q' : ZaberStage -> Prop) (c : M A) :
  hoare P c Q -> (forall s, Q s -> Q' s) -> hoare P c Q'.
Proof. intros H HQ m Hm. apply HQ. apply H. exact Hm. Qed.

(** ** A connected controller holds an axis *)

Lemma linked_link (s s' : ZaberStage) : link s' = link s -> linked s -> linked s'.
Proof. unfold link, linked. intros H. injection H as -> ->. auto. Qed.

Lemma keeps_link_linked {A : Type} (c : M A) : keeps link c -> hoare linked c linked.
Proof. apply hoare_keeps. apply linked_link. Qed.

Ltac link_step :=
  apply hoare_bind with (R := linked);
  [ apply keeps_link_linked; keeps_auto | auto | intros ? ].

Section Linked.

Variable oracle : Oracle.

Lemma connect_linked : hoare linked (connect oracle) linked.
Proof.
  unfold connect.
  apply hoare_try_except with (R := linked);
    [ | auto | apply keeps_link_linked; keeps_auto ].
  link_step.
  apply hoare_bind with (R := linked); [ apply keeps_link_linked | auto | intros resolved ].
  { keeps_auto; try apply keeps_scan_devices; try apply keeps_find_zaber_port. }
  destruct resolved; simpl; [ | apply keeps_link_linked; keeps_auto ].
  do 4 link_step.
  match goal with
  | |- hoare _ (match ?x with _ => _ end) _ => destruct x as [|d ?]
  end; [ apply keeps_link_linked; keeps_auto | ].
  do 2 link_step.
  apply hoare_bind with (R := fun s => present (axis s) = true).
  - apply hoare_assign. reflexivity.
  - unfold linked. auto.
  - intros _.
    apply hoare_weaken with (Q := fun s => present (axis s) = true);
      [ | unfold linked; auto ].
    apply (hoare_keeps axis); [ intros s s' ->; auto | ].
    keeps_auto; try apply keeps_save_config.
    apply keeps_start_position_reading; reflexivity.
Qed.

Lemma disconnect_linked : hoare linked (disconnect oracle) linked.
Proof.
  unfold disconnect, _stop_position_reading.
  do 5 link_step.
  apply hoare_assign. unfold linked. simpl. discriminate.
Qed.

Lemma keeps_link_home : keeps link (home oracle).
Proof. unfold home, the_axis. keeps_auto. Qed.

Lemma keeps_link_set_velocity (v : Q) : keeps link (set_velocity oracle v).
Proof. unfold set_velocity, get_position, the_axis. keeps_auto. Qed.

Lemma keeps_link_stop : keeps link (stop oracle).
Proof. unfold stop, the_axis. keeps_auto. Qed.

Lemma keeps_move_to (t : Q) : keeps (fun s => s) (move_to oracle t).
Proof. unfold move_to, the_axis. keeps_auto. Qed.

Lemma keeps_link_load_config (filename : option string) :
  keeps link (load_config filename).
Proof. unfold load_config. keeps_auto. Qed.

Lemma keeps_link_read_position_once : keeps link (read_position_once oracle).
Proof. unfold read_position_once. keeps_auto. Qed.

Lemma keeps_link_read_position_loop (fuel : nat) :
  keeps link (_read_position_loop oracle fuel).
Proof.
  induction fuel as [|n IH]; simpl.
  - keeps_auto.
  - keeps_auto; [ apply keeps_link_read_position_once | apply IH ].
Qed.

Lemma perform_linked (op : method) (m : Machine) :
  linked (stage m) -> linked (stage (perform oracle op m)).
Proof.
  destruct op; simpl.
  - apply connect_linked.
  - apply disconnect_linked.
  - apply keeps_link_linked, keeps_link_home.
  - apply keeps_link_linked, keeps_link_set_velocity.
  - apply keeps_link_linked, keeps_link_stop.
  - apply keeps_link_linked. intros m'. rewrite keeps_move_to. reflexivity.
  - apply keeps_link_linked, keeps_scan_devices.
  - apply keeps_link_linked, keeps_save_config.
  - apply keeps_link_linked, keeps_link_load_config.
  - apply keeps_link_linked, keeps_link_read_position_loop.
Qed.

Lemma init_linked port_arg limits max_velocity_mm_s reading_rate_hz cf w m :
  __init__ oracle port_arg limits max_velocity_mm_s reading_rate_hz cf w = Some m ->
  linked (stage m).
Proof.
  unfold __init__. destruct (py_inv _) as [interval|]; [ | discriminate ].
  intros H. injection H as <-.
  match goal with
  | |- linked (stage (snd (?c ?m0))) =>
      assert (K : keeps link c); [ | apply (keeps_link_linked c K m0) ]
  end.
  - keeps_auto. apply keeps_link_load_config.
  - unfold linked. simpl. discriminate.
Qed.

(** Every machine a program can bring about holds an axis when it is
    marked connected. *)
Lemma reachable_linked (m : Machine) : reachable oracle m -> linked (stage m).
Proof.
  induction 1 as [? ? ? ? ? ? ? H | op m _ IH].
  - eapply init_linked. exact H.
  - apply perform_linked. exact IH.
Qed.

Lemma connected_axis (m : Machine) :
  reachable oracle m -> _connected (stage m) = true ->
  exists a, axis (stage m) = Some a.
Proof.
  intros Hr Hc. pose proof (reachable_linked m Hr Hc) as H.
  destruct (axis (stage m)) as [a|]; [ exists a; reflexivity | discriminate ].
Qed.

End Linked.

(** ** Order and arithmetic on rationals *)

Lemma Qle_bool_spec (x y : Q) : reflect (x <= y) (Qle_bool x y).
Proof. apply iff_reflect. symmetry. apply Qle_bool_iff. Qed.

Lemma Qlt_bool_spec (x y : Q) : reflect (x < y) (Qlt_bool x y).
Proof.
  unfold Qlt_bool. destruct (Qle_bool_spec y x) as [H|H]; constructor; lra.
Qed.

Ltac order_cases :=
  repeat match goal with
         | |- context [Qlt_bool ?x ?y] => destruct (Qlt_bool_spec x y)
         | |- context [Qle_bool ?x ?y] => destruct (Qle_bool_spec x y)
         end.

(** Python's nested [max(lo, min(v, hi))] is the clamp of [v] when the
    interval is not empty. *)
Lemma py_clamp (v lo hi : Q) :
  lo <= hi -> py_max lo (py_min v hi) == clamp v lo hi.
Proof.
  intros H. unfold py_max, py_min, clamp. order_cases; simpl; lra.
Qed.

Lemma clamp_range (v lo hi : Q) : lo <= hi -> lo <= clamp v lo hi <= hi.
Proof. intros H. unfold clamp. order_cases; simpl; lra. Qed.

Lemma clamp_inside (v lo hi : Q) : lo <= v <= hi -> clamp v lo hi == v.
Proof. intros H. unfold clamp. order_cases; simpl; lra. Qed.

Lemma num_min_fin (a b : Q) : num_min (Fin a) (Fin b) = Fin (py_min a b).
Proof. unfold num_min, py_min. cbn. destruct (Qlt_bool b a); reflexivity. Qed.

Lemma num_max_fin (a b : Q) : num_max (Fin a) (Fin b) = Fin (py_max a b).
Proof. unfold num_max, py_max. cbn. destruct (Qlt_bool a b); reflexivity. Qed.

(** ** The arithmetic of binary64 *)

(** Closed comparisons of rationals are settled by evaluation. *)
Ltac qcompute :=
  match goal with
  | |- _ < _ => unfold Qlt; vm_compute; reflexivity
  | |- _ <= _ => unfold Qle; vm_compute; discriminate
  | |- _ == _ => unfold Qeq; vm_compute; reflexivity
  end.

(** *** Powers of two *)

Lemma two_pos (k : Z) : 0 < two k.
Proof. apply Qpower_0_lt. reflexivity. Qed.

Lemma two_plus (a b : Z) : two (a + b) == two a * two b.
Proof. apply Qpower_plus. discriminate. Qed.

Lemma two_le (a b : Z) : (a <= b)%Z -> two a <= two b.
Proof. intros H. apply Qpower_le_compat_l; [ exact H | discriminate ]. Qed.

Lemma two_lt_inv (a b : Z) : two a < two b -> (a < b)%Z.
Proof. intros H. apply (Qpower_lt_compat_l_inv 2); [ exact H | reflexivity ]. Qed.

Lemma two_inject (n : Z) : (0 <= n)%Z -> two n == inject_Z (2 ^ n).
Proof. intros H. unfold two. rewrite (Zpower_Qpower 2 n H). reflexivity. Qed.

(** *** The binade of a positive number *)

Lemma ilog2_spec (x : Q) : 0 < x -> two (ilog2 x) <= x /\ x < two (ilog2 x + 1).
Proof.
  intros Hx. destruct x as [a b].
  assert (Ha : (0 < a)%Z) by (unfold Qlt in Hx; simpl in Hx; lia).
  assert (Hb : (0 < Z.pos b)%Z) by lia.
  pose proof (Z.log2_spec a Ha) as [Ha1 Ha2].
  pose proof (Z.log2_spec (Z.pos b) Hb) as [Hb1 Hb2].
  pose proof (Z.log2_nonneg a) as Hla.
  pose proof (Z.log2_nonneg (Z.pos b)) as Hlb.
  set (la := Z.log2 a) in *. set (lb := Z.log2 (Z.pos b)) in *.
  assert (Qa1 : two la <= inject_Z a)
    by (rewrite two_inject by lia; rewrite <- Zle_Qle; exact Ha1).
  assert (Qa2 : inject_Z a < two (la + 1)).
  { replace (Z.succ la) with (la + 1)%Z in Ha2 by lia.
    rewrite Zlt_Qlt in Ha2. rewrite <- two_inject in Ha2 by lia. exact Ha2. }
  assert (Qb1 : two lb <= inject_Z (Z.pos b))
    by (rewrite two_inject by lia; rewrite <- Zle_Qle; exact Hb1).
  assert (Qb2 : inject_Z (Z.pos b) < two (lb + 1)).
  { replace (Z.succ lb) with (lb + 1)%Z in Hb2 by lia.
    rewrite Zlt_Qlt in Hb2. rewrite <- two_inject in Hb2 by lia. exact Hb2. }
  assert (QB : 0 < inject_Z (Z.pos b)) by (unfold Qlt; simpl; lia).
  assert (Hq : a # b == inject_Z a / inject_Z (Z.pos b)) by apply Qmake_Qdiv.
  assert (Habs : Qabs (a # b) == a # b) by (apply Qabs_pos; apply Qlt_le_weak; exact Hx).
  unfold ilog2. cbn [Qnum Qden]. rewrite (Z.abs_eq a) by lia. fold la. fold lb.
  destruct (Qle_bool (two (la - lb)) (Qabs (a # b))) eqn:E.
  - apply Qle_bool_iff in E. rewrite Habs in E. split; [ exact E | ].
    rewrite Hq. apply Qlt_shift_div_r; [ exact QB | ].
    assert (T : two (la + 1) == two (la - lb + 1) * two lb)
      by (rewrite <- two_plus; apply Qpower_comp; [ reflexivity | lia ]).
    pose proof (two_pos (la - lb + 1)). pose proof (two_pos lb).
    apply Qlt_le_trans with (two (la + 1)); [ exact Qa2 | ].
    rewrite T. apply Qmult_le_l; assumption.
  - assert (E' : ~ two (la - lb) <= Qabs (a # b))
      by (intros H; apply Qle_bool_iff in H; congruence).
    rewrite Habs in E'. apply Qnot_le_lt in E'. split.
    + rewrite Hq. apply Qle_shift_div_l; [ exact QB | ].
      assert (T : two la == two (la - lb - 1) * two (lb + 1))
        by (rewrite <- two_plus; apply Qpower_comp; [ reflexivity | lia ]).
      pose proof (two_pos (la - lb - 1)).
      apply Qle_trans with (two la); [ | exact Qa1 ].
      rewrite T. apply Qmult_le_l; [ assumption | apply Qlt_le_weak; exact Qb2 ].
    + replace (la - lb - 1 + 1)%Z with (la - lb)%Z by lia. exact E'.
Qed.

(** *** Rounding to the nearest integer *)

Lemma rne_spec (m : Q) : Qabs (inject_Z (rne m) - m) <= 1 # 2.
Proof.
  pose proof (Qfloor_le m) as H1. pose proof (Qlt_floor m) as H2.
  rewrite inject_Z_plus in H2. unfold rne.
  destruct (Qcompare_spec (m - inject_Z (Qfloor m)) (1 # 2)) as [H|H|H].
  - destruct (Z.even (Qfloor m)); [ | rewrite inject_Z_plus ];
      apply Qabs_Qle_condition; split; change (inject_Z 1) with 1 in *; lra.
  - apply Qabs_Qle_condition; split; lra.
  - rewrite inject_Z_plus. apply Qabs_Qle_condition; split; change (inject_Z 1) with 1 in *; lra.
Qed.

Lemma floor_ge (k : Z) (m : Q) : inject_Z k <= m -> (k <= Qfloor m)%Z.
Proof. intros H. rewrite <- (Qfloor_Z k). apply Qfloor_resp_le. exact H. Qed.

Lemma floor_lt (k : Z) (m : Q) : m < inject_Z k -> (Qfloor m < k)%Z.
Proof.
  intros H. pose proof (Qfloor_le m) as H1. rewrite Zlt_Qlt.
  apply Qle_lt_trans with m; assumption.
Qed.

Lemma rne_ge (k : Z) (m : Q) : inject_Z k - (1 # 2) < m -> (k <= rne m)%Z.
Proof.
  intros H. pose proof (Qfloor_le m) as H1. pose proof (Qlt_floor m) as H2.
  rewrite inject_Z_plus in H2.
  assert (Hf : (k - 1 <= Qfloor m)%Z).
  { assert (L : inject_Z k < inject_Z (Qfloor m + 2)).
    { rewrite inject_Z_plus. change (inject_Z 1) with 1 in *.
      change (inject_Z 2) with 2. lra. }
    rewrite <- Zlt_Qlt in L. lia. }
  unfold rne.
  destruct (Z.eq_dec (Qfloor m) (k - 1)) as [E|E].
  - destruct (Qcompare_spec (m - inject_Z (Qfloor m)) (1 # 2)) as [C|C|C].
    + exfalso. assert (K : inject_Z k == inject_Z (Qfloor m) + 1).
      { replace k with (Qfloor m + 1)%Z by lia. rewrite inject_Z_plus. reflexivity. }
      lra.
    + exfalso. assert (K : inject_Z k == inject_Z (Qfloor m) + 1).
      { replace k with (Qfloor m + 1)%Z by lia. rewrite inject_Z_plus. reflexivity. }
      lra.
    + lia.
  - destruct (Qcompare (m - inject_Z (Qfloor m)) (1 # 2));
      [ destruct (Z.even (Qfloor m)) | | ]; lia.
Qed.

Lemma rne_le (k : Z) (m : Q) : m < inject_Z k + (1 # 2) -> (rne m <= k)%Z.
Proof.
  intros H. pose proof (Qfloor_le m) as H1.
  assert (Hf : (Qfloor m <= k)%Z).
  { assert (L : inject_Z (Qfloor m) < inject_Z (k + 1)).
    { rewrite inject_Z_plus. change (inject_Z 1) with 1 in *. lra. }
    rewrite <- Zlt_Qlt in L. lia. }
  unfold rne.
  destruct (Z.eq_dec (Qfloor m) k) as [E|E].
  - destruct (Qcompare_spec (m - inject_Z (Qfloor m)) (1 # 2)) as [C|C|C].
    + exfalso. rewrite E in C. lra.
    + lia.
    + exfalso. rewrite E in C. lra.
  - destruct (Qcompare (m - inject_Z (Qfloor m)) (1 # 2));
      [ destruct (Z.even (Qfloor m)) | | ]; lia.
Qed.

(** *** Rounding to the nearest double *)

Lemma round64_pos (x : Q) :
  0 < x -> round64 x == inject_Z (rne (x / two (ulp x))) * two (ulp x).
Proof.
  intros Hx. unfold round64.
  destruct (Qeq_bool x 0) eqn:E.
  - apply Qeq_bool_iff in E. lra.
  - apply Qred_correct.
Qed.

Lemma two_half (u : Z) : two (u - 1) == (1 # 2) * two u.
Proof.
  replace (u - 1)%Z with (-1 + u)%Z by lia. rewrite two_plus.
  apply Qmult_comp; [ qcompute | reflexivity ].
Qed.

(** The double nearest to [x] is within half a unit in the last place. *)
Lemma round64_error (x : Q) : 0 < x -> Qabs (round64 x - x) <= two (ulp x - 1).
Proof.
  intros Hx. pose proof (two_pos (ulp x)) as Hu.
  pose proof (rne_spec (x / two (ulp x))) as Hn.
  rewrite (round64_pos x Hx), two_half.
  set (n := inject_Z (rne (x / two (ulp x)))) in *. set (t := two (ulp x)) in *.
  assert (E : n * t - x == (n - x / t) * t) by (field; lra).
  rewrite E, Qabs_Qmult, (Qabs_pos t) by lra.
  apply Qmult_le_compat_r; lra.
Qed.

(** Above the least normal double the relative error is at most
    [2 ^ -53]. *)
Lemma round64_rel (x : Q) :
  two (-1022) <= x -> (1 - eps) * x <= round64 x /\ round64 x <= (1 + eps) * x.
Proof.
  intros Hn. pose proof (two_pos (-1022)) as H0.
  assert (Hx : 0 < x) by lra.
  destruct (ilog2_spec x Hx) as [H1 H2].
  assert (He : (-1022 <= ilog2 x)%Z).
  { assert (L : two (-1022) < two (ilog2 x + 1)) by lra.
    apply two_lt_inv in L. lia. }
  pose proof (round64_error x Hx) as Herr.
  assert (Hu : ulp x = (ilog2 x - 52)%Z) by (unfold ulp; lia).
  assert (T : two (ulp x - 1) == eps * two (ilog2 x)).
  { rewrite Hu. replace (ilog2 x - 52 - 1)%Z with (-53 + ilog2 x)%Z by lia.
    rewrite two_plus. apply Qmult_comp; [ qcompute | reflexivity ]. }
  rewrite T in Herr. apply Qabs_Qle_condition in Herr.
  assert (Heps : 0 < eps) by reflexivity.
  assert (B : eps * two (ilog2 x) <= eps * x)
    by (apply Qmult_le_l; assumption).
  split; lra.
Qed.

Lemma two_minus (a b : Z) : two (a - b) == two a / two b.
Proof. apply Qpower_minus. discriminate. Qed.

Lemma rne_nonneg (m : Q) : 0 <= m -> (0 <= rne m)%Z.
Proof. intros H. apply rne_ge. change (inject_Z 0) with 0. lra. Qed.

Lemma round64_nonneg (x : Q) : 0 < x -> 0 <= round64 x.
Proof.
  intros Hx. rewrite (round64_pos x Hx). pose proof (two_pos (ulp x)) as Hu.
  apply Qmult_le_0_compat; [ | lra ].
  change 0 with (inject_Z 0). rewrite <- Zle_Qle. apply rne_nonneg.
  apply Qlt_le_weak, Qlt_shift_div_l; lra.
Qed.

(** A normal number is not rounded below its binade. *)
Lemma round64_ge_binade (x : Q) :
  0 < x -> (-1022 <= ilog2 x)%Z -> two (ilog2 x) <= round64 x.
Proof.
  intros Hx He. destruct (ilog2_spec x Hx) as [H1 _].
  assert (Hu : ulp x = (ilog2 x - 52)%Z) by (unfold ulp; lia).
  pose proof (two_pos (ulp x)) as Pu.
  rewrite (round64_pos x Hx).
  assert (T : two (ilog2 x) == inject_Z (2 ^ 52) * two (ulp x)).
  { rewrite Hu, <- (two_inject 52) by lia. rewrite <- two_plus.
    apply Qpower_comp; [ reflexivity | lia ]. }
  rewrite T. apply Qmult_le_compat_r; [ | lra ].
  rewrite <- Zle_Qle. apply rne_ge.
  apply Qlt_le_trans with (inject_Z (2 ^ 52)); [ lra | ].
  apply Qle_shift_div_l; [ exact Pu | ]. rewrite <- T. exact H1.
Qed.

(** No number is rounded above its binade. *)
Lemma round64_le_binade (x : Q) : 0 < x -> round64 x <= two (ilog2 x + 1).
Proof.
  intros Hx. destruct (ilog2_spec x Hx) as [_ H2].
  pose proof (two_pos (ulp x)) as Pu. pose proof (two_pos (ilog2 x + 1)) as Pe.
  rewrite (round64_pos x Hx).
  set (s := (ilog2 x + 1 - ulp x)%Z).
  assert (Hm : x / two (ulp x) < two s).
  { apply Qlt_shift_div_r; [ exact Pu | ].
    assert (T : two (ilog2 x + 1) == two s * two (ulp x))
      by (rewrite <- two_plus; apply Qpower_comp; [ reflexivity | unfold s; lia ]).
    rewrite <- T. exact H2. }
  assert (T : two (ilog2 x + 1) == two s * two (ulp x))
    by (rewrite <- two_plus; apply Qpower_comp; [ reflexivity | unfold s; lia ]).
  rewrite T. apply Qmult_le_compat_r; [ | lra ].
  destruct (Z_lt_le_dec s 0) as [Hs|Hs].
  - assert (L : two s <= 1 # 2).
    { apply Qle_trans with (two (-1)); [ apply two_le; lia | qcompute ]. }
    assert (N : (rne (x / two (ulp x)) <= 0)%Z)
      by (apply rne_le; change (inject_Z 0) with 0; lra).
    pose proof (two_pos s).
    apply Qle_trans with 0; [ | lra ].
    change 0 with (inject_Z 0). rewrite <- Zle_Qle. exact N.
  - rewrite (two_inject s Hs). rewrite <- Zle_Qle. apply rne_le.
    rewrite <- (two_inject s Hs). lra.
Qed.

Lemma round64_le_100 (c : Q) : 0 < c -> c <= 100 -> round64 c <= 100.
Proof.
  intros Hc Hle. destruct (ilog2_spec c Hc) as [H1 H2].
  assert (He : (ilog2 c <= 6)%Z).
  { assert (L : two (ilog2 c) < two 7)
      by (apply Qle_lt_trans with 100; [ lra | qcompute ]).
    apply two_lt_inv in L. lia. }
  destruct (Z.eq_dec (ilog2 c) 6) as [E|E].
  - assert (Hu : ulp c = (-46)%Z) by (unfold ulp; rewrite E; reflexivity).
    rewrite (round64_pos c Hc), Hu.
    assert (T : 100 == inject_Z (100 * 2 ^ 46) * two (-46)) by qcompute.
    rewrite T. apply Qmult_le_compat_r; [ | qcompute ].
    rewrite <- Zle_Qle. apply rne_le.
    assert (L : c / two (-46) <= inject_Z (100 * 2 ^ 46)).
    { apply Qle_shift_div_r; [ qcompute | ]. rewrite <- T. exact Hle. }
    lra.
  - apply Qle_trans with (two (ilog2 c + 1)); [ apply round64_le_binade; exact Hc | ].
    apply Qle_trans with (two 6); [ apply two_le; lia | qcompute ].
Qed.

Lemma round64_ge_centi (y : Q) : 1 # 100 <= y -> 1 # 100 <= round64 y.
Proof.
  intros Hy. assert (Hp : 0 < y) by lra.
  destruct (ilog2_spec y Hp) as [H1 H2].
  assert (He : (-7 <= ilog2 y)%Z).
  { assert (L : two (-7) < two (ilog2 y + 1))
      by (apply Qle_lt_trans with (1 # 100); [ qcompute | lra ]).
    apply two_lt_inv in L. lia. }
  destruct (Z.eq_dec (ilog2 y) (-7)) as [E|E].
  - assert (Hu : ulp y = (-59)%Z) by (unfold ulp; rewrite E; reflexivity).
    rewrite (round64_pos y Hp), Hu.
    apply Qle_trans with (inject_Z 5764607523034235 * two (-59)); [ qcompute | ].
    apply Qmult_le_compat_r; [ | qcompute ].
    rewrite <- Zle_Qle. apply rne_ge.
    apply Qlt_le_trans with ((1 # 100) / two (-59)); [ qcompute | ].
    apply Qmult_le_compat_r; [ exact Hy | qcompute ].
  - apply Qle_trans with (two (ilog2 y)).
    + apply Qle_trans with (two (-6)); [ qcompute | apply two_le; lia ].
    + apply round64_ge_binade; [ exact Hp | lia ].
Qed.

(** *** The quotient *)

Lemma Qeq_le (a b : Q) : a == b -> a <= b.
Proof. intros H. rewrite H. apply Qle_refl. Qed.

Lemma inv_le (a b : Q) : 0 < a -> a <= b -> 1 / b <= 1 / a.
Proof.
  intros Ha Hab. apply Qle_shift_div_l; [ exact Ha | ].
  setoid_replace (1 / b * a) with (a / b) by (field; lra).
  apply Qle_shift_div_r; lra.
Qed.

Lemma inv_pos (a : Q) : 0 < a -> 0 < 1 / a.
Proof. intros Ha. apply Qlt_shift_div_l; lra. Qed.

Lemma Qle_bool_false (a b : Q) : b < a -> Qle_bool a b = false.
Proof.
  intros H. destruct (Qle_bool a b) eqn:E; [ | reflexivity ].
  apply Qle_bool_iff in E. lra.
Qed.

Lemma Qeq_bool_false (a : Q) : 0 < a -> Qeq_bool a 0 = false.
Proof.
  intros H. destruct (Qeq_bool a 0) eqn:E; [ | reflexivity ].
  apply Qeq_bool_iff in E. lra.
Qed.

(** [1.0 / x] for a positive [x] well inside the range of the doubles: two
    roundings away from the exact quotient. *)
Lemma py_inv_close (x : Q) :
  two (-1010) <= x -> x <= two 1010 ->
  exists p : Q, py_inv (Fin x) = Some (Fin p) /\ c1 / x <= p /\ p <= c2 / x.
Proof.
  intros Hlo Hhi.
  pose proof (two_pos (-1010)) as P1. assert (Hx : 0 < x) by lra.
  assert (Hx' : 0 < Qred x) by (rewrite Qred_correct; exact Hx).
  assert (N1 : two (-1022) <= Qred x).
  { rewrite Qred_correct. apply Qle_trans with (two (-1010)); [ | exact Hlo ].
    apply two_le. lia. }
  destruct (round64_rel (Qred x) N1) as [D1' D2'].
  set (d := round64 (Qred x)) in *.
  pose proof (Qred_correct x) as Ex.
  assert (D1 : (1 - eps) * x <= d) by (unfold eps in *; lra).
  assert (D2 : d <= (1 + eps) * x) by (unfold eps in *; lra).
  assert (E1 : 0 < 1 - eps) by reflexivity.
  assert (E2 : 0 < 1 + eps) by reflexivity.
  assert (Hd : 0 < d).
  { apply Qlt_le_trans with ((1 - eps) * x); [ | exact D1 ].
    apply Qmult_lt_0_compat; assumption. }
  assert (Hy : 0 < 1 / d) by (apply inv_pos; exact Hd).
  assert (Y1 : 1 / ((1 + eps) * x) <= 1 / d) by (apply inv_le; assumption).
  assert (Y2 : 1 / d <= 1 / ((1 - eps) * x)).
  { apply inv_le; [ apply Qmult_lt_0_compat; assumption | exact D1 ]. }
  assert (B1 : two (-1022) <= 1 / ((1 + eps) * x)).
  { apply Qle_shift_div_l; [ apply Qmult_lt_0_compat; assumption | ].
    apply Qle_trans with (two (-1022) * ((1 + eps) * two 1010)); [ | qcompute ].
    apply Qmult_le_l; [ apply two_pos | ].
    apply Qmult_le_l; assumption. }
  assert (B2 : 1 / ((1 - eps) * x) < huge).
  { apply Qlt_shift_div_r; [ apply Qmult_lt_0_compat; assumption | ].
    apply Qlt_le_trans with (huge * ((1 - eps) * two (-1010))); [ qcompute | ].
    apply Qmult_le_l; [ qcompute | ].
    apply Qmult_le_l; assumption. }
  assert (N2 : two (-1022) <= 1 / d) by lra.
  destruct (round64_rel (1 / d) N2) as [R1 R2].
  exists (round64 (1 / d)).
  assert (Hh : two 1010 < huge) by qcompute.
  split; [ | split ].
  - unfold py_inv, to_double. rewrite (Qabs_pos x) by lra.
    rewrite Qle_bool_false by lra. fold d.
    rewrite Qeq_bool_false by exact Hd. unfold recip. cbv zeta.
    rewrite (Qabs_pos (1 / d)) by lra.
    rewrite Qle_bool_false by lra. reflexivity.
  - apply Qle_trans with ((1 - eps) * (1 / d)); [ | exact R1 ].
    apply Qle_trans with ((1 - eps) * (1 / ((1 + eps) * x))).
    + unfold c1. apply Qeq_le. field. split; lra.
    + apply Qmult_le_l; assumption.
  - apply Qle_trans with ((1 + eps) * (1 / d)); [ exact R2 | ].
    apply Qle_trans with ((1 + eps) * (1 / ((1 - eps) * x))).
    + apply Qmult_le_l; assumption.
    + unfold c2. apply Qeq_le. field. split; lra.
Qed.

(** A rate between [2 ^ -1000] and [2 ^ 30] that goes through the period
    and back moves by less than [1e-6]. *)
Lemma rate_round_trip (r : Q) :
  two (-1000) <= r -> r <= two 30 ->
  exists p r' : Q,
    py_inv (Fin r) = Some (Fin p)
    /\ py_inv (Fin p) = Some (Fin r')
    /\ Qabs (r' - r) <= 1 # 1000000.
Proof.
  intros Hlo Hhi.
  pose proof (two_pos (-1000)) as P1. assert (Hr : 0 < r) by lra.
  assert (C1 : 0 < c1) by reflexivity. assert (C2 : 0 < c2) by reflexivity.
  assert (L1 : two (-1010) <= r)
    by (apply Qle_trans with (two (-1000)); [ apply two_le; lia | exact Hlo ]).
  assert (L2 : r <= two 1010)
    by (apply Qle_trans with (two 30); [ exact Hhi | apply two_le; lia ]).
  destruct (py_inv_close r L1 L2) as [p [Hp [P2 P3]]].
  assert (Q1 : two (-1010) <= c1 / r).
  { apply Qle_shift_div_l; [ exact Hr | ].
    apply Qle_trans with (two (-1010) * two 30); [ | qcompute ].
    apply Qmult_le_l; [ apply two_pos | exact Hhi ]. }
  assert (Q2 : c2 / r <= two 1010).
  { apply Qle_shift_div_r; [ exact Hr | ].
    apply Qle_trans with (two 1010 * two (-1000)); [ qcompute | ].
    apply Qmult_le_l; [ apply two_pos | exact Hlo ]. }
  pose proof (two_pos (-1010)) as P0.
  assert (Hpp : 0 < p) by lra.
  destruct (py_inv_close p) as [r' [Hr' [R1 R2]]]; [ lra | lra | ].
  exists p, r'. split; [ exact Hp | split; [ exact Hr' | ] ].
  assert (A1 : c1 / c2 * r <= r').
  { apply Qle_trans with (c1 / p); [ | exact R1 ].
    apply Qle_trans with (c1 * (1 / (c2 / r))).
    - apply Qeq_le. field. split; [ lra | discriminate ].
    - setoid_replace (c1 / p) with (c1 * (1 / p)) by (field; lra).
      apply Qmult_le_l; [ exact C1 | ]. apply inv_le; assumption. }
  assert (A2 : r' <= c2 / c1 * r).
  { apply Qle_trans with (c2 / p); [ exact R2 | ].
    apply Qle_trans with (c2 * (1 / (c1 / r))).
    - setoid_replace (c2 / p) with (c2 * (1 / p)) by (field; lra).
      apply Qmult_le_l; [ exact C2 | ]. apply inv_le; [ | exact P2 ].
      apply Qlt_le_trans with (two (-1010)); assumption.
    - apply Qeq_le. field. split; [ discriminate | lra ]. }
  set (k1 := c1 / c2) in *. set (k2 := c2 / c1) in *.
  assert (K1 : 0 < 1 - k1) by reflexivity.
  assert (K2 : 0 < k2 - 1) by reflexivity.
  assert (T1 : (1 - k1) * two 30 <= 1 # 1000000) by qcompute.
  assert (T2 : (k2 - 1) * two 30 <= 1 # 1000000) by qcompute.
  assert (M1 : (1 - k1) * r <= (1 - k1) * two 30) by (apply Qmult_le_l; assumption).
  assert (M2 : (k2 - 1) * r <= (k2 - 1) * two 30) by (apply Qmult_le_l; assumption).
  apply Qabs_Qle_condition. split; lra.
Qed.


(** [1.0 / x] depends on the value of [x] only. *)
Lemma py_inv_eq (x y : Q) : x == y -> py_inv x = py_inv y.
Proof.
  intros H. unfold py_inv, to_double. rewrite (Qred_complete x y H).
  assert (E : Qle_bool huge (Qabs x) = Qle_bool huge (Qabs y))
    by (apply Qleb_comp; [ reflexivity | apply Qabs_wd; exact H ]).
  rewrite E. reflexivity.
Qed.

(** [ZeroDivisionError] *)
Lemma py_inv_zero (x : Q) : x == 0 -> py_inv x = None.
Proof. intros H. rewrite (py_inv_eq x 0 H). vm_compute. reflexivity. Qed.

(** [OverflowError]: an [int] beyond the doubles. *)
Lemma py_inv_huge (x : Q) : huge <= Qabs x -> py_inv x = None.
Proof.
  intros H. unfold py_inv, to_double.
  rewrite (proj2 (Qle_bool_iff _ _) H). reflexivity.
Qed.

Lemma py_inv_inf (negative : bool) : py_inv (Inf negative) = Some (Fin 0).
Proof. reflexivity. Qed.

(** The period of the default rate. *)
Lemma py_inv_default : py_inv (py_min 100 100) = Some (recip 100).
Proof. vm_compute. reflexivity. Qed.

(** The capped rate of the constructor divides whenever the requested rate
    is at least [2 ^ -1010]. *)
Lemma py_inv_capped (rate : Q) :
  two (-1010) <= rate -> exists p : Q, py_inv (py_min rate 100) = Some (Fin p).
Proof.
  intros H.
  assert (Hc : two (-1010) <= py_min rate 100 /\ py_min rate 100 <= two 1010).
  { assert (A : two (-1010) <= 100) by qcompute.
    assert (B : 100 <= two 1010) by qcompute.
    unfold py_min. destruct (Qlt_bool_spec 100 rate); split; lra. }
  destruct (py_inv_close (py_min rate 100)) as [p [Hp _]]; [ apply Hc | apply Hc | ].
  exists p. exact Hp.
Qed.

(** ** Running a computation symbolically *)

Ltac run :=
  cbv beta iota zeta delta
    [bind try_except attr ret lift assign invoke raise the_axis get_position
     fst snd].

Ltac exec_step :=
  match goal with
  | H : ?x = _ |- context [match ?x with _ => _ end] => rewrite H
  | H : ?x = _ |- context [if ?x then _ else _] => rewrite H
  | |- context [match ?o ?T ?tr ?c with _ => _ end] =>
      match type of o with Oracle => destruct (o T tr c) eqn:? end
  | |- context [match number ?x with _ => _ end] => destruct (number x) eqn:?
  | |- context [match axis ?s with _ => _ end] => destruct (axis s) eqn:?
  | |- context [if ?b then _ else _] => destruct b eqn:?
  end.

Ltac exec := run; repeat (cbn; exec_step); cbn.

Lemma bind_attr {A C : Type} (g : ZaberStage -> A) (k : A -> M C) (m : Machine) :
  bind (attr g) k m = k (g (stage m)) m.
Proof. reflexivity. Qed.

Lemma bind_ret {A C : Type} (a : A) (k : A -> M C) (m : Machine) :
  bind (ret a) k m = k a m.
Proof. reflexivity. Qed.

Lemma bind_assign {C : Type} (upd : ZaberStage -> ZaberStage) (k : unit -> M C)
    (m : Machine) :
  bind (assign upd) k m = k tt {| stage := upd (stage m); world := world m |}.
Proof. reflexivity. Qed.

Lemma bind_invoke (oracle : Oracle) {T C : Type} (c : call T) (k : T -> M C)
    (m : Machine) :
  bind (invoke oracle c) k m
  = match oracle T (trace (world m)) c with
    | Some x => k x (logged c m)
    | None => (None, logged c m)
    end.
Proof. unfold bind, invoke. destruct (oracle T _ c); reflexivity. Qed.

(** ** Computations only extend the trace *)

Lemma appends_ret {A : Type} (a : A) : appends (ret a).
Proof. intros m. exists []. cbn. rewrite app_nil_r. reflexivity. Qed.

Lemma appends_raise {A : Type} : appends (@raise A).
Proof. intros m. exists []. cbn. rewrite app_nil_r. reflexivity. Qed.

Lemma appends_lift {A : Type} (o : option A) : appends (lift o).
Proof. destruct o; [ apply appends_ret | apply appends_raise ]. Qed.

Lemma appends_attr {A : Type} (g : ZaberStage -> A) : appends (attr g).
Proof. intros m. exists []. cbn. rewrite app_nil_r. reflexivity. Qed.

Lemma appends_assign (upd : ZaberStage -> ZaberStage) : appends (assign upd).
Proof. intros m. exists []. cbn. rewrite app_nil_r. reflexivity. Qed.

Lemma appends_invoke (oracle : Oracle) {T : Type} (c : call T) :
  appends (invoke oracle c).
Proof. intros m. exists [Ev c]. reflexivity. Qed.

Lemma appends_bind {A C : Type} (c : M A) (k : A -> M C) :
  appends c -> (forall a, appends (k a)) -> appends (bind c k).
Proof.
  intros Hc Hk m. unfold bind. destruct (Hc m) as [r1 H1].
  destruct (c m) as [[a|] m1]; cbn in *.
  - destruct (Hk a m1) as [r2 H2]. exists (r1 ++ r2)%list.
    rewrite H2, H1, app_assoc. reflexivity.
  - exists r1. exact H1.
Qed.

Lemma appends_try_except {A : Type} (c h : M A) :
  appends c -> appends h -> appends (try_except c h).
Proof.
  intros Hc Hh m. unfold try_except. destruct (Hc m) as [r1 H1].
  destruct (c m) as [[a|] m1]; cbn in *.
  - exists r1. exact H1.
  - destruct (Hh m1) as [r2 H2]. exists (r1 ++ r2)%list.
    rewrite H2, H1, app_assoc. reflexivity.
Qed.

Lemma appends_dump_json (oracle : Oracle) (filename : string) (config : pyval) :
  appends (dump_json oracle filename config).
Proof.
  unfold dump_json. apply appends_bind; [ apply appends_invoke | intros _ ].
  intros m. exists []. cbn. rewrite app_nil_r. reflexivity.
Qed.

Ltac appends_step :=
  match goal with
  | |- appends (bind _ _) => apply appends_bind; [ | intros ? ]
  | |- appends (try_except _ _) => apply appends_try_except
  | |- appends (ret _) => apply appends_ret
  | |- appends raise => apply appends_raise
  | |- appends (lift _) => apply appends_lift
  | |- appends (attr _) => apply appends_attr
  | |- appends (assign _) => apply appends_assign
  | |- appends (invoke _ _) => apply appends_invoke
  | |- appends (dump_json _ _ _) => apply appends_dump_json
  | |- appends (match ?x with _ => _ end) => destruct x
  | |- appends (let _ := _ in _) => cbv zeta
  end.

Ltac appends_auto := repeat appends_step.

Lemma appends_save_config (oracle : Oracle) (filename : option string) :
  appends (save_config oracle filename).
Proof. unfold save_config. appends_auto. Qed.

Lemma appends_start_position_reading (oracle : Oracle) :
  appends (_start_position_reading oracle).
Proof. unfold _start_position_reading. appends_auto. Qed.

(** ** Rejected calls *)

Lemma rejected_call (oracle : Oracle) (m m' : Machine) {T : Type} (c : call T) :
  trace (world m') = (trace (world m) ++ [Ev c])%list ->
  rejected oracle m m' -> oracle T (trace (world m)) c = None.
Proof.
  intros Ht [e [He Hr]]. rewrite Ht in He. apply app_inv_head in He.
  injection He as <-. simpl in Hr.
  destruct (oracle T (trace (world m)) c); [discriminate | reflexivity].
Qed.

Lemma rejected_silent (oracle : Oracle) (m m' : Machine) :
  trace (world m') = trace (world m) -> ~ rejected oracle m m'.
Proof.
  intros Ht [e [He _]]. rewrite Ht in He.
  apply (f_equal (@length event)) in He. rewrite length_app in He.
  simpl in He. lia.
Qed.

(** A run that issued no call was not rejected; a run whose call was
    answered was not rejected; what is left holds by evaluation. *)
Ltac settle_rejected Hrej :=
  match type of Hrej with
  | rejected ?o ?m ?m' =>
      first
        [ exfalso; apply (rejected_silent o m m'); [ reflexivity | exact Hrej ]
        | match goal with
          | E : o ?T _ ?c = Some _ |- _ =>
              exfalso;
              let K := fresh in
              assert (K : o T (trace (world m)) c = None)
                by (apply (rejected_call o m m'); [ reflexivity | exact Hrej ]);
              rewrite K in E; discriminate
          end
        | split; reflexivity ]
  end.

(** ** Persisted identities *)

Lemma parse_device_info_missing (info : list (string * pyval)) (k : string) :
  In k identity_fields -> dict_find k info = None ->
  parse_device_info (PyDict info) = None.
Proof.
  unfold identity_fields, parse_device_info, py_getitem.
  intros Hin Hk. simpl in Hin.
  repeat (destruct Hin as [<- | Hin]; [ rewrite Hk;
    repeat match goal with
           | |- context [match dict_find ?a ?b with _ => _ end] =>
               destruct (dict_find a b)
           end; reflexivity | ]).
  contradiction.
Qed.


(** ** Concrete runs *)

Lemma fresh_machine_init (oracle : Oracle) :
  __init__ oracle "COM3" (0, 100) 10 100 None empty_world
  = Some {| stage := stage fresh_machine;
            world := log_event (Ev EnableDeviceDbStore) empty_world |}.
Proof.
  unfold __init__. rewrite py_inv_default. cbn.
  unfold try_except, bind, invoke. cbn.
  destruct (oracle unit [] EnableDeviceDbStore); reflexivity.
Qed.

Lemma fresh_reachable (oracle : Oracle) : reachable oracle fresh_machine.
Proof.
  eapply reach_init. apply fresh_machine_init.
Qed.

Lemma run_reachable (oracle : Oracle) (ops : list method) :
  forall m, reachable oracle m -> reachable oracle (run oracle ops m).
Proof.
  induction ops as [|op ops IH]; intros m Hm; simpl.
  - exact Hm.
  - apply IH. apply reach_step. exact Hm.
Qed.

(** ** The polling period and the saved rate *)

Ltac split_match :=
  match goal with
  | |- context [match ?x with _ => _ end] =>
      lazymatch x with
      | context [match _ with _ => _ end] => fail
      | _ => destruct x eqn:?
      end
  end.

Section Ticking.
Variable oracle : Oracle.

Lemma keeps_interval_connect : keeps reading_interval (connect oracle).
Proof.
  unfold connect.
  keeps_auto; try apply keeps_scan_devices; try apply keeps_find_zaber_port;
    try apply keeps_save_config.
  apply keeps_start_position_reading; reflexivity.
Qed.

Lemma keeps_interval_disconnect : keeps reading_interval (disconnect oracle).
Proof. unfold disconnect, _stop_position_reading. keeps_auto. Qed.

Lemma keeps_interval_read_position_loop (fuel : nat) :
  keeps reading_interval (_read_position_loop oracle fuel).
Proof.
  induction fuel as [|n IH]; simpl.
  - keeps_auto.
  - unfold read_position_once. keeps_auto. apply IH.
Qed.

(** [save_config] succeeds whenever its division, the clock and the file
    system answer. *)
Lemma save_config_succeeds (m : Machine) (filename : option string) (rate : num) :
  py_inv (reading_interval (stage m)) = Some rate ->
  let tr := trace (world m) in
  let name := or_else filename (fun s => s) (config_file (stage m)) in
  raises oracle tr (Ev ClockTime) = false ->
  raises oracle (tr ++ [Ev ClockTime])%list (Ev ClockStrftime) = false ->
  raises oracle (tr ++ [Ev ClockTime; Ev ClockStrftime])%list
    (Ev (OpenForWriting name)) = false ->
  fst (save_config oracle filename m) = Some true.
Proof.
  intros Hi tr name.
  unfold raises, save_config, dump_json. run. rewrite Hi.
  fold tr. destruct (oracle Q tr ClockTime); [ | discriminate ]. intros _.
  cbn. fold tr. destruct (oracle string _ ClockStrftime); [ | discriminate ].
  intros _. cbn. rewrite <- app_assoc. cbn. fold tr. fold name.
  destruct (oracle unit _ (OpenForWriting name)); [ reflexivity | discriminate ].
Qed.
End Ticking.

(** * The claims *)

Section Claims.

Variable oracle : Oracle.

(** C1.  On a connected and homed stage with numeric limits [lo], [hi],
    maximum velocity [vmax >= 0] and cached position [p],
    [set_velocity(v)] issues exactly one call, the velocity command, whose
    argument is [clamp v (-vmax) vmax], except that it is 0 when the stage
    is at or beyond the upper limit and the clamped velocity is positive,
    and 0 when it is at or below the lower limit and the clamped velocity is
    negative; a [v] outside the velocity range is never what is sent. *)
Theorem set_velocity_sends_clamped (m : Machine) (vmax lo hi v : Q) :
  reachable oracle m ->
  _connected (stage m) = true ->
  _is_homed (stage m) = true ->
  max_velocity (stage m) = PyNum vmax ->
  min_pos (stage m) = PyNum lo ->
  max_pos (stage m) = PyNum hi ->
  0 <= vmax ->
  let p := _current_position (stage m) in
  let c := clamp v (- vmax) vmax in
  exists a (sent : Q),
    axis (stage m) = Some a
    /\ trace (world (snd (set_velocity oracle v m)))
       = (trace (world m) ++ [Ev (AxisMoveVelocity a sent)])%list
    /\ (hi <= p /\ 0 < c -> sent == 0)
    /\ (p <= lo /\ c < 0 -> sent == 0)
    /\ (~ (hi <= p /\ 0 < c) -> ~ (p <= lo /\ c < 0) -> sent == c)
    /\ (~ (- vmax <= v <= vmax) -> ~ sent == v).
Proof.
  intros Hr Hc Hh Hv Hlo Hhi Hpos p c.
  destruct (connected_axis oracle m Hr Hc) as [a Ha].
  set (w := py_max (- vmax) (py_min v vmax)).
  exists a, (if Qle_bool p lo && Qlt_bool w 0 then 0
             else if Qle_bool hi p && Qlt_bool 0 w then 0 else w).
  split; [exact Ha | split].
  - unfold set_velocity. run.
    repeat (progress (rewrite ?Hc, ?Ha, ?Hh, ?Hv, ?Hlo, ?Hhi,
                        ?num_min_fin, ?num_max_fin; cbn)).
    fold p. fold w.
    destruct (Qle_bool p lo && Qlt_bool w 0); cbn; rewrite ?Ha, ?Hhi; cbn;
      [ | destruct (Qle_bool hi p && Qlt_bool 0 w); cbn; rewrite ?Ha; cbn ];
      destruct (oracle unit _ _); reflexivity.
  - assert (Hcl : w == c) by (apply py_clamp; lra).
    destruct (Qle_bool_spec p lo) as [H1|H1];
      destruct (Qlt_bool_spec w 0) as [H2|H2];
      destruct (Qle_bool_spec hi p) as [H3|H3];
      destruct (Qlt_bool_spec 0 w) as [H4|H4];
      cbn; rewrite ?Hcl in *;
      (repeat split; intros; try lra;
       try (subst c; unfold clamp in *;
            repeat match goal with
                   | H : context [Qlt_bool ?x ?y] |- _ =>
                       destruct (Qlt_bool_spec x y)
                   | |- context [Qlt_bool ?x ?y] =>
                       destruct (Qlt_bool_spec x y)
                   end; lra)).
Qed.

(** C2.  On a connected and homed stage with numeric limits [lo <= hi],
    [move_to(t)] issues exactly one call, the absolute move, and its target
    is [clamp t lo hi], whatever the sign or the magnitude of [t]. *)
Theorem move_to_sends_clamped (m : Machine) (lo hi t : Q) :
  reachable oracle m ->
  _connected (stage m) = true ->
  _is_homed (stage m) = true ->
  min_pos (stage m) = PyNum lo ->
  max_pos (stage m) = PyNum hi ->
  lo <= hi ->
  exists a (sent : Q),
    axis (stage m) = Some a
    /\ trace (world (snd (move_to oracle t m)))
       = (trace (world m) ++ [Ev (AxisMoveAbsolute a sent)])%list
    /\ sent == clamp t lo hi.
Proof.
  intros Hr Hc Hh Hlo Hhi Hle.
  destruct (connected_axis oracle m Hr Hc) as [a Ha].
  exists a, (py_max lo (py_min t hi)). split; [exact Ha | split].
  - unfold move_to. run.
    repeat (progress (rewrite ?Hc, ?Ha, ?Hh, ?Hlo, ?Hhi,
                        ?num_min_fin, ?num_max_fin; cbn)).
    destruct (oracle unit _ _); reflexivity.
  - apply py_clamp. exact Hle.
Qed.

(** C3.  On a connected stage that is not homed, [set_velocity(v)] and
    [move_to(t)] return [False] for every argument and leave the machine,
    hence the trace of calls, as it was.  On a connected stage, homed or
    not, [stop()] returns [True] whenever the controller accepts the stop
    command. *)
Theorem unhomed_refuses_motion_stop_allowed (m : Machine) :
  reachable oracle m ->
  _connected (stage m) = true ->
  (_is_homed (stage m) = false ->
     (forall v, set_velocity oracle v m = (Some false, m))
     /\ (forall t, move_to oracle t m = (Some false, m)))
  /\ (exists a, axis (stage m) = Some a
        /\ (raises oracle (trace (world m)) (Ev (AxisStop a)) = false ->
            fst (stop oracle m) = Some true)).
Proof.
  intros Hr Hc. destruct (connected_axis oracle m Hr Hc) as [a Ha]. split.
  - intros Hh. split; intros x.
    + unfold set_velocity. run. rewrite Hc, Ha, Hh. reflexivity.
    + unfold move_to. run. rewrite Hc, Ha, Hh. reflexivity.
  - exists a. split; [exact Ha | ].
    unfold raises, stop. run. rewrite Hc, Ha. exec; intros; congruence.
Qed.

(** C6.  For [home()], [set_velocity(v)], [move_to(t)] and [stop()]: when
    the call the method issued was rejected by the controller, the method
    returns [False] and the cached position, velocity, moving flag and homed
    flag are what they were before. *)
Theorem rejected_command_keeps_cache (op : method) (c : M bool) (m : Machine) :
  command oracle op = Some c ->
  rejected oracle m (snd (c m)) ->
  fst (c m) = Some false /\ cache (stage (snd (c m))) = cache (stage m).
Proof.
  intros Hc. destruct op; try discriminate; injection Hc as <-.
  - unfold home. exec; intros Hrej; settle_rejected Hrej.
  - unfold set_velocity. exec; intros Hrej; settle_rejected Hrej.
  - unfold stop. exec; intros Hrej; settle_rejected Hrej.
  - unfold move_to. exec; intros Hrej; settle_rejected Hrej.
Qed.

Lemma read_position_once_returns (m : Machine) :
  fst (read_position_once oracle m) = Some tt.
Proof. unfold read_position_once. exec; reflexivity. Qed.

(** C7.  One cycle of the polling loop never raises.  When both reads of
    the controller succeed, the cached position and moving flag become the
    values read, the cached velocity becomes 0 if the flag read is false and
    is left alone if it is true, and the homed flag is left alone.  When a
    read fails, the controller object is unchanged.  Whatever the reads did,
    the loop goes on to its next iteration as long as the stop flag is clear
    and the sleep returns. *)
Theorem poll_cycle_keeps_or_refreshes (m : Machine) :
  let m' := snd (read_position_once oracle m) in
  fst (read_position_once oracle m) = Some tt
  /\ (axis (stage m) = None -> m' = m)
  /\ (forall a, axis (stage m) = Some a ->
        let tr := trace (world m) in
        let tr' := (tr ++ [Ev (AxisGetPosition a)])%list in
        (forall position busy,
            oracle Q tr (AxisGetPosition a) = Some position ->
            oracle bool tr' (AxisIsBusy a) = Some busy ->
            _current_position (stage m') = position
            /\ _is_moving (stage m') = busy
            /\ _current_velocity (stage m')
               = (if busy then _current_velocity (stage m) else 0)
            /\ _is_homed (stage m') = _is_homed (stage m))
        /\ (oracle Q tr (AxisGetPosition a) = None
            \/ oracle bool tr' (AxisIsBusy a) = None ->
            stage m' = stage m))
  /\ (forall fuel,
        _stop_reading (stage m) = false ->
        raises oracle (trace (world m'))
          (Ev (Sleep (reading_interval (stage m')))) = false ->
        _read_position_loop oracle (S fuel) m
        = _read_position_loop oracle fuel
            (logged (Sleep (reading_interval (stage m'))) m')).
Proof.
  intros m'. split; [ | split; [ | split ] ].
  - apply read_position_once_returns.
  - intros Ha. subst m'. unfold read_position_once. run. rewrite Ha. cbn.
    destruct m; reflexivity.
  - intros a Ha tr tr'. subst m'. unfold read_position_once. run. rewrite Ha. cbn.
    fold tr. split.
    + intros position busy Hp. rewrite Hp. cbn. unfold log_event at 1. cbn.
      fold tr'. intros Hb. rewrite Hb. cbn. destruct busy; cbn; auto.
    + intros [Hp | Hb].
      * rewrite Hp. reflexivity.
      * destruct (oracle Q tr (AxisGetPosition a)); [ | reflexivity ]. cbn.
        unfold log_event at 1. cbn. fold tr'. rewrite Hb. reflexivity.
  - intros fuel Hs Hsl. simpl _read_position_loop. unfold bind at 1.
    unfold attr at 1. cbn. rewrite Hs. unfold bind at 1.
    pose proof (read_position_once_returns m) as Hret. subst m'.
    destruct (read_position_once oracle m) as [[[]|] m1]; [ | discriminate ].
    cbn in *. unfold bind, attr, invoke, logged. cbn.
    destruct (oracle unit (trace (world m1)) (Sleep (reading_interval (stage m1))));
      [ reflexivity | discriminate ].
Qed.

(** C10.  [move_to(t)], whether it succeeds or fails, leaves the cached
    position, velocity, moving flag and homed flag as they were; it is the
    next successful cycle of the polling loop that writes the position and
    the moving flag read from the controller into the cache. *)
Theorem move_to_keeps_cache (m : Machine) (t : Q) :
  let m1 := snd (move_to oracle t m) in
  cache (stage m1) = cache (stage m)
  /\ (forall a position busy,
        axis (stage m) = Some a ->
        oracle Q (trace (world m1)) (AxisGetPosition a) = Some position ->
        oracle bool (trace (world m1) ++ [Ev (AxisGetPosition a)])%list
          (AxisIsBusy a) = Some busy ->
        cache (stage (snd (read_position_once oracle m1)))
        = (position,
           if busy then _current_velocity (stage m) else 0,
           busy,
           _is_homed (stage m))).
Proof.
  intros m1. assert (Hs : stage m1 = stage m) by apply (keeps_move_to oracle t m).
  split.
  - rewrite Hs. reflexivity.
  - intros a position busy Ha Hp Hb.
    unfold read_position_once. run. rewrite Hs, Ha. cbn. rewrite Hp. cbn.
    unfold log_event at 1. cbn. rewrite Hb. cbn. rewrite Hs.
    destruct busy; reflexivity.
Qed.

End Claims.

Section Persistence.

Variable oracle : Oracle.

(** C8, as the code has it.  When [save_config] succeeds on a controller
    it has written the rate [1.0 / period] to the file, and when
    [load_config] then reads that file into another controller, the loaded
    port, position
    limits and maximum velocity are those of the saved controller.  The
    load succeeds exactly when [1.0 / rate] exists for the written rate,
    and the loaded period is that quotient; a written rate of 0, which
    stands for an infinite period, makes the load fail and leaves the
    period of the other controller as it was.  For a written rate from
    [2 ^ -1000] to [2 ^ 30] Hz the load succeeds and the rate of the loaded
    controller is within 1e-6 of the written one. *)
Theorem save_load_round_trip (m fresh_m : Machine) (fs fl : option string) :
  fst (save_config oracle fs m) = Some true ->
  files (world fresh_m) = files (world (snd (save_config oracle fs m))) ->
  or_else fl (fun s => s) (config_file (stage fresh_m))
  = or_else fs (fun s => s) (config_file (stage m)) ->
  let loaded := stage (snd (load_config fl fresh_m)) in
  exists rate,
    reading_rate (stage m) = Some rate
    /\ (exists record,
          file_find (effective fs (stage m)) (files (world fresh_m))
          = Some (FileJson record)
          /\ py_get record "reading_rate_hz" (PyNum 100) = Some (py_of_num rate))
    /\ port loaded = port (stage m)
    /\ min_pos loaded = min_pos (stage m)
    /\ max_pos loaded = max_pos (stage m)
    /\ max_velocity loaded = max_velocity (stage m)
    /\ (py_inv rate = None ->
        fst (load_config fl fresh_m) = Some false
        /\ reading_interval loaded = reading_interval (stage fresh_m))
    /\ (forall period, py_inv rate = Some period ->
          fst (load_config fl fresh_m) = Some true
          /\ reading_interval loaded = period
          /\ (forall d, device_info (stage m) = Some d ->
                        device_info loaded = Some d))
    /\ (forall r : Q, rate = Fin r -> two (-1000) <= r -> r <= two 30 ->
          exists r' : Q,
            fst (load_config fl fresh_m) = Some true
            /\ reading_rate loaded = Some (Fin r')
            /\ Qabs (r' - r) <= 1 # 1000000).
Proof.
  intros Hsave Hfiles Hname loaded. subst loaded.
  revert Hsave Hfiles.
  unfold save_config, dump_json, reading_rate. run.
  destruct (py_inv (reading_interval (stage m))) as [rate|]; [ | discriminate ].
  destruct (oracle Q _ ClockTime) as [now|]; [ | discriminate ].
  destruct (oracle string _ ClockStrftime) as [readable|]; [ | discriminate ].
  destruct (oracle unit _ (OpenForWriting _)); [ | discriminate ].
  cbn. intros _ Hfiles. exists rate. split; [ reflexivity | ].
  split.
  { eexists. rewrite Hfiles. unfold effective. cbn. rewrite String.eqb_refl.
    split; reflexivity. }
  assert (Hn : number (py_of_num rate) = Some rate) by (destruct rate; reflexivity).
  assert (Hclose : forall r : Q, rate = Fin r -> two (-1000) <= r -> r <= two 30 ->
            exists p r' : Q, py_inv rate = Some (Fin p)
                             /\ py_inv (Fin p) = Some (Fin r')
                             /\ Qabs (r' - r) <= 1 # 1000000)
    by (intros r -> Hlo Hhi; apply rate_round_trip; assumption).
  revert Hclose.
  unfold load_config, load_json. run. rewrite Hname, Hfiles.
  cbn. rewrite String.eqb_refl. cbn. rewrite Hn. cbn.
  destruct (py_inv rate) as [period|]; cbn; intros Hclose.
  - destruct (device_info (stage m)) as [d|] eqn:Hd; cbn;
      [ destruct d; cbn | ];
      (repeat split; try congruence;
       intros r Hr Hlo Hhi;
       destruct (Hclose r Hr Hlo Hhi) as [p [r' [Hp [Hr' Hc]]]];
       injection Hp as ->; exists r'; repeat split; assumption).
  - repeat split; try congruence.
    intros r Hr Hlo Hhi.
    destruct (Hclose r Hr Hlo Hhi) as [p [r' [Hp _]]]. discriminate.
Qed.

(** C5, as the code has it.  [connect()] has no test for a controller that
    is already connected: with a port other than "auto" its first call
    opens the stored port again.  When that call is rejected [connect()]
    returns [False] and the controller object is unchanged; [connect()]
    returns [True] only if the port was opened again, and the stored
    connection is then the new one. *)
Theorem connect_reopens (m : Machine) :
  _connected (stage m) = true ->
  eq_str (port (stage m)) "auto" = false ->
  let reopen := OpenSerialPort (port (stage m)) in
  (exists rest,
      trace (world (snd (connect oracle m)))
      = (trace (world m) ++ Ev reopen :: rest)%list)
  /\ (oracle Connection (trace (world m)) reopen = None ->
      connect oracle m = (Some false, logged reopen m))
  /\ (fst (connect oracle m) = Some true ->
      exists conn,
        oracle Connection (trace (world m)) reopen = Some conn
        /\ connection (stage (snd (connect oracle m))) = Some conn).
Proof.
  intros _ Hport reopen. subst reopen.
  remember (connect oracle m) as res eqn:Hres.
  unfold connect in Hres. unfold try_except at 1 in Hres.
  rewrite bind_attr, Hport, bind_ret in Hres. cbn [negb] in Hres.
  rewrite bind_attr, bind_invoke in Hres.
  destruct (oracle Connection (trace (world m)) (OpenSerialPort (port (stage m))))
    as [conn|].
  - rewrite bind_assign in Hres.
    match type of Hres with
    | context [bind ?c ?k ?m1] =>
        set (rest := bind c k) in Hres; set (m2 := m1) in Hres
    end.
    assert (Hk : keeps connection rest).
    { subst rest. keeps_auto; try apply keeps_save_config.
      apply keeps_start_position_reading; reflexivity. }
    assert (Ha : appends rest).
    { subst rest. appends_auto; try apply appends_save_config.
      apply appends_start_position_reading. }
    specialize (Hk m2). destruct (Ha m2) as [r Hr].
    destruct (rest m2) as [[b|] m3]; subst res; cbn in *.
    + split; [ | split ].
      * exists r. rewrite Hr, <- app_assoc. reflexivity.
      * discriminate.
      * intros _. exists conn. split; [ reflexivity | exact Hk ].
    + split; [ | split ].
      * exists r. rewrite Hr, <- app_assoc. reflexivity.
      * discriminate.
      * discriminate.
  - subst res. cbn. split; [ | split ].
    + exists []. reflexivity.
    + reflexivity.
    + discriminate.
Qed.

End Persistence.

(** C9, as the code has it.  When the persisted record holds a non-empty
    device identity that lacks one of its required fields, [load_config]
    returns [False], whatever else the record holds, and the stored
    identity is the one the controller had before.  The settings read
    before the failure stay overwritten: the port always; the limits and
    the maximum velocity when the limits of the record can be indexed at 0
    and 1, and otherwise none of them; the polling period when moreover
    the rate of the record is a number [r] for which [1.0 / r] exists, and
    otherwise it is left alone. *)
Theorem partial_identity_fails_load (m : Machine) (filename : option string)
    (d info : list (string * pyval)) (k : string) :
  file_find (or_else filename (fun s => s) (config_file (stage m))) (files (world m))
  = Some (FileJson (PyDict d)) ->
  dict_find "device_info" d = Some (PyDict info) ->
  info <> [] ->
  In k identity_fields ->
  dict_find k info = None ->
  let m' := snd (load_config filename m) in
  let limits := setting d "position_limits_mm" (PyList [PyNum 0; PyNum 100]) in
  let rate := setting d "reading_rate_hz" (PyNum 100) in
  fst (load_config filename m) = Some false
  /\ device_info (stage m') = device_info (stage m)
  /\ world m' = world m
  /\ port (stage m') = setting d "port" (PyStr "auto")
  /\ (forall lo hi,
        py_index limits 0 = Some lo -> py_index limits 1 = Some hi ->
        min_pos (stage m') = lo
        /\ max_pos (stage m') = hi
        /\ max_velocity (stage m') = setting d "max_velocity_mm_s" (PyNum 10)
        /\ (forall r period,
              number rate = Some r -> py_inv r = Some period ->
              reading_interval (stage m') = period)
        /\ (number rate = None
            \/ (exists r, number rate = Some r /\ py_inv r = None) ->
            reading_interval (stage m') = reading_interval (stage m)))
  /\ (py_index limits 0 = None \/ py_index limits 1 = None ->
      settings (stage m') = settings (stage m)).
Proof.
  intros Hfile Hinfo Hne Hk Hmiss m' limits rate. subst m' limits rate.
  pose proof (parse_device_info_missing info k Hk Hmiss) as Hparse.
  assert (Ht : truthy (PyDict info) = true)
    by (destruct info; [ contradiction | reflexivity ]).
  unfold load_config, load_json. run. rewrite Hfile.
  cbv beta iota zeta delta [py_get].
  fold (setting d "position_limits_mm" (PyList [PyNum 0; PyNum 100])).
  fold (setting d "reading_rate_hz" (PyNum 100)).
  fold (setting d "max_velocity_mm_s" (PyNum 10)).
  fold (setting d "port" (PyStr "auto")).
  destruct (py_index (setting d "position_limits_mm" _) 0) as [lo|];
    [ destruct (py_index (setting d "position_limits_mm" _) 1) as [hi|] | ];
    [ destruct (number (setting d "reading_rate_hz" (PyNum 100))) as [r|];
      [ destruct (py_inv r) as [period|] eqn:Hp;
        [ rewrite Hinfo; unfold py_getitem; rewrite Hinfo, Ht, Hparse | ] | ]
    | | ];
    cbn; repeat split; intros;
    repeat match goal with
           | H : _ \/ _ |- _ => destruct H
           | H : exists _, _ |- _ => destruct H
           | H : _ /\ _ |- _ => destruct H
           end;
    congruence.
Qed.

(** ** The polling period *)

(** [1.0 / c] for a positive [c] of at most 100 is at least 0.01, the
    roundings included. *)
Lemma py_inv_floor (c : Q) (i : num) :
  0 < c -> c <= 100 -> py_inv c = Some i -> num_le (1 # 100) i = true.
Proof.
  intros Hc Hle. unfold py_inv, to_double.
  assert (Hh : 100 < huge) by qcompute.
  rewrite (Qabs_pos c), Qle_bool_false by lra.
  pose proof (Qred_correct c) as Ec.
  assert (Hc' : 0 < Qred c) by lra.
  pose proof (round64_nonneg (Qred c) Hc') as D0.
  assert (D1 : round64 (Qred c) <= 100) by (apply round64_le_100; lra).
  set (d := round64 (Qred c)) in *.
  destruct (Qeq_bool d 0) eqn:Ed; [ discriminate | ].
  apply Qeq_bool_neq in Ed. assert (Hd : 0 < d) by lra.
  intros H. injection H as <-. unfold recip. cbv zeta.
  assert (Hy : 1 # 100 <= 1 / d).
  { apply Qle_trans with (1 / 100); [ qcompute | apply inv_le; assumption ]. }
  destruct (Qle_bool huge (Qabs (1 / d))).
  - cbn. unfold Qlt_bool. rewrite (proj2 (Qle_bool_iff 0 (1 / d))) by lra.
    reflexivity.
  - cbn. apply Qle_bool_iff. apply round64_ge_centi. exact Hy.
Qed.

(** The constructor caps the requested rate at 100 Hz: built from a
    positive rate without loading a file, the controller polls at a period
    of at least 10 ms. *)
Lemma init_interval_floor (oracle : Oracle) (port_arg : string) (limits : Q * Q)
    (max_velocity_mm_s reading_rate_hz : Q) (cf : option string) (w : World)
    (m : Machine) :
  0 < reading_rate_hz ->
  String.eqb port_arg "auto" = false ->
  __init__ oracle port_arg limits max_velocity_mm_s reading_rate_hz cf w = Some m ->
  num_le (1 # 100) (reading_interval (stage m)) = true.
Proof.
  intros Hpos Hport. unfold __init__.
  destruct (py_inv (py_min reading_rate_hz 100)) as [interval|] eqn:E;
    [ | discriminate ].
  rewrite Hport. cbn [andb]. intros H. injection H as <-.
  match goal with
  | |- context [reading_interval (stage (snd (?c ?m0)))] =>
      assert (K : keeps reading_interval c) by keeps_auto; rewrite (K m0)
  end.
  cbn [stage reading_interval].
  assert (Hr : 0 < py_min reading_rate_hz 100 <= 100).
  { unfold py_min. order_cases; lra. }
  apply (py_inv_floor (py_min reading_rate_hz 100)); [ apply Hr | apply Hr | exact E ].
Qed.

(** C4, at the failing input.  A persisted record asking for 200 Hz loads
    successfully and leaves the polling period [1.0 / 200], the double
    next to 5 ms, below the 10 ms the constructor guarantees; a controller
    constructed in "auto" mode next to such a file starts with that
    period. *)
Theorem load_config_rate_not_capped :
  let m := {| stage := stage fresh_machine; world := fast_world |} in
  fst (load_config None m) = Some true
  /\ reading_interval (stage (snd (load_config None m))) = recip 200
  /\ (exists period : Q,
        recip 200 = Fin period
        /\ Qabs (period - (1 # 200)) <= 1 # 10 ^ 18
        /\ ~ 1 # 100 <= period)
  /\ exists m',
       __init__ (sim 0 true false) "auto" (0, 100) 10 100 None fast_world = Some m'
       /\ reading_interval (stage m') = recip 200.
Proof.
  cbv zeta. split; [ vm_compute; reflexivity | split; [ vm_compute; reflexivity | split ] ].
  - eexists. split; [ vm_compute; reflexivity | split ].
    + vm_compute. discriminate.
    + vm_compute. intros H. apply H. reflexivity.
  - eexists. split; vm_compute; reflexivity.
Qed.

(** * Concrete instances *)

(** Closed goals are settled by evaluating both sides. *)
Ltac evaluate := vm_compute; reflexivity.

(** The scenarios of the test suite on the simulated stage. *)
Example move_to_beyond_limit :
  trace (world (snd (move_to (sim 50 true false) 150 (ready 50))))
  = (trace (world (ready 50)) ++ [Ev (AxisMoveAbsolute 1%nat 100)])%list.
Proof. evaluate. Qed.

Example set_velocity_at_upper_limit :
  trace (world (snd (set_velocity (sim 100 true false) 5 (ready 100))))
  = (trace (world (ready 100)) ++ [Ev (AxisMoveVelocity 1%nat 0)])%list.
Proof. evaluate. Qed.

Lemma set_velocity_sends_clamped_witness :
  let o := sim 50 true false in
  let m := ready 50 in
  let p := _current_position (stage m) in
  let c := clamp 25 (- 10) 10 in
  exists a (sent : Q),
    axis (stage m) = Some a
    /\ trace (world (snd (set_velocity o 25 m)))
       = (trace (world m) ++ [Ev (AxisMoveVelocity a sent)])%list
    /\ (100 <= p /\ 0 < c -> sent == 0)
    /\ (p <= 0 /\ c < 0 -> sent == 0)
    /\ (~ (100 <= p /\ 0 < c) -> ~ (p <= 0 /\ c < 0) -> sent == c)
    /\ (~ (- 10 <= 25 <= 10) -> ~ sent == 25).
Proof.
  intros o m.
  apply (set_velocity_sends_clamped o m 10 0 100 25);
    [ unfold m, ready; apply run_reachable, fresh_reachable
    | evaluate | evaluate | evaluate | evaluate | evaluate
    | unfold Qle; simpl; lia ].
Defined.

Lemma move_to_sends_clamped_witness :
  let o := sim 50 true false in
  let m := ready 50 in
  exists a (sent : Q),
    axis (stage m) = Some a
    /\ trace (world (snd (move_to o 150 m)))
       = (trace (world m) ++ [Ev (AxisMoveAbsolute a sent)])%list
    /\ sent == clamp 150 0 100.
Proof.
  intros o m.
  apply (move_to_sends_clamped o m 0 100 150);
    [ unfold m, ready; apply run_reachable, fresh_reachable
    | evaluate | evaluate | evaluate | evaluate
    | unfold Qle; simpl; lia ].
Defined.

Lemma unhomed_refuses_motion_stop_allowed_witness :
  let o := sim 50 true false in
  set_velocity o 5 unhomed = (Some false, unhomed)
  /\ move_to o 50 unhomed = (Some false, unhomed)
  /\ fst (stop o unhomed) = Some true.
Proof.
  intros o.
  assert (Hr : reachable o unhomed)
    by (unfold unhomed; apply run_reachable, fresh_reachable).
  assert (Hc : _connected (stage unhomed) = true) by evaluate.
  assert (Hh : _is_homed (stage unhomed) = false) by evaluate.
  destruct (unhomed_refuses_motion_stop_allowed o unhomed Hr Hc)
    as [Hmotion [a [Ha Hstop]]].
  destruct (Hmotion Hh) as [Hv Ht].
  split; [ apply Hv | split; [ apply Ht | ] ].
  apply Hstop. vm_compute in Ha. injection Ha as <-. evaluate.
Defined.

Lemma rejected_command_keeps_cache_witness :
  let o := sim 50 false false in
  fst (home o refusing) = Some false
  /\ cache (stage (snd (home o refusing))) = cache (stage refusing).
Proof.
  intros o.
  apply (rejected_command_keeps_cache o Home (home o) refusing);
    [ reflexivity | exists (Ev (AxisHome 1%nat)); split; evaluate ].
Defined.

Lemma poll_cycle_keeps_or_refreshes_witness :
  let o := sim 42 true false in
  let m' := snd (read_position_once o (ready 50)) in
  _current_position (stage m') = 42
  /\ _is_moving (stage m') = false
  /\ _current_velocity (stage m') = 0
  /\ _is_homed (stage m') = _is_homed (stage (ready 50)).
Proof.
  intros o.
  destruct (poll_cycle_keeps_or_refreshes o (ready 50)) as [_ [_ [H _]]].
  assert (Ha : axis (stage (ready 50)) = Some 1%nat) by evaluate.
  destruct (H 1%nat Ha) as [Hread _].
  apply (Hread 42 false); evaluate.
Defined.

Lemma move_to_keeps_cache_witness :
  let o := sim 50 true false in
  let m1 := snd (move_to o 80 (ready 50)) in
  cache (stage m1) = cache (stage (ready 50))
  /\ cache (stage (snd (read_position_once o m1))) = (50, Fin 0, false, true).
Proof.
  intros o.
  destruct (move_to_keeps_cache o (ready 50) 80) as [Hkeep Hpoll].
  split; [ exact Hkeep | ].
  assert (E : (50, Fin 0, false, true)
              = (50, (if false then _current_velocity (stage (ready 50)) else 0),
                 false, _is_homed (stage (ready 50)))) by evaluate.
  rewrite E. apply (Hpoll 1%nat 50 false); evaluate.
Defined.

Lemma save_load_round_trip_witness :
  let o := sim 50 true false in
  let saved := snd (save_config o (Some "stage.json") (ready 50)) in
  let loaded := stage (snd (load_config None (other_machine (world saved)))) in
  fst (load_config None (other_machine (world saved))) = Some true
  /\ port loaded = PyStr "COM3"
  /\ min_pos loaded = PyNum 0
  /\ max_pos loaded = PyNum 100
  /\ max_velocity loaded = PyNum 10
  /\ reading_rate (stage (ready 50)) = Some (Fin 100)
  /\ exists r' : Q,
       reading_rate loaded = Some (Fin r') /\ Qabs (r' - 100) <= 1 # 1000000.
Proof.
  intros o saved loaded.
  destruct (save_load_round_trip o (ready 50) (other_machine (world saved))
              (Some "stage.json") None)
    as [rate [Hr [_ [Hp [Hlo [Hhi [Hv [_ [_ Hclose]]]]]]]]];
    [ evaluate | evaluate | evaluate | ].
  assert (Hr' : reading_rate (stage (ready 50)) = Some (Fin 100)) by evaluate.
  assert (E : rate = Fin 100) by congruence.
  destruct (Hclose 100 E) as [r' [H1 [H2 H3]]]; [ qcompute | qcompute | ].
  split; [ exact H1 | ].
  split; [ fold loaded in Hp; rewrite Hp; evaluate | ].
  split; [ fold loaded in Hlo; rewrite Hlo; evaluate | ].
  split; [ fold loaded in Hhi; rewrite Hhi; evaluate | ].
  split; [ fold loaded in Hv; rewrite Hv; evaluate | ].
  split; [ exact Hr' | ].
  exists r'. split; [ exact H2 | exact H3 ].
Defined.

(** C8, refuted as stated: a controller built for a rate of 1e-320 Hz has
    an infinite polling period; [save_config] succeeds and writes the rate
    0, and [load_config] of that file into a fresh controller fails on its
    division, so that the fresh controller keeps its own rate of 100 Hz. *)
Lemma round_trip_fails_for_infinite_period :
  let o := sim 50 true false in
  match __init__ o "COM3" (0, 100) 10 slow_rate None empty_world with
  | None => False
  | Some m =>
      let saved := snd (save_config o None m) in
      let fresh_m := {| stage := stage fresh_machine; world := world saved |} in
      let loaded := stage (snd (load_config None fresh_m)) in
      reading_interval (stage m) = Inf false
      /\ fst (save_config o None m) = Some true
      /\ reading_rate (stage m) = Some (Fin 0)
      /\ fst (load_config None fresh_m) = Some false
      /\ fst (load_config None fresh_m) <> Some true
      /\ reading_interval loaded = reading_interval (stage fresh_m)
      /\ reading_rate loaded = Some (Fin 100)
      /\ ~ Qabs (100 - 0) <= 1 # 1000000
  end.
Proof.
  vm_compute. repeat split; try reflexivity; try discriminate.
  intros H. apply H. reflexivity.
Qed.

(** C5, refuted as stated: on a connected stage whose port is held open,
    a second [connect()] tries to open the port again and returns
    [False]. *)
Lemma reconnect_opens_port_again :
  let o := sim 50 true true in
  reachable o busy
  /\ _connected (stage busy) = true
  /\ connect o busy = (Some false, logged (OpenSerialPort (PyStr "COM3")) busy)
  /\ fst (connect o busy) <> Some true
  /\ trace (world (snd (connect o busy))) <> trace (world busy).
Proof.
  intros o. split; [ | split; [ | split; [ | split ] ] ].
  - unfold busy. apply run_reachable, fresh_reachable.
  - evaluate.
  - evaluate.
  - vm_compute. discriminate.
  - vm_compute. intros H. apply (f_equal (@length event)) in H. discriminate.
Qed.

(** Where the port can be opened twice, the second [connect()] succeeds,
    after opening the port and detecting the device again. *)
Example reconnect_on_shared_port :
  let o := sim 50 true false in
  fst (connect o unhomed) = Some true
  /\ trace (world (snd (connect o unhomed)))
     = (trace (world unhomed)
        ++ [Ev (OpenSerialPort (PyStr "COM3")); Ev (DetectDevices 1%nat);
            Ev (GetAxis sim_device 1); Ev (AxisIsHomed 1%nat);
            Ev (AxisGetPosition 1%nat); Ev (ThreadIsAlive 1%nat)])%list.
Proof. split; evaluate. Qed.

Lemma connect_reopens_witness :
  let o := sim 50 true true in
  connect o busy = (Some false, logged (OpenSerialPort (PyStr "COM3")) busy).
Proof.
  intros o.
  assert (Hc : _connected (stage busy) = true) by evaluate.
  assert (Hp : eq_str (port (stage busy)) "auto" = false) by evaluate.
  destruct (connect_reopens o busy Hc Hp) as [_ [H _]].
  apply H. evaluate.
Defined.

(** C9, refuted as stated: a record whose identity lacks [axis_count] makes
    [load_config] report failure, after the other settings were
    overwritten. *)
Lemma partial_identity_load_reports_failure :
  fst (load_config None partial_machine) = Some false
  /\ fst (load_config None partial_machine) <> Some true
  /\ port (stage (snd (load_config None partial_machine))) = PyStr "COM7"
  /\ device_info (stage (snd (load_config None partial_machine))) = None.
Proof.
  split; [ evaluate | split; [ vm_compute; discriminate | split; evaluate ] ].
Qed.

Lemma partial_identity_fails_load_witness :
  let m' := snd (load_config None partial_machine) in
  fst (load_config None partial_machine) = Some false
  /\ device_info (stage m') = device_info (stage partial_machine)
  /\ port (stage m') = PyStr "COM7"
  /\ min_pos (stage m') = PyNum 5
  /\ max_pos (stage m') = PyNum 80
  /\ max_velocity (stage m') = PyNum 4
  /\ reading_interval (stage m') = recip 50.
Proof.
  intros m'. subst m'.
  destruct (partial_identity_fails_load partial_machine None partial_items
              partial_identity "axis_count")
    as [H1 [H2 [_ [H3 [H4 _]]]]];
    [ evaluate | evaluate | discriminate | simpl; tauto | evaluate | ].
  destruct (H4 (PyNum 5) (PyNum 80)) as [H5 [H6 [H7 [H8 _]]]];
    [ evaluate | evaluate | ].
  split; [ exact H1 | ]. split; [ exact H2 | ].
  split; [ rewrite H3; evaluate | ].
  split; [ exact H5 | ]. split; [ exact H6 | ].
  split; [ rewrite H7; evaluate | ].
  apply (H8 (Fin 50) (recip 50)); evaluate.
Defined.

(** * Further properties *)

Ltac crunch := run; repeat (cbn; split_match); cbn.

(** ** Motion commands *)

Section Commands.

Variable oracle : Oracle.

(** A controller that is not connected refuses [home], [stop],
    [set_velocity] and [move_to]: each returns [False] and leaves the object
    and the trace of calls as they were. *)
Theorem disconnected_refuses_commands (m : Machine) :
  _connected (stage m) = false ->
  home oracle m = (Some false, m)
  /\ stop oracle m = (Some false, m)
  /\ (forall v, set_velocity oracle v m = (Some false, m))
  /\ (forall t, move_to oracle t m = (Some false, m)).
Proof.
  intros Hc. repeat split; intros;
    unfold home, stop, set_velocity, move_to; run; rewrite Hc; reflexivity.
Qed.

(** On a connected controller, homed or not, an accepted [home()] issues
    the one homing call, returns [True] and sets the homed flag; nothing
    else of the object changes. *)
Theorem home_accepted_sets_homed (m : Machine) :
  reachable oracle m ->
  _connected (stage m) = true ->
  exists a,
    axis (stage m) = Some a
    /\ (raises oracle (trace (world m)) (Ev (AxisHome a)) = false ->
        home oracle m
        = (Some true,
           {| stage := set__is_homed true (stage m);
              world := log_event (Ev (AxisHome a)) (world m) |})).
Proof.
  intros Hr Hc. destruct (connected_axis oracle m Hr Hc) as [a Ha].
  exists a. split; [ exact Ha | ].
  unfold raises, home. run. rewrite Hc, Ha. cbn. rewrite Ha. cbn.
  destruct (oracle unit (trace (world m)) (AxisHome a));
    [ reflexivity | discriminate ].
Qed.

(** On a connected controller an accepted [stop()] issues the one stop
    call, returns [True] and resets the cached velocity to 0; the cached
    position, the moving flag and the homed flag are left alone, and the
    controller stays connected. *)
Theorem stop_accepted_zeroes_velocity (m : Machine) :
  reachable oracle m ->
  _connected (stage m) = true ->
  exists a,
    axis (stage m) = Some a
    /\ (raises oracle (trace (world m)) (Ev (AxisStop a)) = false ->
        let m' := snd (stop oracle m) in
        fst (stop oracle m) = Some true
        /\ trace (world m') = (trace (world m) ++ [Ev (AxisStop a)])%list
        /\ _current_velocity (stage m') = 0
        /\ _current_position (stage m') = _current_position (stage m)
        /\ _is_moving (stage m') = _is_moving (stage m)
        /\ _is_homed (stage m') = _is_homed (stage m)
        /\ _connected (stage m') = true).
Proof.
  intros Hr Hc. destruct (connected_axis oracle m Hr Hc) as [a Ha].
  exists a. split; [ exact Ha | ].
  unfold raises, stop. run. rewrite Hc, Ha. cbn. rewrite Ha. cbn.
  destruct (oracle unit (trace (world m)) (AxisStop a)); [ | discriminate ].
  intros _. cbn. rewrite Hc. repeat split.
Qed.

(** When [set_velocity(v)] returns [True], the cached velocity is the value
    that was sent to the controller, and it lies within the velocity range;
    the cached position and the moving flag are left alone. *)
Theorem set_velocity_accepted_caches_sent (m : Machine) (vmax lo hi v : Q) :
  reachable oracle m ->
  _connected (stage m) = true ->
  _is_homed (stage m) = true ->
  max_velocity (stage m) = PyNum vmax ->
  min_pos (stage m) = PyNum lo ->
  max_pos (stage m) = PyNum hi ->
  0 <= vmax ->
  fst (set_velocity oracle v m) = Some true ->
  let m' := snd (set_velocity oracle v m) in
  exists a (sent : Q),
    trace (world m')
    = (trace (world m) ++ [Ev (AxisMoveVelocity a sent)])%list
    /\ _current_velocity (stage m') = sent
    /\ - vmax <= sent <= vmax
    /\ _current_position (stage m') = _current_position (stage m)
    /\ _is_moving (stage m') = _is_moving (stage m)
    /\ _is_homed (stage m') = true.
Proof.
  intros Hr Hc Hh Hv Hlo Hhi Hpos.
  destruct (connected_axis oracle m Hr Hc) as [a Ha].
  assert (Hb : - vmax <= py_max (- vmax) (py_min v vmax) <= vmax).
  { rewrite py_clamp by lra. apply clamp_range. lra. }
  unfold set_velocity. run.
  repeat (progress (rewrite ?Hc, ?Ha, ?Hh, ?Hv, ?Hlo, ?Hhi,
                      ?num_min_fin, ?num_max_fin; cbn)).
  destruct (Qle_bool _ lo && Qlt_bool _ 0); cbn; rewrite ?Ha, ?Hhi; cbn;
    [ | destruct (Qle_bool hi _ && Qlt_bool 0 _); cbn; rewrite ?Ha; cbn ];
    (destruct (oracle unit _ _); cbn; [ | discriminate ]);
    intros _; exists a; eexists; rewrite Hh;
    (split; [ reflexivity | ]); repeat split; try reflexivity; try lra;
    apply Hb.
Qed.

End Commands.

(** ** Disconnection and the polling loop *)


Section Polling.

Variable oracle : Oracle.

Lemma stopped_loop (fuel : nat) (m : Machine) :
  _stop_reading (stage m) = true ->
  _read_position_loop oracle fuel m = (Some tt, m).
Proof.
  intros H. destruct fuel as [|n]; [ reflexivity | ].
  simpl. unfold bind, attr. cbn. rewrite H. reflexivity.
Qed.

Lemma disconnect_sets_flag :
  hoare (fun _ => True) (disconnect oracle) (fun s => _stop_reading s = true).
Proof.
  unfold disconnect, _stop_position_reading.
  apply hoare_bind with (R := fun s => _stop_reading s = true); [ | auto | ].
  - apply hoare_bind with (R := fun s => _stop_reading s = true); [ | auto | ].
    + apply hoare_assign. reflexivity.
    + intros _. apply (hoare_keeps _stop_reading); [ intros s s' ->; auto | ].
      keeps_auto.
  - intros _. apply (hoare_keeps _stop_reading); [ intros s s' ->; auto | ].
    keeps_auto.
Qed.

(** [disconnect()] always sets the stop flag, so that further iterations
    of the polling loop do nothing.  It leaves the cache (it resets neither
    the homed flag nor the cached velocity), the handles and the settings
    as they were.  It returns, having marked the controller disconnected,
    whenever the join of the polling thread returns: a failing stop or
    close is swallowed. *)
Theorem disconnect_effect (m : Machine) :
  let m' := snd (disconnect oracle m) in
  _stop_reading (stage m') = true
  /\ cache (stage m') = cache (stage m)
  /\ handles (stage m') = handles (stage m)
  /\ settings (stage m') = settings (stage m)
  /\ (fst (disconnect oracle m) = Some tt -> _connected (stage m') = false)
  /\ (match _reading_thread (stage m) with
      | Some th => raises oracle (trace (world m)) (Ev (ThreadJoin th 1)) = false
      | None => True
      end -> fst (disconnect oracle m) = Some tt)
  /\ (forall fuel, _read_position_loop oracle fuel m' = (Some tt, m')).
Proof.
  intros m'.
  assert (Hflag : _stop_reading (stage m') = true)
    by (apply disconnect_sets_flag; exact I).
  split; [ exact Hflag | ].
  split; [ | split; [ | split; [ | split; [ | split ] ] ] ].
  - subst m'. assert (K : keeps cache (disconnect oracle))
      by (unfold disconnect, _stop_position_reading; keeps_auto). apply K.
  - subst m'. assert (K : keeps handles (disconnect oracle))
      by (unfold disconnect, _stop_position_reading; keeps_auto). apply K.
  - subst m'. assert (K : keeps settings (disconnect oracle))
      by (unfold disconnect, _stop_position_reading; keeps_auto). apply K.
  - subst m'. unfold disconnect, _stop_position_reading. crunch;
      intros; try reflexivity; discriminate.
  - subst m'. unfold raises, disconnect, _stop_position_reading. crunch;
      intros; try reflexivity; try discriminate; try contradiction.
  - intros fuel. apply stopped_loop. exact Hflag.
Qed.





End Polling.

(** ** Configuration files *)

(** When the file is missing, cannot be parsed, or holds a JSON value that
    is not an object, [load_config] returns [False] and changes nothing. *)
Theorem load_config_unreadable (m : Machine) (filename : option string) :
  match file_find (effective filename (stage m)) (files (world m)) with
  | None => True
  | Some FileCorrupt => True
  | Some (FileJson v) => is_object v = false
  end ->
  load_config filename m = (Some false, m).
Proof.
  unfold effective, load_config, load_json. run.
  destruct (file_find _ _) as [[v|]|]; cbn; intros H; try reflexivity.
  destruct v; try discriminate; destruct m; reflexivity.
Qed.

(** A record loads when its limits have two entries and its rate is a
    number [r] for which [1.0 / r] exists, its identity being absent, empty
    or complete: [load_config] returns [True], missing keys take the
    defaults "auto", [0, 100], 10 and 100 Hz, the period is [1.0 / r] for
    the rate as it stands, and the cache, the connected flag and the axis
    are untouched. *)
Theorem load_config_accepts (m : Machine) (filename : option string)
    (d : list (string * pyval)) (lo hi : pyval) (r period : num) :
  file_find (effective filename (stage m)) (files (world m))
  = Some (FileJson (PyDict d)) ->
  py_index (setting d "position_limits_mm" (PyList [PyNum 0; PyNum 100])) 0 = Some lo ->
  py_index (setting d "position_limits_mm" (PyList [PyNum 0; PyNum 100])) 1 = Some hi ->
  number (setting d "reading_rate_hz" (PyNum 100)) = Some r ->
  py_inv r = Some period ->
  (truthy (setting d "device_info" PyNone) = false
   \/ exists di, parse_device_info (setting d "device_info" PyNone) = Some di) ->
  let m' := snd (load_config filename m) in
  fst (load_config filename m) = Some true
  /\ world m' = world m
  /\ port (stage m') = setting d "port" (PyStr "auto")
  /\ min_pos (stage m') = lo
  /\ max_pos (stage m') = hi
  /\ max_velocity (stage m') = setting d "max_velocity_mm_s" (PyNum 10)
  /\ reading_interval (stage m') = period
  /\ device_info (stage m')
     = (if truthy (setting d "device_info" PyNone)
        then parse_device_info (setting d "device_info" PyNone)
        else device_info (stage m))
  /\ cache (stage m') = cache (stage m)
  /\ link (stage m') = link (stage m).
Proof.
  intros Hfile Hlo Hhi Hr Hr0 Hinfo m'. subst m'.
  unfold effective in Hfile. unfold load_config, load_json. run. rewrite Hfile.
  cbv beta iota zeta delta [py_get].
  fold (setting d "position_limits_mm" (PyList [PyNum 0; PyNum 100])).
  rewrite Hlo, Hhi.
  fold (setting d "reading_rate_hz" (PyNum 100)). rewrite Hr, Hr0.
  fold (setting d "device_info" PyNone).
  fold (setting d "port" (PyStr "auto")).
  fold (setting d "max_velocity_mm_s" (PyNum 10)).
  destruct Hinfo as [Hf | [di Hp]].
  - rewrite Hf. cbn. repeat split.
  - destruct (truthy (setting d "device_info" PyNone)) eqn:Et.
    + assert (Hg : py_getitem (PyDict d) "device_info" = Some (setting d "device_info" PyNone)).
      { unfold py_getitem, setting in *. destruct (dict_find "device_info" d);
          [ reflexivity | discriminate ]. }
      rewrite Hg, Hp. cbn. repeat split. 
    + cbn. repeat split.
Qed.

(** Limits with fewer than two entries make [load_config] return [False]
    after the port was overwritten; the limits themselves and every later
    setting keep their values. *)
Theorem load_config_bad_limits (m : Machine) (filename : option string)
    (d : list (string * pyval)) :
  file_find (effective filename (stage m)) (files (world m))
  = Some (FileJson (PyDict d)) ->
  (py_index (setting d "position_limits_mm" (PyList [PyNum 0; PyNum 100])) 0 = None
   \/ py_index (setting d "position_limits_mm" (PyList [PyNum 0; PyNum 100])) 1 = None) ->
  load_config filename m
  = (Some false,
     {| stage := set_port (setting d "port" (PyStr "auto")) (stage m);
        world := world m |}).
Proof.
  intros Hfile Hbad.
  unfold effective in Hfile. unfold load_config, load_json. run. rewrite Hfile.
  cbv beta iota zeta delta [py_get].
  fold (setting d "position_limits_mm" (PyList [PyNum 0; PyNum 100])).
  fold (setting d "port" (PyStr "auto")).
  destruct Hbad as [H | H].
  - rewrite H. reflexivity.
  - rewrite H.
    destruct (py_index (setting d "position_limits_mm" (PyList [PyNum 0; PyNum 100])) 0);
      reflexivity.
Qed.

(** A rate that is not a number, or for which [1.0 / rate] raises (zero,
    or an integer too large for a double), makes [load_config] return
    [False] after the port, the limits and the maximum velocity were
    overwritten; the polling period and the identity keep their values. *)
Theorem load_config_bad_rate (m : Machine) (filename : option string)
    (d : list (string * pyval)) (lo hi : pyval) :
  file_find (effective filename (stage m)) (files (world m))
  = Some (FileJson (PyDict d)) ->
  py_index (setting d "position_limits_mm" (PyList [PyNum 0; PyNum 100])) 0 = Some lo ->
  py_index (setting d "position_limits_mm" (PyList [PyNum 0; PyNum 100])) 1 = Some hi ->
  (number (setting d "reading_rate_hz" (PyNum 100)) = None
   \/ exists r, number (setting d "reading_rate_hz" (PyNum 100)) = Some r
                /\ py_inv r = None) ->
  load_config filename m
  = (Some false,
     {| stage :=
          set_max_velocity (setting d "max_velocity_mm_s" (PyNum 10))
            (set_max_pos hi
               (set_min_pos lo
                  (set_port (setting d "port" (PyStr "auto")) (stage m))));
        world := world m |}).
Proof.
  intros Hfile Hlo Hhi Hbad.
  unfold effective in Hfile. unfold load_config, load_json. run. rewrite Hfile.
  cbv beta iota zeta delta [py_get].
  fold (setting d "position_limits_mm" (PyList [PyNum 0; PyNum 100])).
  rewrite Hlo, Hhi.
  fold (setting d "reading_rate_hz" (PyNum 100)).
  fold (setting d "port" (PyStr "auto")).
  fold (setting d "max_velocity_mm_s" (PyNum 10)).
  destruct Hbad as [H | [r [H Hz]]]; rewrite H.
  - reflexivity.
  - cbn. rewrite Hz. reflexivity.
Qed.

Section Saving.
Variable oracle : Oracle.

End Saving.

(** ** What the methods leave alone *)

Section Frames.

Variable oracle : Oracle.

Lemma keeps_connect_settings : keeps settings (connect oracle).
Proof.
  unfold connect.
  keeps_auto; try apply keeps_scan_devices; try apply keeps_find_zaber_port;
    try apply keeps_save_config.
  apply keeps_start_position_reading; reflexivity.
Qed.

Lemma keeps_loop {B : Type} (f : ZaberStage -> B) (fuel : nat) :
  keeps f (read_position_once oracle) ->
  keeps f (_read_position_loop oracle fuel).
Proof.
  intros H. induction fuel as [|n IH]; simpl.
  - keeps_auto.
  - keeps_auto; [ exact H | apply IH ].
Qed.

(** No method other than [load_config] changes the position limits, the
    maximum velocity, the polling period or the configuration file name:
    in particular no motion command, no connect or disconnect and no cycle
    of the polling loop does. *)
Theorem settings_change_only_on_load (op : method) (m : Machine) :
  is_load op = false ->
  settings (stage (perform oracle op m)) = settings (stage m).
Proof.
  destruct op as [ | | | v | | x | | name | name | fuel ]; simpl; intros H;
    try discriminate.
  - apply keeps_connect_settings.
  - assert (K : keeps settings (disconnect oracle))
      by (unfold disconnect, _stop_position_reading; keeps_auto). apply K.
  - assert (K : keeps settings (home oracle))
      by (unfold home, the_axis; keeps_auto). apply K.
  - assert (K : keeps settings (set_velocity oracle v))
      by (unfold set_velocity, get_position, the_axis; keeps_auto). apply K.
  - assert (K : keeps settings (stop oracle))
      by (unfold stop, the_axis; keeps_auto). apply K.
  - rewrite (keeps_move_to oracle x m). reflexivity.
  - apply (keeps_scan_devices oracle settings).
  - apply (keeps_save_config oracle settings).
  - apply keeps_loop. unfold read_position_once. keeps_auto.
Qed.

(** The homed flag is written by [connect] and [home] only: [disconnect],
    the other motion commands, the configuration methods and the polling
    loop leave it as it was. *)
Theorem homed_flag_written_only_by_connect_and_home (op : method) (m : Machine) :
  writes_homed op = false ->
  _is_homed (stage (perform oracle op m)) = _is_homed (stage m).
Proof.
  destruct op as [ | | | v | | x | | name | name | fuel ]; simpl; intros H;
    try discriminate.
  - assert (K : keeps _is_homed (disconnect oracle))
      by (unfold disconnect, _stop_position_reading; keeps_auto). apply K.
  - assert (K : keeps _is_homed (set_velocity oracle v))
      by (unfold set_velocity, get_position, the_axis; keeps_auto). apply K.
  - assert (K : keeps _is_homed (stop oracle))
      by (unfold stop, the_axis; keeps_auto). apply K.
  - rewrite (keeps_move_to oracle x m). reflexivity.
  - apply (keeps_scan_devices oracle _is_homed).
  - apply (keeps_save_config oracle _is_homed).
  - assert (K : keeps _is_homed (load_config name))
      by (unfold load_config; keeps_auto). apply K.
  - apply keeps_loop. unfold read_position_once. keeps_auto.
Qed.

End Frames.

(** ** Connecting *)

Lemma wins_bind {A : Type} (P R G : ZaberStage -> Prop) (c : M A) (k : A -> M bool) :
  hoare P c R -> (forall a, wins R (k a) G) -> wins P (bind c k) G.
Proof.
  intros Hc Hk m Hm. unfold bind. specialize (Hc m Hm).
  destruct (c m) as [[a|] m1]; cbn in *.
  - apply Hk. exact Hc.
  - discriminate.
Qed.

Lemma wins_try_false (P G : ZaberStage -> Prop) (c : M bool) :
  wins P c G -> wins P (try_except c (ret false)) G.
Proof.
  intros Hc m Hm. unfold try_except. specialize (Hc m Hm).
  destruct (c m) as [[b|] m1]; cbn in *.
  - exact Hc.
  - discriminate.
Qed.

Lemma wins_ret_false (P G : ZaberStage -> Prop) : wins P (ret false) G.
Proof. intros m _. discriminate. Qed.

Lemma wins_ret_true (P : ZaberStage -> Prop) : wins P (ret true) P.
Proof. intros m Hm _. exact Hm. Qed.

Lemma hoare_any {A : Type} (P : ZaberStage -> Prop) (c : M A) :
  hoare P c (fun _ => True).
Proof. intros m _. exact I. Qed.

Lemma hoare_bind_attr {A C : Type} (P Q : ZaberStage -> Prop)
    (g : ZaberStage -> A) (k : A -> M C) :
  (forall a, hoare (fun s => P s /\ g s = a) (k a) Q) ->
  hoare P (bind (attr g) k) Q.
Proof.
  intros Hk m Hm. rewrite bind_attr. apply Hk. split; [ exact Hm | reflexivity ].
Qed.

Lemma wins_bind_attr {A : Type} (P G : ZaberStage -> Prop)
    (g : ZaberStage -> A) (k : A -> M bool) :
  (forall a, wins (fun s => P s /\ g s = a) (k a) G) ->
  wins P (bind (attr g) k) G.
Proof.
  intros Hk m Hm. rewrite bind_attr. apply Hk. split; [ exact Hm | reflexivity ].
Qed.

Ltac grip_transfer :=
  let H := fresh in
  let E1 := fresh in let E2 := fresh in let E3 := fresh in
  let E4 := fresh in let E5 := fresh in
  intros ? ? H; unfold grip in H; injection H as E1 E2 E3 E4 E5;
  unfold established, has_info, has_axis, has_dev, has_conn;
  rewrite ?E1, ?E2, ?E3, ?E4, ?E5; auto.

Ltac by_grip := apply (hoare_keeps grip); [ grip_transfer | keeps_auto ].

Lemma extend_extend (a b : list event) (m : Machine) :
  extend b (extend a m) = extend (a ++ b) m.
Proof. unfold extend. cbn. rewrite app_assoc. reflexivity. Qed.

Section Connecting.

Variable oracle : Oracle.

Lemma connect_wins : wins (fun _ => True) (connect oracle) established.
Proof.
  unfold connect. apply wins_try_false.
  apply wins_bind with (R := fun _ => True); [ apply hoare_any | intros p ].
  apply wins_bind with (R := fun _ => True); [ apply hoare_any | intros resolved ].
  destruct resolved; cbn [negb]; [ | apply wins_ret_false ].
  apply wins_bind with (R := fun _ => True); [ apply hoare_any | intros p' ].
  apply wins_bind with (R := fun _ => True); [ apply hoare_any | intros conn ].
  apply wins_bind with (R := has_conn); [ apply hoare_assign; reflexivity | intros _ ].
  apply wins_bind with (R := has_conn);
    [ apply (hoare_keeps connection); [ unfold has_conn; intros s s' ->; auto | keeps_auto ]
    | intros devices ].
  destruct devices as [|d rest]; [ apply wins_ret_false | ].
  apply wins_bind with (R := has_dev);
    [ apply hoare_assign; intros s H; split; [ exact H | reflexivity ] | intros _ ].
  apply wins_bind with (R := has_dev);
    [ by_grip | intros a ].
  apply wins_bind with (R := has_axis);
    [ apply hoare_assign; intros s H; split; [ exact H | reflexivity ] | intros _ ].
  apply wins_bind_attr. intros known.
  apply wins_bind with (R := has_info).
  { destruct known as [di|].
    - intros m [H E]. cbn. split; [ exact H | rewrite E; reflexivity ].
    - apply hoare_bind_attr. intros self.
      apply hoare_bind with (R := has_info); [ | auto | intros _ ].
      + apply hoare_assign. intros s [[H _] _]. split; [ exact H | reflexivity ].
      + by_grip; apply keeps_save_config. }
  intros _.
  apply wins_bind with (R := has_info); [ by_grip | intros homed ].
  apply wins_bind with (R := has_info); [ by_grip | intros _ ].
  apply wins_bind with (R := has_info); [ by_grip | intros _ ].
  apply wins_bind with (R := established).
  { apply hoare_assign. unfold has_info, has_axis, has_dev, has_conn, established.
    cbn. tauto. }
  intros _.
  apply wins_bind with (R := established).
  { apply (hoare_keeps grip); [ grip_transfer | ].
    apply keeps_start_position_reading; reflexivity. }
  intros _. apply wins_ret_true.
Qed.

Lemma connect_returns (m : Machine) :
  fst (connect oracle m) = Some true \/ fst (connect oracle m) = Some false.
Proof.
  unfold connect, try_except.
  match goal with |- context [let (o, m') := ?c m in _] => destruct (c m) as [[[|]|] m1] end;
    cbn; auto.
Qed.
(** [connect()] never raises.  When it returns [True] the controller is
    marked connected and holds a connection, a device, an axis and a device
    identity. *)
Theorem connect_true_means_established (m : Machine) :
  (fst (connect oracle m) = Some true \/ fst (connect oracle m) = Some false)
  /\ (fst (connect oracle m) = Some true ->
      established (stage (snd (connect oracle m)))).
Proof.
  split.
  - apply connect_returns.
  - intros H. apply connect_wins; [ exact I | exact H ].
Qed.

(** With a port other than "auto": when the port opens but detection
    finds no device, or raises, [connect()] returns [False]; the new
    connection is stored and is not closed, and nothing else of the object
    changes. *)
Theorem connect_finds_no_device (m : Machine) (conn : Connection) :
  eq_str (port (stage m)) "auto" = false ->
  let reopen := OpenSerialPort (port (stage m)) in
  oracle Connection (trace (world m)) reopen = Some conn ->
  match oracle (list Device) (trace (world m) ++ [Ev reopen])%list (DetectDevices conn) with
  | Some (_ :: _) => False
  | _ => True
  end ->
  connect oracle m
  = (Some false,
     {| stage := set_connection (Some conn) (stage m);
        world := log_event (Ev (DetectDevices conn)) (log_event (Ev reopen) (world m)) |}).
Proof.
  intros Hport reopen Hopen. subst reopen.
  unfold connect. unfold try_except at 1.
  rewrite bind_attr, Hport, bind_ret. cbn [negb].
  rewrite bind_attr, bind_invoke, Hopen, bind_assign, bind_invoke. cbn.
  destruct (oracle (list Device) _ (DetectDevices conn)) as [[|d ds]|];
    intros H; try contradiction; reflexivity.
Qed.
Lemma scan_ports_dead (ports : list string) :
  (forall tr p, In p ports -> oracle Connection tr (OpenSerialPort (PyStr p)) = None) ->
  forall discovered m,
    scan_ports oracle ports discovered m = (Some discovered, extend (attempts ports) m).
Proof.
  induction ports as [|p rest IH]; intros Hdead discovered m.
  - unfold extend. cbn. rewrite app_nil_r. destruct m as [s [t f]]. reflexivity.
  - simpl scan_ports. unfold bind at 1. unfold try_except at 1.
    rewrite bind_invoke, (Hdead _ p (or_introl eq_refl)). cbn.
    rewrite IH by (intros tr q Hq; apply Hdead; right; exact Hq).
    change (logged (OpenSerialPort (PyStr p)) m)
      with (extend [Ev (OpenSerialPort (PyStr p))] m).
    rewrite extend_extend. reflexivity.
Qed.

Lemma find_port_dead (ports : list string) :
  (forall tr p, In p ports -> oracle Connection tr (OpenSerialPort (PyStr p)) = None) ->
  forall m, find_port oracle ports m = (Some PyNone, extend (attempts ports) m).
Proof.
  induction ports as [|p rest IH]; intros Hdead m.
  - unfold extend. cbn. rewrite app_nil_r. destruct m as [s [t f]]. reflexivity.
  - simpl find_port. unfold bind at 1. unfold try_except at 1.
    rewrite bind_invoke, (Hdead _ p (or_introl eq_refl)). cbn.
    rewrite IH by (intros tr q Hq; apply Hdead; right; exact Hq).
    change (logged (OpenSerialPort (PyStr p)) m)
      with (extend [Ev (OpenSerialPort (PyStr p))] m).
    rewrite extend_extend. reflexivity.
Qed.

(** In "auto" mode, when none of the candidate ports opens, [connect()]
    returns [False] after trying every candidate port twice (once in the
    scan, once in the port search), and the stored port is then [None], no
    longer "auto". *)
Theorem connect_auto_finds_nothing (m : Machine) (system : string) :
  eq_str (port (stage m)) "auto" = true ->
  (forall tr, oracle string tr PlatformSystem = Some system) ->
  no_port_opens oracle system ->
  let tried := Ev PlatformSystem :: attempts (candidate_ports system) in
  connect oracle m
  = (Some false,
     {| stage := set_port PyNone (stage m);
        world := {| trace := trace (world m) ++ tried ++ tried;
                    files := files (world m) |} |}).
Proof.
  intros Hport Hsys Hdead tried.
  unfold connect. unfold try_except at 1.
  rewrite bind_attr, Hport.
  unfold scan_devices, _find_zaber_port.
  unfold bind at 1. unfold bind at 1. rewrite bind_invoke, Hsys.
  rewrite (scan_ports_dead _ Hdead). cbn.
  unfold bind at 1. rewrite bind_invoke. cbn. rewrite Hsys.
  rewrite (find_port_dead _ Hdead). cbn.
  unfold extend, logged, log_event. cbn. subst tried.
  repeat (rewrite <- app_assoc; cbn). reflexivity.
Qed.
End Connecting.

(** ** Device discovery *)

Lemma candidate_ports_named (system p : string) :
  In p (candidate_ports system) -> String.eqb p "" = false.
Proof.
  unfold candidate_ports. destruct (String.eqb system "Windows").
  - rewrite in_map_iff. intros [i [<- _]]. reflexivity.
  - rewrite in_app_iff, !in_map_iff. intros [[i [<- _]] | [i [<- _]]]; reflexivity.
Qed.

Lemma on_port_more (p : string) (ports : list string) (d : DeviceInfo) :
  on_port ports d -> on_port (p :: ports) d.
Proof. intros [q [Hq E]]. exists q. split; [ right; exact Hq | exact E ]. Qed.

Lemma try_ret_returns {A : Type} (c : M A) (x : A) (m : Machine) :
  exists a, fst (try_except c (ret x) m) = Some a.
Proof.
  unfold try_except. destruct (c m) as [[a|] m1]; cbn; eauto.
Qed.

Section Discovery.

Variable oracle : Oracle.

Lemma scan_ports_finds (ports : list string) :
  (forall p, In p ports -> String.eqb p "" = false) ->
  forall discovered m,
  exists found,
    fst (scan_ports oracle ports discovered m) = Some (discovered ++ found)%list
    /\ Forall (on_port ports) found.
Proof.
  induction ports as [|p rest IH]; intros Hnamed discovered m.
  - exists []. cbn. rewrite app_nil_r. split; [ reflexivity | constructor ].
  - simpl scan_ports. unfold bind at 1.
    match goal with
    | |- context [try_except ?c (ret None) m] =>
        destruct (try_ret_returns c None m) as [r Hr];
        destruct (try_except c (ret None) m) as [r' m1]
    end.
    cbn in Hr. subst r'. destruct r as [[conn devices]|].
    + rewrite bind_attr. unfold bind at 1.
      match goal with
      | |- context [try_except ?c (ret tt) m1] =>
          destruct (try_ret_returns c tt m1) as [u Hu];
          destruct (try_except c (ret tt) m1) as [u' m2]
      end.
      cbn in Hu. subst u'.
      set (here := map (fun d => _get_device_info (stage m1) d (Some p)) devices).
      destruct (IH (fun q Hq => Hnamed q (or_intror Hq)) (discovered ++ here)%list m2)
        as [found [Hf Hon]].
      exists (here ++ found)%list. split.
      * rewrite Hf, app_assoc. reflexivity.
      * apply Forall_app. split.
        -- apply Forall_forall. intros d Hd. subst here.
           apply in_map_iff in Hd. destruct Hd as [dev [<- _]].
           exists p. split; [ left; reflexivity | ].
           unfold _get_device_info, or_else.
           rewrite (Hnamed p (or_introl eq_refl)).
           destruct (dev_identity dev); reflexivity.
        -- eapply Forall_impl; [ | exact Hon ]. intros d. apply on_port_more.
    + destruct (IH (fun q Hq => Hnamed q (or_intror Hq)) discovered m1)
        as [found [Hf Hon]].
      exists found. split; [ exact Hf | ].
      eapply Forall_impl; [ | exact Hon ]. intros d. apply on_port_more.
Qed.

(** [scan_devices] never changes the controller object; it raises only if
    the platform query raises, whatever the ports do; and every device it
    reports is on one of the candidate ports of the platform. *)
Theorem scan_devices_result (m : Machine) :
  stage (snd (scan_devices oracle m)) = stage m
  /\ (oracle string (trace (world m)) PlatformSystem = None ->
      fst (scan_devices oracle m) = None)
  /\ (forall system,
        oracle string (trace (world m)) PlatformSystem = Some system ->
        exists found,
          fst (scan_devices oracle m) = Some found
          /\ Forall (on_port (candidate_ports system)) found).
Proof.
  split; [ apply (keeps_scan_devices oracle (fun s => s)) | split ].
  - intros H. unfold scan_devices. rewrite bind_invoke, H. reflexivity.
  - intros system H. unfold scan_devices. rewrite bind_invoke, H.
    destruct (scan_ports_finds (candidate_ports system)
                (candidate_ports_named system) [] (logged PlatformSystem m))
      as [found [Hf Hon]].
    exists found. split; [ exact Hf | exact Hon ].
Qed.

Lemma find_port_result (ports : list string) :
  forall m,
  exists r,
    fst (find_port oracle ports m) = Some r
    /\ (r = PyNone \/ exists p, In p ports /\ r = PyStr p).
Proof.
  induction ports as [|p rest IH]; intros m.
  - exists PyNone. split; [ reflexivity | left; reflexivity ].
  - simpl find_port. unfold bind at 1.
    match goal with
    | |- context [try_except ?c (ret false) m] =>
        destruct (try_ret_returns c false m) as [r Hr];
        destruct (try_except c (ret false) m) as [r' m1]
    end.
    cbn in Hr. subst r'. destruct r.
    + exists (PyStr p). split; [ reflexivity | ].
      right. exists p. split; [ left; reflexivity | reflexivity ].
    + destruct (IH m1) as [r [E [H | [q [Hq H]]]]]; exists r; (split; [ exact E | ]).
      * left. exact H.
      * right. exists q. split; [ right; exact Hq | exact H ].
Qed.

(** [_find_zaber_port] never changes the controller object and, once the
    platform is known, never raises: it returns [None] or the name of a
    candidate port, which is not empty. *)
Theorem find_zaber_port_result (m : Machine) (system : string) :
  oracle string (trace (world m)) PlatformSystem = Some system ->
  stage (snd (_find_zaber_port oracle m)) = stage m
  /\ exists r,
       fst (_find_zaber_port oracle m) = Some r
       /\ (r = PyNone
           \/ exists p, In p (candidate_ports system)
                        /\ String.eqb p "" = false
                        /\ r = PyStr p).
Proof.
  intros H. split; [ apply (keeps_find_zaber_port oracle (fun s => s)) | ].
  unfold _find_zaber_port. rewrite bind_invoke, H.
  destruct (find_port_result (candidate_ports system) (logged PlatformSystem m))
    as [r [E [Hr | [p [Hp Hr]]]]]; exists r; (split; [ exact E | ]).
  - left. exact Hr.
  - right. exists p. split; [ exact Hp | split; [ | exact Hr ] ].
    apply (candidate_ports_named system p Hp).
Qed.
End Discovery.

(** ** Construction and the module-level functions *)

Lemma spares_ret {A : Type} (a : A) : spares (ret a).
Proof. intros m. reflexivity. Qed.
Lemma spares_raise {A : Type} : spares (@raise A).
Proof. intros m. reflexivity. Qed.
Lemma spares_lift {A : Type} (o : option A) : spares (lift o).
Proof. destruct o; intros m; reflexivity. Qed.
Lemma spares_attr {A : Type} (g : ZaberStage -> A) : spares (attr g).
Proof. intros m. reflexivity. Qed.
Lemma spares_assign (upd : ZaberStage -> ZaberStage) : spares (assign upd).
Proof. intros m. reflexivity. Qed.
Lemma spares_invoke (oracle : Oracle) {T : Type} (c : call T) : spares (invoke oracle c).
Proof. intros m. reflexivity. Qed.
Lemma spares_load_json (filename : string) : spares (load_json filename).
Proof. intros m. unfold load_json. destruct (file_find _ _) as [[v|]|]; reflexivity. Qed.
Lemma spares_path_exists (filename : string) : spares (path_exists filename).
Proof. intros m. reflexivity. Qed.
Lemma spares_bind {A C : Type} (c : M A) (k : A -> M C) :
  spares c -> (forall a, spares (k a)) -> spares (bind c k).
Proof.
  intros Hc Hk m. unfold bind. specialize (Hc m).
  destruct (c m) as [[a|] m1]; cbn in *.
  - rewrite Hk. exact Hc.
  - exact Hc.
Qed.
Lemma spares_try_except {A : Type} (c h : M A) :
  spares c -> spares h -> spares (try_except c h).
Proof.
  intros Hc Hh m. unfold try_except. specialize (Hc m).
  destruct (c m) as [[a|] m1]; cbn in *.
  - exact Hc.
  - rewrite Hh. exact Hc.
Qed.

Ltac spares_step :=
  match goal with
  | |- spares (bind _ _) => apply spares_bind; [ | intros ? ]
  | |- spares (try_except _ _) => apply spares_try_except
  | |- spares (ret _) => apply spares_ret
  | |- spares raise => apply spares_raise
  | |- spares (lift _) => apply spares_lift
  | |- spares (attr _) => apply spares_attr
  | |- spares (assign _) => apply spares_assign
  | |- spares (invoke _ _) => apply spares_invoke
  | |- spares (load_json _) => apply spares_load_json
  | |- spares (path_exists _) => apply spares_path_exists
  | |- spares (match ?x with _ => _ end) => destruct x
  | |- spares (let _ := _ in _) => cbv zeta
  end.
Ltac spares_auto := repeat spares_step.

Lemma spares_load_config (filename : option string) : spares (load_config filename).
Proof. unfold load_config. spares_auto. Qed.

Lemma py_min_zero (rate : Q) : py_min rate 100 == 0 <-> rate == 0.
Proof. unfold py_min. destruct (Qlt_bool_spec 100 rate); split; intros H; lra. Qed.

Section Building.

Variable oracle : Oracle.

Lemma spares_scan_ports (ports : list string) :
  forall discovered, spares (scan_ports oracle ports discovered).
Proof.
  induction ports as [|p rest IH]; intros discovered; simpl.
  - spares_auto.
  - spares_auto; apply IH.
Qed.

Lemma spares_scan_devices : spares (scan_devices oracle).
Proof. unfold scan_devices. spares_auto. apply spares_scan_ports. Qed.

Lemma init_files port_arg limits mv rate cf w m :
  __init__ oracle port_arg limits mv rate cf w = Some m ->
  files (world m) = files w.
Proof.
  unfold __init__. destruct (py_inv _); [ | discriminate ].
  intros H. injection H as <-.
  match goal with
  | |- files (world (snd (?c ?m0))) = _ =>
      assert (K : spares c); [ | apply (K m0) ]
  end.
  spares_auto. apply spares_load_config.
Qed.

Lemma init_raises port_arg limits mv rate cf w :
  __init__ oracle port_arg limits mv rate cf w = None
  <-> py_inv (py_min rate 100) = None.
Proof.
  unfold __init__. destruct (py_inv (py_min rate 100)); split; intros H;
    try discriminate; reflexivity.
Qed.

Lemma init_raises_zero port_arg limits mv rate cf w :
  rate == 0 -> __init__ oracle port_arg limits mv rate cf w = None.
Proof.
  intros H. apply init_raises, py_inv_zero, py_min_zero. exact H.
Qed.

Lemma init_returns port_arg limits mv rate cf w :
  two (-1010) <= rate -> __init__ oracle port_arg limits mv rate cf w <> None.
Proof.
  intros H E. apply init_raises in E.
  destruct (py_inv_capped rate H) as [p Hp]. congruence.
Qed.

(** The constructor raises exactly when its division
    [1.0 / min(rate, 100.0)] does: for a rate of zero
    ([ZeroDivisionError]) and for an integer rate at or below
    [-(2 ^ 1024 - 2 ^ 970)], which no double holds ([OverflowError]); for
    a rate of at least [2 ^ -1010] it returns a controller. *)
Theorem constructor_raises_with_division port_arg limits mv rate cf w :
  (__init__ oracle port_arg limits mv rate cf w = None
   <-> py_inv (py_min rate 100) = None)
  /\ (rate == 0 -> __init__ oracle port_arg limits mv rate cf w = None)
  /\ (rate <= - huge -> __init__ oracle port_arg limits mv rate cf w = None)
  /\ (two (-1010) <= rate -> __init__ oracle port_arg limits mv rate cf w <> None).
Proof.
  split; [ apply init_raises | split; [ apply init_raises_zero | split ] ].
  - intros H. apply init_raises, py_inv_huge.
    assert (Hh : 0 < huge) by qcompute.
    assert (E : py_min rate 100 = rate).
    { unfold py_min. destruct (Qlt_bool_spec 100 rate); [ lra | reflexivity ]. }
    rewrite E, Qabs_neg by lra. lra.
  - apply init_returns.
Qed.

(** With a port other than "auto", whenever the division of the
    constructor yields a period, the constructor loads no configuration
    and makes one call, the device database switch; the new controller
    holds the arguments and that period, is neither connected nor homed,
    and has no identity.  The period is at least 10 ms for a positive rate
    and is [1.0 / 100] for a rate of 100 Hz or more. *)
Theorem constructor_explicit_port port_arg limits mv rate cf w (period : num) :
  String.eqb port_arg "auto" = false ->
  py_inv (py_min rate 100) = Some period ->
  exists m,
    __init__ oracle port_arg limits mv rate cf w = Some m
    /\ world m = log_event (Ev EnableDeviceDbStore) w
    /\ port (stage m) = PyStr port_arg
    /\ (min_pos (stage m), max_pos (stage m)) = (PyNum (fst limits), PyNum (snd limits))
    /\ max_velocity (stage m) = PyNum mv
    /\ config_file (stage m) = or_else cf (fun s => s) DEFAULT_CONFIG_FILE
    /\ link (stage m) = (false, None)
    /\ cache (stage m) = (0, Fin 0, false, false)
    /\ device_info (stage m) = None
    /\ reading_interval (stage m) = period
    /\ (0 < rate -> num_le (1 # 100) period = true)
    /\ (100 <= rate -> period = recip 100).
Proof.
  intros Hport Hrate. unfold __init__. rewrite Hrate.
  eexists. split; [ reflexivity | ].
  rewrite Hport. unfold try_except, bind, invoke, attr, path_exists, ret. cbn.
  assert (F : 0 < rate -> num_le (1 # 100) period = true).
  { intros H. apply (py_inv_floor (py_min rate 100)); [ | | exact Hrate ];
      unfold py_min; destruct (Qlt_bool_spec 100 rate); lra. }
  assert (C : 100 <= rate -> period = recip 100).
  { intros H. assert (E : py_min rate 100 == py_min 100 100).
    { unfold py_min. destruct (Qlt_bool_spec 100 rate);
        destruct (Qlt_bool_spec 100 100); lra. }
    rewrite (py_inv_eq _ _ E), py_inv_default in Hrate. congruence. }
  destruct (oracle unit (trace w) EnableDeviceDbStore); cbn;
    repeat split; assumption.
Qed.

(** In "auto" mode next to a loadable configuration file, the constructor
    takes the port, the limits, the maximum velocity and the polling period
    from the file: the limits, velocity and rate passed as arguments are
    overridden, and the rate of the file is not capped. *)
Theorem constructor_auto_loads (limits : Q * Q) (mv rate : Q) (cf : option string)
    (w : World) (d : list (string * pyval)) (lo hi : pyval) (own r period : num) :
  py_inv (py_min rate 100) = Some own ->
  file_find (or_else cf (fun s => s) DEFAULT_CONFIG_FILE) (files w)
  = Some (FileJson (PyDict d)) ->
  py_index (setting d "position_limits_mm" (PyList [PyNum 0; PyNum 100])) 0 = Some lo ->
  py_index (setting d "position_limits_mm" (PyList [PyNum 0; PyNum 100])) 1 = Some hi ->
  number (setting d "reading_rate_hz" (PyNum 100)) = Some r ->
  py_inv r = Some period ->
  truthy (setting d "device_info" PyNone) = false ->
  exists m,
    __init__ oracle "auto" limits mv rate cf w = Some m
    /\ world m = log_event (Ev EnableDeviceDbStore) w
    /\ port (stage m) = setting d "port" (PyStr "auto")
    /\ min_pos (stage m) = lo
    /\ max_pos (stage m) = hi
    /\ max_velocity (stage m) = setting d "max_velocity_mm_s" (PyNum 10)
    /\ reading_interval (stage m) = period
    /\ link (stage m) = (false, None).
Proof.
  intros Hrate Hfile Hlo Hhi Hr Hr0 Hinfo. unfold __init__. rewrite Hrate.
  eexists. split; [ reflexivity | ].
  set (name := or_else cf (fun s => s) DEFAULT_CONFIG_FILE) in *.
  assert (L : forall s w0,
             config_file s = name ->
             files w0 = files w ->
             let m0 := {| stage := s; world := w0 |} in
             let m1 := snd (load_config None m0) in
             world m1 = world m0
             /\ port (stage m1) = setting d "port" (PyStr "auto")
             /\ min_pos (stage m1) = lo /\ max_pos (stage m1) = hi
             /\ max_velocity (stage m1) = setting d "max_velocity_mm_s" (PyNum 10)
             /\ reading_interval (stage m1) = period
             /\ link (stage m1) = link s).
  { intros s w0 Hn Hf m0 m1. subst m1 m0.
    unfold load_config, load_json. run. cbn [stage world files config_file or_else].
    rewrite Hn, Hf, Hfile.
    cbv beta iota zeta delta [py_get].
    fold (setting d "position_limits_mm" (PyList [PyNum 0; PyNum 100])).
    rewrite Hlo, Hhi.
    fold (setting d "reading_rate_hz" (PyNum 100)). rewrite Hr, Hr0.
    fold (setting d "device_info" PyNone). rewrite Hinfo. cbn. repeat split. }
  match goal with
  | |- context [snd (?c ?m0)] => remember (c m0) as res eqn:Hres
  end.
  unfold try_except, bind, invoke, attr, path_exists, ret in Hres.
  cbn -[load_config or_else] in Hres. fold name in Hres.
  destruct (oracle unit (trace w) EnableDeviceDbStore);
    cbn -[load_config or_else] in Hres; fold name in Hres;
    rewrite Hfile in Hres; cbn -[load_config or_else] in Hres;
    match type of Hres with
    | context [load_config None {| stage := ?s; world := ?w0 |}] =>
        destruct (L s w0 eq_refl eq_refl) as (Hw & Hp & Hl & Hh & Hv & Hi & Hk);
        destruct (load_config None _) as [b m1]
    end; cbn in *; destruct b; subst res; cbn; rewrite Hw; repeat split; assumption.
Qed.


(** [create_stage] raises exactly when the division of the constructor
    does, so for a rate of zero and never for a rate of at least
    [2 ^ -1010]; a controller it returns is connected and holds a
    connection, a device, an axis and an identity. *)
Theorem create_stage_result port_arg limits mv rate w :
  (create_stage oracle port_arg limits mv rate w = None
   <-> py_inv (py_min rate 100) = None)
  /\ (rate == 0 -> create_stage oracle port_arg limits mv rate w = None)
  /\ (two (-1010) <= rate -> create_stage oracle port_arg limits mv rate w <> None)
  /\ (forall s w', create_stage oracle port_arg limits mv rate w = Some (Some s, w') ->
        established s).
Proof.
  assert (Hi : create_stage oracle port_arg limits mv rate w = None
               <-> __init__ oracle port_arg limits mv rate None w = None).
  { unfold create_stage.
    destruct (__init__ oracle port_arg limits mv rate None w) as [m|];
      [ | split; reflexivity ].
    destruct (connect oracle m) as [[[|]|] m1]; split; discriminate. }
  split; [ | split; [ | split ] ].
  - rewrite Hi. apply init_raises.
  - intros H. apply Hi, init_raises_zero. exact H.
  - intros H E. apply Hi in E. revert E. apply init_returns. exact H.
  - unfold create_stage. intros s w'.
    destruct (__init__ oracle port_arg limits mv rate None w) as [m|];
      [ | discriminate ].
    pose proof (connect_wins oracle m I) as Hw.
    destruct (connect oracle m) as [[[|]|] m1]; cbn in *; intros H;
      try discriminate.
    injection H as <- _. apply Hw. reflexivity.
Qed.

Lemma save_discovered_devices_files (devices : list DeviceInfo) (filename : string)
    (m : Machine) :
  exists b,
    fst (save_discovered_devices oracle devices filename m) = Some b
    /\ (files (world (snd (save_discovered_devices oracle devices filename m)))
        = files (world m)
        \/ exists c,
             files (world (snd (save_discovered_devices oracle devices filename m)))
             = (filename, c) :: files (world m)).
Proof.
  unfold save_discovered_devices, dump_json. run.
  destruct (oracle Q _ ClockTime) as [now|]; cbn; [ | exists false; auto ].
  destruct (oracle string _ ClockStrftime) as [readable|]; cbn; [ | exists false; auto ].
  destruct (oracle unit _ (OpenForWriting _)); cbn; [ | exists false; auto ].
  exists true. split; [ reflexivity | right; eexists; reflexivity ].
Qed.

(** [discover_all_devices] writes no file when the scan raises or finds
    nothing, and never writes a file other than discovered_devices.json. *)
Theorem discover_all_devices_files (w : World) :
  let r := discover_all_devices oracle w in
  (fst r = None \/ fst r = Some [] -> files (snd r) = files w)
  /\ (forall other, other <> "discovered_devices.json" ->
        file_find other (files (snd r)) = file_find other (files w)).
Proof.
  intros r. subst r. unfold discover_all_devices.
  destruct (__init__ oracle "auto" (0, 100) 10 100 None w) as [m|] eqn:Hinit;
    [ | cbn; split; reflexivity ].
  apply init_files in Hinit. rewrite <- Hinit. clear Hinit.
  match goal with
  | |- context [let (r, m') := ?c m in _] => remember (c m) as res eqn:E
  end.
  unfold bind at 1 in E.
  pose proof (spares_scan_devices m) as Hs.
  destruct (scan_devices oracle m) as [[[|d ds]|] m1]; cbn in Hs.
  - cbn in E. subst res. cbn.
    split; [ intros _; exact Hs | intros other _; rewrite Hs; reflexivity ].
  - unfold bind in E.
    destruct (save_discovered_devices_files (d :: ds) "discovered_devices.json" m1)
      as [b [Hb Hf]].
    destruct (save_discovered_devices oracle (d :: ds) "discovered_devices.json" m1)
      as [ob m2].
    cbn in Hb. subst ob. cbn in E. subst res. cbn in *. rewrite <- Hs. split.
    + intros [H | H]; discriminate.
    + intros other Hne. destruct Hf as [-> | [c ->]]; [ reflexivity | ].
      cbn -[String.eqb]. apply String.eqb_neq in Hne. rewrite Hne. reflexivity.
  - cbn in E. subst res. cbn.
    split; [ intros _; exact Hs | intros other _; rewrite Hs; reflexivity ].
Qed.

(** When the configuration file is missing, unparsable or not a JSON
    object, [load_stage_from_config] returns [None] having made one call,
    the device database switch: no port is opened. *)
Theorem load_stage_from_unreadable_config (cf : string) (w : World) :
  match file_find (or_else (Some cf) (fun s => s) DEFAULT_CONFIG_FILE) (files w) with
  | None => True
  | Some FileCorrupt => True
  | Some (FileJson v) => is_object v = false
  end ->
  load_stage_from_config oracle cf w
  = Some (None, log_event (Ev EnableDeviceDbStore) w).
Proof.
  set (name := or_else (Some cf) (fun s => s) DEFAULT_CONFIG_FILE).
  intros H.
  assert (L : forall m, config_file (stage m) = name -> files (world m) = files w ->
                load_config None m = (Some false, m)).
  { intros m Hn Hf. unfold load_config, load_json. run. cbn. rewrite Hn, Hf.
    destruct (file_find name (files w)) as [[v|]|]; cbn; try reflexivity.
    destruct v; cbn in H; try discriminate; destruct m; reflexivity. }
  unfold load_stage_from_config, __init__. rewrite py_inv_default.
  cbn -[or_else load_config]. fold name.
  unfold try_except, bind, invoke, attr, path_exists, ret.
  cbn -[or_else load_config]. fold name.
  destruct (oracle unit (trace w) EnableDeviceDbStore); cbn -[or_else load_config];
    destruct (file_find name (files w)) as [f|] eqn:Ef; cbn -[or_else load_config];
    repeat (match goal with
            | |- context [load_config None {| stage := ?s; world := ?w0 |}] =>
                rewrite (L {| stage := s; world := w0 |} eq_refl eq_refl)
            end; cbn -[or_else load_config]);
    reflexivity.
Qed.
End Building.

(** ** Instances of the further properties *)

Lemma disconnected_refuses_commands_witness :
  let o := sim 50 true false in
  home o fresh_machine = (Some false, fresh_machine)
  /\ stop o fresh_machine = (Some false, fresh_machine)
  /\ (forall v, set_velocity o v fresh_machine = (Some false, fresh_machine))
  /\ (forall t, move_to o t fresh_machine = (Some false, fresh_machine)).
Proof.
  intros o. apply (disconnected_refuses_commands o fresh_machine). evaluate.
Defined.

Lemma home_accepted_sets_homed_witness :
  let o := sim 50 true false in
  home o unhomed
  = (Some true,
     {| stage := set__is_homed true (stage unhomed);
        world := log_event (Ev (AxisHome 1%nat)) (world unhomed) |}).
Proof.
  intros o.
  assert (Hr : reachable o unhomed)
    by (unfold unhomed; apply run_reachable, fresh_reachable).
  assert (Hc : _connected (stage unhomed) = true) by evaluate.
  destruct (home_accepted_sets_homed o unhomed Hr Hc) as [a [Ha H]].
  vm_compute in Ha. injection Ha as <-. apply H. evaluate.
Defined.

Lemma stop_accepted_zeroes_velocity_witness :
  let o := sim 50 true false in
  fst (stop o (ready 50)) = Some true
  /\ trace (world (snd (stop o (ready 50))))
     = (trace (world (ready 50)) ++ [Ev (AxisStop 1%nat)])%list
  /\ _current_velocity (stage (snd (stop o (ready 50)))) = 0.
Proof.
  intros o.
  assert (Hr : reachable o (ready 50))
    by (unfold ready; apply run_reachable, fresh_reachable).
  assert (Hc : _connected (stage (ready 50)) = true) by evaluate.
  destruct (stop_accepted_zeroes_velocity o (ready 50) Hr Hc) as [a [Ha H]].
  vm_compute in Ha. injection Ha as <-.
  assert (Hok : raises o (trace (world (ready 50))) (Ev (AxisStop 1%nat)) = false)
    by evaluate.
  destruct (H Hok) as [H1 [H2 [H3 _]]].
  split; [ exact H1 | split; [ exact H2 | exact H3 ] ].
Defined.

Lemma set_velocity_accepted_caches_sent_witness :
  let o := sim 50 true false in
  let m' := snd (set_velocity o 25 (ready 50)) in
  exists a (sent : Q),
    trace (world m')
    = (trace (world (ready 50)) ++ [Ev (AxisMoveVelocity a sent)])%list
    /\ _current_velocity (stage m') = sent
    /\ - 10 <= sent <= 10
    /\ _current_position (stage m') = _current_position (stage (ready 50))
    /\ _is_moving (stage m') = _is_moving (stage (ready 50))
    /\ _is_homed (stage m') = true.
Proof.
  intros o.
  apply (set_velocity_accepted_caches_sent o (ready 50) 10 0 100 25);
    [ unfold ready; apply run_reachable, fresh_reachable
    | evaluate | evaluate | evaluate | evaluate | evaluate
    | unfold Qle; simpl; lia
    | evaluate ].
Defined.


Lemma load_config_unreadable_witness :
  load_config (Some "missing.json") fresh_machine = (Some false, fresh_machine).
Proof.
  apply (load_config_unreadable fresh_machine (Some "missing.json")).
  vm_compute. exact I.
Defined.

Lemma load_config_accepts_witness :
  let m := stored fast_items in
  let m' := snd (load_config None m) in
  fst (load_config None m) = Some true
  /\ world m' = world m
  /\ port (stage m') = setting fast_items "port" (PyStr "auto")
  /\ min_pos (stage m') = PyNum 0
  /\ max_pos (stage m') = PyNum 100
  /\ max_velocity (stage m') = setting fast_items "max_velocity_mm_s" (PyNum 10)
  /\ reading_interval (stage m') = recip 200
  /\ device_info (stage m')
     = (if truthy (setting fast_items "device_info" PyNone)
        then parse_device_info (setting fast_items "device_info" PyNone)
        else device_info (stage m))
  /\ cache (stage m') = cache (stage m)
  /\ link (stage m') = link (stage m).
Proof.
  intros m.
  apply (load_config_accepts m None fast_items (PyNum 0) (PyNum 100)
           (Fin 200) (recip 200));
    [ evaluate | evaluate | evaluate | evaluate | evaluate
    | left; evaluate ].
Defined.

Lemma load_config_bad_limits_witness :
  let d := [ ("port", PyStr "COM7"); ("position_limits_mm", PyList [PyNum 5]) ] in
  load_config None (stored d)
  = (Some false,
     {| stage := set_port (setting d "port" (PyStr "auto")) (stage (stored d));
        world := world (stored d) |}).
Proof.
  intros d.
  apply (load_config_bad_limits (stored d) None d);
    [ evaluate | right; evaluate ].
Defined.

Lemma load_config_bad_rate_witness :
  let d := [ ("port", PyStr "COM7"); ("reading_rate_hz", PyNum (10 ^ 400)) ] in
  py_inv (10 ^ 400) = None
  /\ load_config None (stored d)
     = (Some false,
        {| stage :=
             set_max_velocity (setting d "max_velocity_mm_s" (PyNum 10))
               (set_max_pos (PyNum 100)
                  (set_min_pos (PyNum 0)
                     (set_port (setting d "port" (PyStr "auto")) (stage (stored d)))));
           world := world (stored d) |}).
Proof.
  intros d.
  assert (E : py_inv (10 ^ 400) = None) by evaluate.
  split; [ exact E | ].
  apply (load_config_bad_rate (stored d) None d (PyNum 0) (PyNum 100));
    [ evaluate | evaluate | evaluate
    | right; exists (Fin (10 ^ 400)); split; [ reflexivity | exact E ] ].
Defined.

Lemma settings_change_only_on_load_witness :
  let o := sim 50 true false in
  settings (stage (perform o Connect fresh_machine)) = settings (stage fresh_machine).
Proof.
  intros o. apply (settings_change_only_on_load o Connect fresh_machine). reflexivity.
Defined.

Lemma homed_flag_written_only_by_connect_and_home_witness :
  let o := sim 50 true false in
  _is_homed (stage (ready 50)) = true
  /\ _is_homed (stage (perform o Disconnect (ready 50))) = _is_homed (stage (ready 50)).
Proof.
  intros o. split; [ evaluate | ].
  apply (homed_flag_written_only_by_connect_and_home o Disconnect (ready 50)).
  reflexivity.
Defined.

Lemma connect_true_means_established_witness :
  let o := sim 50 true false in
  fst (connect o fresh_machine) = Some true
  /\ established (stage (snd (connect o fresh_machine))).
Proof.
  intros o.
  assert (H : fst (connect o fresh_machine) = Some true) by evaluate.
  split; [ exact H | ].
  apply (proj2 (connect_true_means_established o fresh_machine)). exact H.
Defined.

Lemma connect_finds_no_device_witness :
  connect silent_bus fresh_machine
  = (Some false,
     {| stage := set_connection (Some 1%nat) (stage fresh_machine);
        world := log_event (Ev (DetectDevices 1%nat))
                   (log_event (Ev (OpenSerialPort (PyStr "COM3")))
                      (world fresh_machine)) |}).
Proof.
  apply (connect_finds_no_device silent_bus fresh_machine 1%nat);
    [ evaluate | evaluate | vm_compute; exact I ].
Defined.

(** None of the Linux candidate ports is the simulated COM3. *)
Lemma sim_no_port_opens : no_port_opens (sim 50 true false) "Linux".
Proof.
  intros tr p Hp. vm_compute in Hp.
  repeat (destruct Hp as [<- | Hp]; [ reflexivity | ]). destruct Hp.
Qed.

Lemma connect_auto_finds_nothing_witness :
  let o := sim 50 true false in
  let tried := Ev PlatformSystem :: attempts (candidate_ports "Linux") in
  connect o auto_machine
  = (Some false,
     {| stage := set_port PyNone (stage auto_machine);
        world := {| trace := trace (world auto_machine) ++ tried ++ tried;
                    files := files (world auto_machine) |} |}).
Proof.
  intros o.
  apply (connect_auto_finds_nothing o auto_machine "Linux");
    [ evaluate | reflexivity | apply sim_no_port_opens ].
Defined.

Lemma find_zaber_port_result_witness :
  let o := sim 50 true false in
  stage (snd (_find_zaber_port o fresh_machine)) = stage fresh_machine
  /\ exists r,
       fst (_find_zaber_port o fresh_machine) = Some r
       /\ (r = PyNone
           \/ exists p, In p (candidate_ports "Linux")
                        /\ String.eqb p "" = false
                        /\ r = PyStr p).
Proof.
  intros o. apply (find_zaber_port_result o fresh_machine "Linux"). evaluate.
Defined.

Lemma constructor_raises_with_division_witness :
  let o := sim 50 true false in
  __init__ o "COM3" (0, 100) 10 0 None empty_world = None
  /\ __init__ o "COM3" (0, 100) 10 (- 10 ^ 400) None empty_world = None
  /\ __init__ o "COM3" (0, 100) 10 (1 # 1000) None empty_world <> None.
Proof.
  intros o. split; [ | split ].
  - destruct (constructor_raises_with_division o "COM3" (0, 100) 10 0
                None empty_world) as [_ [H _]].
    apply H. reflexivity.
  - destruct (constructor_raises_with_division o "COM3" (0, 100) 10 (- 10 ^ 400)
                None empty_world) as [_ [_ [H _]]].
    apply H. qcompute.
  - destruct (constructor_raises_with_division o "COM3" (0, 100) 10 (1 # 1000)
                None empty_world) as [_ [_ [_ H]]].
    apply H. qcompute.
Defined.

Lemma constructor_explicit_port_witness :
  let o := sim 50 true false in
  exists m,
    __init__ o "COM3" (0, 100) 10 250 None empty_world = Some m
    /\ world m = log_event (Ev EnableDeviceDbStore) empty_world
    /\ port (stage m) = PyStr "COM3"
    /\ (min_pos (stage m), max_pos (stage m)) = (PyNum (fst (0, 100)), PyNum (snd (0, 100)))
    /\ max_velocity (stage m) = PyNum 10
    /\ config_file (stage m) = or_else None (fun s => s) DEFAULT_CONFIG_FILE
    /\ link (stage m) = (false, None)
    /\ cache (stage m) = (0, Fin 0, false, false)
    /\ device_info (stage m) = None
    /\ reading_interval (stage m) = recip 100
    /\ (0 < 250 -> num_le (1 # 100) (recip 100) = true)
    /\ (100 <= 250 -> recip 100 = recip 100).
Proof.
  intros o.
  apply (constructor_explicit_port o "COM3" (0, 100) 10 250 None empty_world
           (recip 100));
    [ reflexivity | evaluate ].
Defined.

Lemma constructor_auto_loads_witness :
  let o := sim 50 true false in
  exists m,
    __init__ o "auto" (5, 50) 2 20 None fast_world = Some m
    /\ world m = log_event (Ev EnableDeviceDbStore) fast_world
    /\ port (stage m) = setting fast_items "port" (PyStr "auto")
    /\ min_pos (stage m) = PyNum 0
    /\ max_pos (stage m) = PyNum 100
    /\ max_velocity (stage m) = setting fast_items "max_velocity_mm_s" (PyNum 10)
    /\ reading_interval (stage m) = recip 200
    /\ link (stage m) = (false, None).
Proof.
  intros o.
  apply (constructor_auto_loads o (5, 50) 2 20 None fast_world fast_items
           (PyNum 0) (PyNum 100) (recip 20) (Fin 200) (recip 200));
    evaluate.
Defined.

Lemma create_stage_result_witness :
  let o := sim 50 true false in
  exists s w',
    create_stage o "COM3" (0, 100) 10 100 empty_world = Some (Some s, w')
    /\ established s.
Proof.
  intros o.
  destruct (create_stage o "COM3" (0, 100) 10 100 empty_world)
    as [[[s|] w']|] eqn:E; try (vm_compute in E; discriminate).
  exists s, w'. split; [ reflexivity | ].
  apply (proj2 (proj2 (proj2
           (create_stage_result o "COM3" (0, 100) 10 100 empty_world))) s w').
  exact E.
Defined.

Lemma load_stage_from_unreadable_config_witness :
  let o := sim 50 true false in
  load_stage_from_config o "missing.json" empty_world
  = Some (None, log_event (Ev EnableDeviceDbStore) empty_world).
Proof.
  intros o. apply (load_stage_from_unreadable_config o "missing.json" empty_world).
  vm_compute. exact I.
Defined.
